(** * Content pipeline: research, quality gate, book and audiobook stages

    A shallow embedding of the Python sources

      - backend/lambda/research_handler.py
      - backend/utils/orchestrator.py
      - backend/lambda/book_generator.py
      - backend/lambda/audiobook_generator.py

    Python [str] values are [string]s (characters are the code points
    0..255), Python [int]s are [Z], Python [float]s are binary64 values
    of the standard library's [spec_float]; the quotient [a / b] of two
    integers is the exact quotient rounded once, and raises when the
    divisor is zero or the quotient too large.  External services (the text
    generation backends, the speech backend, blob storage, the clock) are
    functions on an abstract world that the code threads through its
    calls; an exception is a [Raised] outcome. *)

From Stdlib Require Import ZArith List Bool Lia.
From Stdlib Require Import Ascii String DecimalString.
From Stdlib Require Import Floats.SpecFloat.
Import ListNotations.

Local Open Scope string_scope.
Local Open Scope Z_scope.

(* ================================================================== *)
(** * Python primitives *)
(* ================================================================== *)

Module Py.

(** [len(s)] *)
Definition len (s : string) : Z := Z.of_nat (String.length s).

(** Truthiness of a string: [if s:] *)
Definition truthy (s : string) : bool :=
  match s with
  | EmptyString => false
  | String _ _ => true
  end.

(** [str.isspace] on one character, for code points below 256. *)
Definition isspace (c : ascii) : bool :=
  let n := nat_of_ascii c in
  ((9 <=? n) && (n <=? 13))%nat
  || ((28 <=? n) && (n <=? 32))%nat
  || (n =? 133)%nat || (n =? 160)%nat.

(** [str.isdigit] restricted to what [\d] matches below code point 256. *)
Definition isdigit (c : ascii) : bool :=
  let n := nat_of_ascii c in ((48 <=? n) && (n <=? 57))%nat.

(** [s.split()]: the maximal runs of non-whitespace characters. *)
Fixpoint split_ws (s : string) : list string :=
  match s with
  | EmptyString => []
  | String c s' =>
      if isspace c then split_ws s'
      else
        match s' with
        | EmptyString => [String c EmptyString]
        | String c' _ =>
            if isspace c' then String c EmptyString :: split_ws s'
            else
              match split_ws s' with
              | w :: ws => String c w :: ws
              | [] => [String c EmptyString]
              end
        end
  end.

(** [s.split(sep)] for a non-empty separator: scan left to right; at a
    match close the current piece and skip the separator. *)
Fixpoint split_from (sep s : string) (skip : nat) : list string :=
  match s with
  | EmptyString => [EmptyString]
  | String c s' =>
      match skip with
      | S k => split_from sep s' k
      | O =>
          if prefix sep s
          then EmptyString :: split_from sep s' (String.length sep - 1)
          else
            match split_from sep s' 0 with
            | w :: ws => String c w :: ws
            | [] => [String c EmptyString]
            end
      end
  end.

Definition split (sep s : string) : list string := split_from sep s 0.

(** [s.replace(old, new)] for a non-empty [old]: non-overlapping
    occurrences, left to right. *)
Fixpoint replace_from (old new s : string) (skip : nat) : string :=
  match s with
  | EmptyString => EmptyString
  | String c s' =>
      match skip with
      | S k => replace_from old new s' k
      | O =>
          if prefix old s
          then new ++ replace_from old new s' (String.length old - 1)
          else String c (replace_from old new s' 0)
      end
  end.

Definition replace (old new s : string) : string := replace_from old new s 0.

(** [c in s] for a one-character needle. *)
Fixpoint contains (c : ascii) (s : string) : bool :=
  match s with
  | EmptyString => false
  | String d s' => Ascii.eqb c d || contains c s'
  end.

(** [re.findall(r'\d+', s)]: the maximal runs of digits. *)
Fixpoint findall_digits (s : string) : list string :=
  match s with
  | EmptyString => []
  | String c s' =>
      if isdigit c then
        match s' with
        | EmptyString => [String c EmptyString]
        | String c' _ =>
            if isdigit c' then
              match findall_digits s' with
              | w :: ws => String c w :: ws
              | [] => [String c EmptyString]
              end
            else String c EmptyString :: findall_digits s'
        end
      else findall_digits s'
  end.

(** [s.lstrip()], [s.rstrip()], [s.strip()] *)
Fixpoint lstrip (s : string) : string :=
  match s with
  | EmptyString => EmptyString
  | String c s' => if isspace c then lstrip s' else s
  end.

Fixpoint rstrip (s : string) : string :=
  match s with
  | EmptyString => EmptyString
  | String c s' =>
      match rstrip s' with
      | EmptyString => if isspace c then EmptyString else String c EmptyString
      | t => String c t
      end
  end.

Definition strip (s : string) : string := rstrip (lstrip s).

(** [sep.join(l)] *)
Fixpoint join (sep : string) (l : list string) : string :=
  match l with
  | [] => EmptyString
  | [x] => x
  | x :: rest => x ++ sep ++ join sep rest
  end.

(** [c * n]: a character repeated. *)
Fixpoint repeat_char (c : ascii) (n : nat) : string :=
  match n with
  | O => EmptyString
  | S k => String c (repeat_char c k)
  end.

(** [sum(l)] on integers *)
Definition sum (l : list Z) : Z := fold_left Z.add l 0.

(** [str(z)] for an integer, as an f-string prints it *)
Definition str_int (z : Z) : string := NilZero.string_of_int (Z.to_int z).

(** [bool(re.search(r'\d+', s))]: some digit occurs. *)
Fixpoint has_digit (s : string) : bool :=
  match s with
  | EmptyString => false
  | String c s' => isdigit c || has_digit s'
  end.

(** [s.lower()], for code points below 256: the letters A-Z and the
    accented capitals of Latin-1. *)
Definition lower_char (c : ascii) : ascii :=
  let n := nat_of_ascii c in
  if (((65 <=? n) && (n <=? 90))
      || ((192 <=? n) && (n <=? 222) && negb (n =? 215)))%nat
  then ascii_of_nat (n + 32) else c.

Fixpoint lower (s : string) : string :=
  match s with
  | EmptyString => EmptyString
  | String c s' => String (lower_char c) (lower s')
  end.

(** [needle in s] for strings *)
Fixpoint contains_str (needle s : string) : bool :=
  prefix needle s
  || match s with
     | EmptyString => false
     | String _ s' => contains_str needle s'
     end.

End Py.

(* ================================================================== *)
(** * Python exceptions and numbers *)
(* ================================================================== *)

(** The result of a call that may raise: the value returned, or the
    message of the exception. *)
Inductive outcome (A : Type) : Type :=
| Returned (a : A)
| Raised (msg : string).

Arguments Returned {A} a.
Arguments Raised {A} msg.

(** Python [float]: IEEE 754 binary64. *)
Module F64.

Definition prec : Z := 53.
Definition emax : Z := 1024.

Definition float := spec_float.

(** [float(z)] for an integer: the nearest float, exact below 2^53. *)
Definition of_int (z : Z) : float := binary_normalize prec emax z 0 false.

(** An integer as an unrounded mantissa with exponent 0. *)
Definition exact (z : Z) : float :=
  match z with
  | 0 => S754_zero false
  | Z.pos p => S754_finite false p 0
  | Z.neg p => S754_finite true p 0
  end.

(** The float nearest to the exact quotient of two integers, rounded
    once; an infinity when the quotient is too large for a float. *)
Definition div_int (a b : Z) : float := SFdiv prec emax (exact a) (exact b).

(** [a / b] on two integers: Python rounds the exact quotient, and
    raises when the divisor is zero or the quotient too large. *)
Definition truediv_int (a b : Z) : outcome float :=
  if b =? 0 then Raised "division by zero"
  else
    match div_int a b with
    | S754_infinity _ =>
        Raised "integer division result too large for a float"
    | quotient => Returned quotient
    end.

Definition mul (x y : float) : float := SFmul prec emax x y.

(** The literal [0.5]. *)
Definition half : float := S754_finite false 4503599627370496 (-53).

(** [x >= y] on two floats. *)
Definition geb (x y : float) : bool := SFleb y x.

(** [h >= f] for an integer [h] and a float [f]: Python compares the
    integer with the exact value of the float. *)
Definition int_geb (h : Z) (f : float) : bool :=
  match f with
  | S754_nan => false
  | S754_infinity s => s
  | S754_zero _ => 0 <=? h
  | S754_finite s m e =>
      let v := if s then Z.neg m else Z.pos m in
      if 0 <=? e then v * 2 ^ e <=? h
      else v <=? h * 2 ^ (- e)
  end.

(** [int(f)]: truncation toward zero; raises on nan and infinities. *)
Definition to_int (f : float) : outcome Z :=
  match f with
  | S754_nan => Raised "cannot convert float NaN to integer"
  | S754_infinity _ => Raised "cannot convert float infinity to integer"
  | S754_zero _ => Returned 0
  | S754_finite s m e =>
      let a := if 0 <=? e then Z.pos m * 2 ^ e
               else Z.pos m / 2 ^ (- e) in
      Returned (if s then - a else a)
  end.

(** The integer nearest to [num / den] ([den] positive), a tie going to
    the even neighbour. *)
Definition div_half_even (num den : Z) : Z :=
  let q := num / den in
  let r := num mod den in
  match 2 * r ?= den with
  | Lt => q
  | Gt => q + 1
  | Eq => if Z.even q then q else q + 1
  end.

(** [round(x, 1)]: the decimal with one fractional digit nearest to the
    exact value of [x] (a tie going to the even digit), read back as the
    nearest float. *)
Definition round1 (x : float) : float :=
  match x with
  | S754_finite s m e =>
      if 0 <=? e then x
      else
        match div_half_even (10 * Z.pos m) (2 ^ (- e)) with
        | Z.pos t =>
            SFdiv prec emax (S754_finite s t 0) (S754_finite false 10 0)
        | _ => S754_zero s
        end
  | _ => x
  end.

(** [x + y] on two floats. *)
Definition add (x y : float) : float := SFadd prec emax x y.

(** [x < y] on two floats. *)
Definition ltb (x y : float) : bool := SFltb x y.

(** A decimal literal [n / 10^k], read as the nearest float: [0.3] is
    [decimal 3 1]. *)
Definition decimal (n : Z) (k : Z) : float := div_int n (10 ^ k).

(** [min(x, y)] on two floats: [y] only when it is strictly smaller. *)
Definition min (x y : float) : float := if ltb y x then y else x.

(** [x >= z] for a float and an integer below 2^53. *)
Definition geb_int (x : float) (z : Z) : bool := geb x (of_int z).

End F64.

(** A JSON number as Python holds it: [int] or [float]. *)
Inductive number : Type :=
| Int (z : Z)
| Float (f : F64.float).

(* ================================================================== *)
(** * Calls on the outside world *)
(* ================================================================== *)

(** A computation that reads and changes the world [W] and either
    returns or raises. *)
Definition M (W A : Type) : Type := W -> outcome A * W.

Definition ret {W A : Type} (a : A) : M W A := fun w => (Returned a, w).

Definition raise {W A : Type} (msg : string) : M W A :=
  fun w => (Raised msg, w).

Definition bind {W A B : Type} (m : M W A) (k : A -> M W B) : M W B :=
  fun w =>
    match m w with
    | (Returned a, w') => k a w'
    | (Raised msg, w') => (Raised msg, w')
    end.

(** [try: body  except Exception as e: handler(str(e))] *)
Definition try_except {W A : Type} (body : M W A) (handler : string -> M W A)
  : M W A :=
  fun w =>
    match body w with
    | (Returned a, w') => (Returned a, w')
    | (Raised msg, w') => handler msg w'
    end.

(** A world-changing call that cannot raise. *)
Definition lift {W A : Type} (f : W -> A * W) : M W A :=
  fun w => let (a, w') := f w in (Returned a, w').

Declare Scope eff_scope.
Delimit Scope eff_scope with eff.
Notation "x <- m ;; k" := (bind m (fun x => k))
  (at level 61, m at next level, right associativity) : eff_scope.
Local Open Scope eff_scope.

Definition nl : string := String (ascii_of_nat 10) EmptyString.

(* ================================================================== *)
(** * backend/lambda/research_handler.py *)
(* ================================================================== *)

(** One research insight: the dictionary with the keys [section],
    [details], [confidence] and [source]; a key may be absent when the
    dictionary comes from a request body. *)
Record research_item : Type := {
  section : option string;
  details : option string;
  ri_confidence : option Z;
  source : option string
}.

Module ResearchHandler.

(** The two text generation backends, as far as this module sees them:
    the completion text that the Bedrock [invoke_model] call carries for
    a prompt (the empty string when the key is missing), and the message
    content of Groq's chat completion.  Either call may raise. *)
Class Backends (W : Type) : Type := {
  bedrock_completion : string -> M W string;
  groq_completion : string -> M W string
}.

Definition create_research_prompt (topic section : string) : string :=
  if String.eqb section "Overview" then
    "Provide a comprehensive overview of " ++ topic ++ ". " ++ nl ++
    "Include definition, key concepts, and current relevance. " ++ nl ++
    "Be factual and concise (2-3 sentences)."
  else if String.eqb section "Key Statistics" then
    "Provide 2-3 key statistics about " ++ topic ++ "." ++ nl ++
    "Include recent data with specific numbers and percentages." ++ nl ++
    "Focus on market size, adoption rates, or growth trends."
  else if String.eqb section "Advantages" then
    "List the main advantages and benefits of " ++ topic ++ "." ++ nl ++
    "Include 3-4 key benefits with brief explanations." ++ nl ++
    "Focus on practical, real-world benefits."
  else if String.eqb section "Challenges" then
    "Describe the main challenges and limitations of " ++ topic ++ "." ++ nl ++
    "Include 3-4 significant challenges with brief context." ++ nl ++
    "Be balanced and objective."
  else if String.eqb section "Future Outlook" then
    "Provide insights on the future prospects of " ++ topic ++ "." ++ nl ++
    "Include projections, trends, and expected developments." ++ nl ++
    "Focus on the next 5-10 years."
  else if String.eqb section "Recommendations" then
    "Provide practical recommendations for someone considering "
      ++ topic ++ "." ++ nl ++
    "Include 3-4 actionable suggestions." ++ nl ++
    "Focus on evaluation criteria and best practices."
  else
    "Provide detailed information about " ++ section ++ " for " ++ topic ++ ".".

Definition calculate_confidence_score (content section : string) : Z :=
  let confidence := 75 in
  let confidence :=
    if 200 <? Py.len content then confidence + 5
    else if 150 <? Py.len content then confidence + 3
    else confidence in
  let numbers := Py.findall_digits content in
  let confidence :=
    match numbers with
    | [] => confidence
    | _ :: _ => confidence + Z.min (Z.of_nat (List.length numbers) * 2) 8
    end in
  let confidence :=
    if Py.contains "%"%char content then confidence + 5 else confidence in
  let confidence :=
    if String.eqb section "Key Statistics"
       && (match numbers with [] => false | _ :: _ => true end)
    then confidence + 5 else confidence in
  let confidence :=
    if String.eqb section "Overview" && (100 <? Py.len content)
    then confidence + 3 else confidence in
  Z.max 70 (Z.min 98 confidence).

Section WithBackends.

Context {W : Type} {backends : Backends W}.

(** The request wraps the prompt as a conversation turn. *)
Definition generate_with_bedrock (prompt : string) : M W string :=
  completion <- bedrock_completion
                  (nl ++ nl ++ "Human: " ++ prompt ++ nl ++ nl ++ "Assistant:") ;;
  let content := Py.strip completion in
  if Py.truthy content then ret content
  else raise "Empty response from Bedrock".

Definition generate_with_groq (prompt : string) : M W string :=
  message <- groq_completion prompt ;;
  let content := Py.strip message in
  if Py.truthy content then ret content
  else raise "Empty response from Groq".

Definition fallback_item (section : string) : research_item :=
  {| section := Some section;
     details := Some ("Research data for " ++ section ++
                      " is currently unavailable. Please try again later.");
     ri_confidence := Some 50;
     source := Some "fallback" |}.

(** The body of the loop of [generate_research]: the entry appended for
    one section. *)
Definition research_section (topic section : string) : M W research_item :=
  let prompt := create_research_prompt topic section in
  try_except
    (content <- generate_with_bedrock prompt ;;
     let confidence := calculate_confidence_score content section in
     ret {| section := Some section; details := Some content;
            ri_confidence := Some confidence; source := Some "bedrock" |})
    (fun _ =>
       try_except
         (content <- generate_with_groq prompt ;;
          let confidence := calculate_confidence_score content section in
          ret {| section := Some section; details := Some content;
                 ri_confidence := Some confidence; source := Some "groq" |})
         (fun _ => ret (fallback_item section))).

Fixpoint research_loop (topic : string) (sections : list string)
    (research_results : list research_item) : M W (list research_item) :=
  match sections with
  | [] => ret research_results
  | section :: rest =>
      item <- research_section topic section ;;
      research_loop topic rest (research_results ++ [item])
  end.

Definition generate_research (topic : string) (sections : list string)
  : M W (list research_item) :=
  research_loop topic sections [].

End WithBackends.

(** [calculate_average_confidence]: [0.0] for an empty list, else the
    mean of [item.get('confidence', 0)] rounded to one decimal. *)
Definition calculate_average_confidence (results : list research_item)
  : outcome F64.float :=
  match results with
  | [] => Returned (S754_zero false)
  | _ :: _ =>
      let total :=
        Py.sum (map (fun item => match ri_confidence item with
                                 | Some c => c
                                 | None => 0
                                 end) results) in
      match F64.truediv_int total (Z.of_nat (List.length results)) with
      | Returned average => Returned (F64.round1 average)
      | Raised e => Raised e
      end
  end.

End ResearchHandler.

(* ================================================================== *)
(** * backend/utils/orchestrator.py: the quality gate *)
(* ================================================================== *)

Module Orchestrator.

(** The body of the research response, as far as the gate reads it: the
    key [results] may be absent. *)
Record research_data : Type := {
  results : option (list research_item)
}.

(** The dictionary under the key [confidence_distribution]. *)
Record distribution : Type := {
  high : Z;      (* 'high (>=85%)' *)
  medium : Z;    (* 'medium (70-84%)' *)
  low : Z        (* 'low (<70%)' *)
}.

(** The dictionary returned by the gate; the early return for an empty
    list carries no [confidence_distribution] key. *)
Record verdict : Type := {
  acceptable : bool;
  average_confidence : number;
  total_sections : Z;
  high_confidence_count : Z;
  confidence_distribution : option distribution
}.

(** [item.get('confidence', 0) for item in results] *)
Definition confidences_of (rs : list research_item) : list Z :=
  map (fun item => match ri_confidence item with
                   | Some c => c
                   | None => 0
                   end) rs.

(** [sum(1 for c in confidences if p(c))] *)
Definition count_if (p : Z -> bool) (confidences : list Z) : Z :=
  Py.sum (map (fun _ => 1) (filter p confidences)).

(** [sum(confidences) / len(confidences)] *)
Definition average_of (confidences : list Z) : outcome F64.float :=
  F64.truediv_int (Py.sum confidences) (Z.of_nat (List.length confidences)).

Definition _validate_research_quality (min_confidence : F64.float)
    (data : research_data) : outcome verdict :=
  match results data with
  | None | Some [] =>
      Returned {| acceptable := false;
                  average_confidence := Int 0;
                  total_sections := 0;
                  high_confidence_count := 0;
                  confidence_distribution := None |}
  | Some rs =>
      let confidences := confidences_of rs in
      match average_of confidences with
      | Raised e => Raised e
      | Returned average =>
          let high_confidence :=
            count_if (fun c => 85 <=? c) confidences in
          let acceptable :=
            F64.geb average min_confidence
            && F64.int_geb high_confidence
                 (F64.mul (F64.of_int (Z.of_nat (List.length rs)))
                    F64.half) in
          Returned
            {| acceptable := acceptable;
               average_confidence := Float (F64.round1 average);
               total_sections := Z.of_nat (List.length rs);
               high_confidence_count := high_confidence;
               confidence_distribution :=
                 Some {| high := high_confidence;
                         medium :=
                           count_if (fun c => (70 <=? c) && (c <? 85))
                             confidences;
                         low := count_if (fun c => c <? 70) confidences |} |}
      end
  end.

(** The parsed body of a Lambda response, as far as the orchestrator
    reads it: the keys [results] and [error]; [lb_rest] stands for the
    other keys, which are passed on unread. *)
Record lambda_body : Type := {
  lb_results : option (list research_item);
  lb_error : option string;
  lb_rest : string
}.

(** The orchestrator object. *)
Record orchestrator : Type := {
  research_lambda : string;
  book_lambda : string;
  min_confidence : F64.float
}.

(** What the orchestrator calls outside.  An invocation stands for
    [lambda_client.invoke] with the JSON payload built from the
    arguments, followed by the parsing of the response: it yields the
    status code and the parsed body, or raises. *)
Class Cloud (W : Type) : Type := {
  (* function name, topic, user id *)
  invoke_research : string -> string -> string -> M W (Z * lambda_body);
  (* function name, topic, research data, book title, user id *)
  invoke_book : string -> string -> list research_item -> string -> string
                -> M W (Z * lambda_body);
  (* [int(datetime.utcnow().timestamp())] *)
  utcnow_timestamp : W -> Z * W;
  (* [datetime.utcnow().isoformat()] *)
  utcnow_isoformat : W -> string * W;
  (* the log line of [_store_workflow_history], given the workflow id *)
  log_workflow_history : string -> W -> unit * W
}.

(** The dictionary returned by [_invoke_research_lambda]. *)
Record research_invocation : Type := {
  ri_success : bool;
  ri_data : option lambda_body;
  ri_error : option string
}.

(** The dictionary under [book]: the result of [_invoke_book_lambda], or
    the note that the book was skipped. *)
Record book_part : Type := {
  bp_status : string;
  bp_data : option lambda_body;
  bp_error : option string;
  bp_reason : option string
}.

(** The dictionary under [research]. *)
Record research_part : Type := {
  rp_status : string;
  rp_data : lambda_body;
  quality_metrics : verdict
}.

(** The dictionary returned by [process_research_request]; which keys
    are present depends on the outcome. *)
Record workflow_result : Type := {
  workflow_id : string;
  wf_status : string;
  wf_stage : option string;
  wf_error : option string;
  wf_topic : option string;
  wf_timestamp : option string;
  wf_research : option research_part;
  wf_book : option book_part
}.

Section Workflow.

Context {W : Type} {cloud : Cloud W}.

Definition _invoke_research_lambda (self : orchestrator)
    (topic user_id : string) : M W research_invocation :=
  try_except
    (response <- invoke_research (research_lambda self) topic user_id ;;
     let (status_code, body) := response in
     if status_code =? 200 then
       ret {| ri_success := true; ri_data := Some body; ri_error := None |}
     else
       ret {| ri_success := false; ri_data := None;
              ri_error := Some (match lb_error body with
                                | Some e => e
                                | None => "Unknown error"
                                end) |})
    (fun e =>
       ret {| ri_success := false; ri_data := None; ri_error := Some e |}).

Definition _invoke_book_lambda (self : orchestrator) (topic : string)
    (research_data : list research_item) (user_id : string)
  : M W book_part :=
  try_except
    (response <- invoke_book (book_lambda self) topic research_data
                   ("Comprehensive Guide to " ++ topic) user_id ;;
     let (status_code, body) := response in
     if status_code =? 200 then
       ret {| bp_status := "success"; bp_data := Some body;
              bp_error := None; bp_reason := None |}
     else
       ret {| bp_status := "failed"; bp_data := None;
              bp_error := Some (match lb_error body with
                                | Some e => e
                                | None => "Unknown error"
                                end);
              bp_reason := None |})
    (fun e =>
       ret {| bp_status := "error"; bp_data := None; bp_error := Some e;
              bp_reason := None |}).

(** Logs the workflow id; a failure of the logging is swallowed. *)
Definition _store_workflow_history (workflow_data : workflow_result)
  : M W unit :=
  lift (log_workflow_history (workflow_id workflow_data)).

Definition process_research_request (self : orchestrator)
    (topic user_id : string) (generate_book : bool) : M W workflow_result :=
  now <- lift utcnow_timestamp ;;
  let workflow_id := user_id ++ "_" ++ Py.str_int now in
  try_except
    (research_result <- _invoke_research_lambda self topic user_id ;;
     if negb (ri_success research_result) then
       ret {| workflow_id := workflow_id; wf_status := "failed";
              wf_stage := Some "research";
              wf_error := ri_error research_result;
              wf_topic := None; wf_timestamp := None;
              wf_research := None; wf_book := None |}
     else
       research_data <- match ri_data research_result with
                        | Some body => ret body
                        | None => raise "KeyError: 'data'"
                        end ;;
       validation <-
         (fun w => (_validate_research_quality (min_confidence self)
                      {| results := lb_results research_data |}, w)) ;;
       book_result <-
         (if generate_book && acceptable validation then
            research_items <- match lb_results research_data with
                              | Some l => ret l
                              | None => raise "KeyError: 'results'"
                              end ;;
            book <- _invoke_book_lambda self topic research_items user_id ;;
            ret (Some book)
          else ret None) ;;
       timestamp <- lift utcnow_isoformat ;;
       let workflow_result :=
         {| workflow_id := workflow_id; wf_status := "completed";
            wf_stage := None; wf_error := None;
            wf_topic := Some topic; wf_timestamp := Some timestamp;
            wf_research :=
              Some {| rp_status := "success"; rp_data := research_data;
                      quality_metrics := validation |};
            wf_book :=
              Some (match book_result with
                    | Some book => book
                    | None =>
                        {| bp_status := "skipped"; bp_data := None;
                           bp_error := None;
                           bp_reason :=
                             Some (if negb (acceptable validation)
                                   then "Quality threshold not met"
                                   else "Not requested") |}
                    end) |} in
       _ <- _store_workflow_history workflow_result ;;
       ret workflow_result)
    (fun e =>
       timestamp <- lift utcnow_isoformat ;;
       ret {| workflow_id := workflow_id; wf_status := "error";
              wf_stage := None; wf_error := Some e;
              wf_topic := None; wf_timestamp := Some timestamp;
              wf_research := None; wf_book := None |}).

End Workflow.

End Orchestrator.

(** The class [ProbabilityScorer] of orchestrator.py. *)
Module ProbabilityScorer.

(** The [context] dictionary: the key [topic] may be absent. *)
Record context : Type := {
  ctx_topic : option string
}.

(** The dictionary [scores], returned under [breakdown]. *)
Record breakdown : Type := {
  content_quality : F64.float;
  source_reliability : F64.float;
  context_fit : F64.float
}.

(** The dictionary returned by [calculate_composite_score]. *)
Record composite : Type := {
  composite_score : F64.float;
  score_breakdown : breakdown;
  confidence_level : string
}.

Definition _score_content_quality (content : string) : F64.float :=
  let score := F64.of_int 70 in
  let word_count := Z.of_nat (List.length (Py.split_ws content)) in
  let score :=
    if 150 <? word_count then F64.add score (F64.of_int 10)
    else if 100 <? word_count then F64.add score (F64.of_int 5)
    else score in
  let sentences :=
    Z.of_nat (List.length
                (filter (fun s => Py.truthy (Py.strip s))
                   (Py.split "." content))) in
  let score :=
    if 3 <=? sentences then F64.add score (F64.of_int 5) else score in
  let has_numbers := Py.has_digit content in
  let has_percentages := Py.contains "%"%char content in
  let score := if has_numbers then F64.add score (F64.of_int 5) else score in
  let score :=
    if has_percentages then F64.add score (F64.of_int 5) else score in
  F64.min score (F64.of_int 100).

Definition _score_source (source : string) : F64.float :=
  if String.eqb source "bedrock" then F64.of_int 95
  else if String.eqb source "groq" then F64.of_int 88
  else if String.eqb source "fallback" then F64.of_int 70
  else F64.of_int 75.

Definition _score_context_fit (content : string) (ctx : context)
  : F64.float :=
  let score := F64.of_int 80 in
  let topic := Py.lower (match ctx_topic ctx with
                         | Some t => t
                         | None => EmptyString
                         end) in
  let score :=
    if Py.truthy topic && Py.contains_str topic (Py.lower content)
    then F64.add score (F64.of_int 10) else score in
  F64.min score (F64.of_int 100).

Definition _get_confidence_level (score : F64.float) : string :=
  if F64.geb_int score 90 then "Very High"
  else if F64.geb_int score 80 then "High"
  else if F64.geb_int score 70 then "Medium"
  else "Low".

Definition calculate_composite_score (content source : string)
    (ctx : context) : composite :=
  let scores :=
    {| content_quality := _score_content_quality content;
       source_reliability := _score_source source;
       context_fit := _score_context_fit content ctx |} in
  (* weights: 0.5, 0.3, 0.2; [sum] starts from the integer 0 *)
  let composite :=
    F64.add
      (F64.add
         (F64.add (F64.of_int 0)
            (F64.mul (content_quality scores) (F64.decimal 5 1)))
         (F64.mul (source_reliability scores) (F64.decimal 3 1)))
      (F64.mul (context_fit scores) (F64.decimal 2 1)) in
  {| composite_score := F64.round1 composite;
     score_breakdown := scores;
     confidence_level := _get_confidence_level composite |}.

End ProbabilityScorer.

(* ================================================================== *)
(** * backend/lambda/book_generator.py *)
(* ================================================================== *)

(** An entry of a chapter's [sections] list. *)
Record chapter_section : Type := {
  section_title : string;
  cs_content : string;
  cs_confidence : Z
}.

Record chapter : Type := {
  chapter_number : Z;
  title : string;
  content : string;
  word_count : Z;
  confidence : Z;
  sections : list chapter_section
}.

Record toc_entry : Type := {
  toc_chapter_number : Z;
  toc_title : string;
  page : Z
}.

Record book : Type := {
  book_title : string;
  topic : string;
  author : string;
  timestamp : string;
  chapters : list chapter;
  table_of_contents : list toc_entry;
  book_word_count : Z;
  book_average_confidence : number
}.

Module BookGenerator.

(** What this module calls outside: Bedrock's completion for a prompt
    and the clock ([datetime.utcnow().isoformat()]). *)
Class Services (W : Type) : Type := {
  bedrock_completion : string -> M W string;
  utcnow_isoformat : W -> string * W
}.

Definition calculate_chapter_confidence (content : string)
    (base_confidence : Z) : Z :=
  let confidence := base_confidence in
  let word_count := Z.of_nat (List.length (Py.split_ws content)) in
  let confidence :=
    if 300 <? word_count then confidence + 5
    else if 200 <? word_count then confidence + 3
    else confidence in
  let paragraphs := Py.split (nl ++ nl) content in
  let confidence :=
    if 3 <=? Z.of_nat (List.length paragraphs) then confidence + 4
    else confidence in
  Z.max 70 (Z.min 95 confidence).

(** The default of the parameter [base_confidence]. *)
Definition default_base_confidence : Z := 80.

Definition introduction_prompt (topic : string) : string :=
  "Write a compelling introduction for a comprehensive guide about "
    ++ topic ++ "." ++ nl ++ nl ++
  "The introduction should:" ++ nl ++
  "1. Capture reader interest with a strong opening" ++ nl ++
  "2. Explain why " ++ topic ++ " is important and relevant" ++ nl ++
  "3. Outline what readers will learn from this guide" ++ nl ++
  "4. Set expectations for the depth and breadth of coverage" ++ nl ++ nl ++
  "Write 3-4 paragraphs in a professional yet accessible tone.".

Definition chapter_prompt (topic title research_content : string) : string :=
  "Expand the following research insight into a comprehensive book chapter."
    ++ nl ++ nl ++
  "Topic: " ++ topic ++ nl ++
  "Chapter Title: " ++ title ++ nl ++
  "Research Content: " ++ research_content ++ nl ++ nl ++
  "Create a detailed chapter that:" ++ nl ++
  "1. Opens with context and relevance" ++ nl ++
  "2. Expands on key points with explanations" ++ nl ++
  "3. Includes practical examples where appropriate" ++ nl ++
  "4. Maintains a professional yet accessible tone" ++ nl ++
  "5. Concludes with key takeaways" ++ nl ++ nl ++
  "Write 4-6 paragraphs. Be informative and engaging.".

Definition conclusion_prompt (topic : string) (section_names : list string)
  : string :=
  "Write a comprehensive conclusion for a guide about " ++ topic ++ "."
    ++ nl ++ nl ++
  "The guide covered these topics:" ++ nl ++
  Py.join ", " section_names ++ nl ++ nl ++
  "The conclusion should:" ++ nl ++
  "1. Synthesize key insights from throughout the guide" ++ nl ++
  "2. Emphasize the most important takeaways" ++ nl ++
  "3. Provide forward-looking perspective" ++ nl ++
  "4. End with actionable recommendations" ++ nl ++ nl ++
  "Write 3-4 paragraphs that bring the guide to a strong close.".

(** [item.get('section', '')], [item.get('details', '')] and
    [item.get('confidence', 80)] *)
Definition get_section (item : research_item) : string :=
  match section item with Some s => s | None => EmptyString end.

Definition get_details (item : research_item) : string :=
  match details item with Some s => s | None => EmptyString end.

Definition get_confidence (item : research_item) : Z :=
  match ri_confidence item with Some c => c | None => 80 end.

Section WithServices.

Context {W : Type} {services : Services W}.

Definition generate_with_bedrock (prompt : string) : M W string :=
  completion <- bedrock_completion
                  (nl ++ nl ++ "Human: " ++ prompt ++ nl ++ nl ++ "Assistant:") ;;
  let content := Py.strip completion in
  if Py.truthy content then ret content
  else raise "Empty response from Bedrock".

Definition generate_introduction (topic : string)
    (research_data : list research_item) : M W chapter :=
  try_except
    (content <- generate_with_bedrock (introduction_prompt topic) ;;
     let word_count := Z.of_nat (List.length (Py.split_ws content)) in
     ret {| chapter_number := 1;
            title := "Introduction";
            content := content;
            word_count := word_count;
            confidence :=
              calculate_chapter_confidence content default_base_confidence;
            sections := [] |})
    (fun _ =>
       ret {| chapter_number := 1;
              title := "Introduction";
              content := "This comprehensive guide explores " ++ topic ++
                         " in detail, " ++
                         "providing insights, analysis, and practical information.";
              word_count := 15;
              confidence := 70;
              sections := [] |}).

Definition generate_chapter (chapter_number : Z)
    (title research_content topic : string) (base_confidence : Z)
  : M W chapter :=
  try_except
    (content <- generate_with_bedrock
                  (chapter_prompt topic title research_content) ;;
     let word_count := Z.of_nat (List.length (Py.split_ws content)) in
     let confidence := calculate_chapter_confidence content base_confidence in
     ret {| chapter_number := chapter_number;
            title := title;
            content := content;
            word_count := word_count;
            confidence := confidence;
            sections := [ {| section_title := title;
                             cs_content := content;
                             cs_confidence := confidence |} ] |})
    (fun _ =>
       ret {| chapter_number := chapter_number;
              title := title;
              content := research_content;
              word_count :=
                Z.of_nat (List.length (Py.split_ws research_content));
              confidence := Z.max (base_confidence - 10) 60;
              sections := [] |}).

Definition generate_conclusion (topic : string)
    (research_data : list research_item) : M W chapter :=
  try_except
    (let section_names := map get_section research_data in
     content <- generate_with_bedrock
                  (conclusion_prompt topic section_names) ;;
     let word_count := Z.of_nat (List.length (Py.split_ws content)) in
     ret {| chapter_number := 99;
            title := "Conclusion";
            content := content;
            word_count := word_count;
            confidence :=
              calculate_chapter_confidence content default_base_confidence;
            sections := [] |})
    (fun _ =>
       ret {| chapter_number := 99;
              title := "Conclusion";
              content := "This guide has explored " ++ topic ++
                         " from multiple angles, " ++
                         "providing comprehensive insights and practical information.";
              word_count := 15;
              confidence := 70;
              sections := [] |}).

(** The part of the book that the chapter loop of [generate_book]
    updates, with the loop's counter. *)
Record assembly : Type := {
  asm_chapters : list chapter;
  asm_table_of_contents : list toc_entry;
  asm_chapter_number : Z
}.

(** [for research_item in research_data: ...] *)
Fixpoint chapter_loop (topic : string) (research_data : list research_item)
    (st : assembly) : M W assembly :=
  match research_data with
  | [] => ret st
  | research_item :: rest =>
      let section_name := get_section research_item in
      let section_details := get_details research_item in
      let confidence := get_confidence research_item in
      let chapter_number := asm_chapter_number st in
      chapter <- generate_chapter chapter_number section_name
                   section_details topic confidence ;;
      chapter_loop topic rest
        {| asm_chapters := asm_chapters st ++ [chapter];
           asm_table_of_contents :=
             asm_table_of_contents st ++
               [ {| toc_chapter_number := chapter_number;
                    toc_title := section_name;
                    page := chapter_number |} ];
           asm_chapter_number := chapter_number + 1 |}
  end.

Definition generate_book (topic : string)
    (research_data : list research_item) (title : string) : M W book :=
  timestamp <- lift utcnow_isoformat ;;
  intro_chapter <- generate_introduction topic research_data ;;
  st <- chapter_loop topic research_data
          {| asm_chapters := [intro_chapter];
             asm_table_of_contents :=
               [ {| toc_chapter_number := 1;
                    toc_title := "Introduction";
                    page := 1 |} ];
             asm_chapter_number := 2 |} ;;
  conclusion_chapter <- generate_conclusion topic research_data ;;
  let chapters := (asm_chapters st ++ [conclusion_chapter])%list in
  let table_of_contents :=
    (asm_table_of_contents st ++
       [ {| toc_chapter_number := asm_chapter_number st;
            toc_title := "Conclusion";
            page := asm_chapter_number st |} ])%list in
  let confidences := map confidence chapters in
  average <- (fun w => (F64.truediv_int (Py.sum confidences)
                          (Z.of_nat (List.length confidences)), w)) ;;
  ret {| book_title := title;
         topic := topic;
         author := "AI Research Assistant";
         timestamp := timestamp;
         chapters := chapters;
         table_of_contents := table_of_contents;
         book_word_count := Py.sum (map word_count chapters);
         book_average_confidence := Float (F64.round1 average) |}.

End WithServices.

End BookGenerator.

(* ================================================================== *)
(** * backend/lambda/audiobook_generator.py *)
(* ================================================================== *)

(** The dictionary under [audio_info]. *)
Record audio_info : Type := {
  ai_chapter_number : Z;
  chapter_title : string;
  s3_key : string;
  file_size_bytes : Z;
  estimated_duration_seconds : Z;
  voice : string;
  ai_confidence : option Z
}.

(** The dictionary returned by [generate_chapter_audio]: [audio_info] is
    present on success, [error] on failure. *)
Record audio_result : Type := {
  success : bool;
  info : option audio_info;
  error : option string;
  duration : Z
}.

Module AudiobookGenerator.

(** What this module calls outside.  A synthesized chunk is the path of
    the temporary file it was written to. *)
Class Services (W : Type) : Type := {
  (* [from groq import Groq; Groq(api_key=...)] *)
  groq_client : M W unit;
  (* [client.audio.speech.create(model, voice, input, response_format)]
     written to a fresh temporary file *)
  speech_to_temp_file : string -> string -> M W string;
  (* [os.remove(path)] inside [try: ... except: pass] *)
  os_remove : string -> W -> unit * W;
  (* [upload_audio_to_s3(audio_file, topic, chapter_number,
     chapter_title, user_id)], returning the key *)
  upload_audio_to_s3 : string -> string -> Z -> string -> string -> M W string;
  (* [os.path.getsize(path)] *)
  os_path_getsize : string -> M W Z
}.

(** State of the packing loop of [split_text_into_chunks]. *)
Record pack_state : Type := {
  chunks : list string;
  current_chunk : string
}.

(** One iteration of [for sentence in sentences]. *)
Definition pack_step (max_size : Z) (st : pack_state) (sentence : string)
  : pack_state :=
  if Py.len (current_chunk st) + Py.len sentence <=? max_size
  then {| chunks := chunks st;
          current_chunk := current_chunk st ++ sentence |}
  else {| chunks := if Py.truthy (current_chunk st)
                    then chunks st ++ [current_chunk st]
                    else chunks st;
          current_chunk := sentence |}.

(** [text.replace('! ', '!|').replace('? ', '?|').replace('. ', '.|')
         .split('|')] *)
Definition sentences_of (text : string) : list string :=
  Py.split "|"
    (Py.replace ". " ".|" (Py.replace "? " "?|" (Py.replace "! " "!|" text))).

Definition split_text_into_chunks (text : string) (max_size : Z)
  : list string :=
  if Py.len text <=? max_size then [text]
  else
    let st := fold_left (pack_step max_size) (sentences_of text)
                {| chunks := []; current_chunk := EmptyString |} in
    if Py.truthy (current_chunk st)
    then (chunks st ++ [current_chunk st])%list
    else chunks st.

(** Returns the first chunk only; [audio_files] is non-empty where it is
    called. *)
Definition combine_audio_chunks (audio_files : list string) : string :=
  match audio_files with
  | first :: _ => first
  | [] => EmptyString
  end.

Definition estimate_audio_duration (text : string) : outcome Z :=
  let word_count := Z.of_nat (List.length (Py.split_ws text)) in
  let words_per_minute := 150 in
  match F64.truediv_int word_count words_per_minute with
  | Returned duration_minutes =>
      F64.to_int (F64.mul duration_minutes (F64.of_int 60))
  | Raised e => Raised e
  end.

Definition max_chunk_size : Z := 9500.

Section WithServices.

Context {W : Type} {services : Services W}.

(** [for i, chunk in enumerate(text_chunks): ...] *)
Fixpoint synthesize_loop (voice : string) (text_chunks : list string)
    (audio_chunks : list string) : M W (list string) :=
  match text_chunks with
  | [] => ret audio_chunks
  | chunk :: rest =>
      temp_file <- speech_to_temp_file voice chunk ;;
      synthesize_loop voice rest (audio_chunks ++ [temp_file])
  end.

(** [for chunk_file in audio_chunks: try: os.remove(chunk_file) ...] *)
Fixpoint remove_all (files : list string) : M W unit :=
  match files with
  | [] => ret tt
  | f :: rest => _ <- lift (os_remove f) ;; remove_all rest
  end.

Definition generate_chapter_audio (chapter_number : Z)
    (chapter_title text topic voice user_id : string)
    (confidence : option Z) : M W audio_result :=
  try_except
    (_ <- groq_client ;;
     let text_chunks := split_text_into_chunks text max_chunk_size in
     audio_chunks <- synthesize_loop voice text_chunks [] ;;
     final_audio_file <-
       (if 1 <? Z.of_nat (List.length audio_chunks) then
          let combined_file := combine_audio_chunks audio_chunks in
          _ <- remove_all audio_chunks ;;
          ret combined_file
        else
          match audio_chunks with
          | first :: _ => ret first
          | [] => raise "list index out of range"
          end) ;;
     s3_key <- upload_audio_to_s3 final_audio_file topic chapter_number
                 chapter_title user_id ;;
     file_size <- os_path_getsize final_audio_file ;;
     estimated_duration <- (fun w => (estimate_audio_duration text, w)) ;;
     _ <- lift (os_remove final_audio_file) ;;
     ret {| success := true;
            info := Some {| ai_chapter_number := chapter_number;
                            chapter_title := chapter_title;
                            s3_key := s3_key;
                            file_size_bytes := file_size;
                            estimated_duration_seconds := estimated_duration;
                            voice := voice;
                            ai_confidence := confidence |};
            error := None;
            duration := estimated_duration |})
    (fun e =>
       ret {| success := false; info := None; error := Some e;
              duration := 0 |}).

End WithServices.

(** An entry of the book's [table_of_contents] as the audiobook request
    carries it; a key may be absent. *)
Record toc_item : Type := {
  ti_chapter_number : option Z;
  ti_title : option string
}.

(** A chapter as the audiobook request carries it. *)
Record chapter_item : Type := {
  ci_chapter_number : option Z;
  ci_title : option string;
  ci_content : option string;
  ci_confidence : option Z
}.

(** The [book_content] dictionary of the request. *)
Record book_content : Type := {
  bc_title : option string;
  bc_author : option string;
  bc_table_of_contents : option (list toc_item);
  bc_chapters : option (list chapter_item)
}.

(** An entry of [failed_chapters]; the entry of the introduction has no
    title. *)
Record failed_chapter : Type := {
  fc_chapter : Z;
  fc_title : option string;
  fc_error : string
}.

(** The dictionary returned by [generate_audiobook]. *)
Record audiobook : Type := {
  total_chapters : Z;
  audio_files : list audio_info;
  total_duration : Z;
  failed_chapters : list failed_chapter;
  status : string
}.

Definition generate_intro_text (book : book_content) : string :=
  let title := match bc_title book with
               | Some t => t
               | None => "Untitled Book"
               end in
  let author := match bc_author book with
                | Some a => a
                | None => "AI Research Assistant"
                end in
  let toc := match bc_table_of_contents book with
             | Some l => l
             | None => []
             end in
  let head :=
    [ title ++ "."; "Written by " ++ author ++ "."; "Table of Contents:" ] in
  let entries :=
    map (fun item =>
           let chapter_num := match ti_chapter_number item with
                              | Some n => n
                              | None => 0
                              end in
           let chapter_title := match ti_title item with
                                | Some t => t
                                | None => EmptyString
                                end in
           "Chapter " ++ Py.str_int chapter_num ++ ": "
             ++ chapter_title ++ ".") toc in
  let intro_parts := (head ++ entries ++ [ "Let's begin." ])%list in
  Py.join " " intro_parts.

Definition prepare_chapter_text (content : string) (confidence : option Z)
    (include_confidence : bool) : string :=
  match include_confidence, confidence with
  | true, Some c =>
      let confidence_text :=
        "According to our AI analysis, this content has a confidence score of "
          ++ Py.str_int c ++ " percent. " in
      confidence_text ++ content
  | _, _ => content
  end.

(** What the loops of [generate_audiobook] update. *)
Record progress : Type := {
  pr_audio_files : list audio_info;
  pr_total_duration : Z;
  pr_failed_chapters : list failed_chapter
}.

Section Audiobook.

Context {W : Type} {services : Services W}.

(** [if result['success']: ... else: ...] for one narration; reading a
    key that the result does not carry raises [KeyError]. *)
Definition record_result (chapter : Z) (title : option string)
    (result : audio_result) (st : progress) : M W progress :=
  if success result then
    match info result with
    | Some audio =>
        ret {| pr_audio_files := (pr_audio_files st ++ [audio])%list;
               pr_total_duration := pr_total_duration st + duration result;
               pr_failed_chapters := pr_failed_chapters st |}
    | None => raise "KeyError: 'audio_info'"
    end
  else
    match error result with
    | Some e =>
        ret {| pr_audio_files := pr_audio_files st;
               pr_total_duration := pr_total_duration st;
               pr_failed_chapters :=
                 (pr_failed_chapters st
                    ++ [ {| fc_chapter := chapter; fc_title := title;
                            fc_error := e |} ])%list |}
    | None => raise "KeyError: 'error'"
    end.

(** [for chapter in chapters: ...] *)
Fixpoint narrate_chapters (topic voice : string) (include_confidence : bool)
    (user_id : string) (chapters : list chapter_item) (st : progress)
  : M W progress :=
  match chapters with
  | [] => ret st
  | chapter :: rest =>
      let chapter_number := match ci_chapter_number chapter with
                            | Some n => n
                            | None => 0
                            end in
      let chapter_title := match ci_title chapter with
                           | Some t => t
                           | None => "Chapter " ++ Py.str_int chapter_number
                           end in
      let content := match ci_content chapter with
                     | Some c => c
                     | None => EmptyString
                     end in
      let confidence := if include_confidence then ci_confidence chapter
                        else None in
      let chapter_text :=
        prepare_chapter_text content confidence include_confidence in
      result <- generate_chapter_audio chapter_number chapter_title
                  chapter_text topic voice user_id confidence ;;
      st' <- record_result chapter_number (Some chapter_title) result st ;;
      narrate_chapters topic voice include_confidence user_id rest st'
  end.

Definition generate_audiobook (topic : string) (book : book_content)
    (voice : string) (include_confidence : bool) (user_id : string)
  : M W audiobook :=
  let chapters := match bc_chapters book with
                  | Some l => l
                  | None => []
                  end in
  let intro_text := generate_intro_text book in
  intro_result <- generate_chapter_audio 0 "Introduction" intro_text topic
                    voice user_id None ;;
  st0 <- record_result 0 None intro_result
           {| pr_audio_files := []; pr_total_duration := 0;
              pr_failed_chapters := [] |} ;;
  st <- narrate_chapters topic voice include_confidence user_id chapters
          st0 ;;
  let status :=
    match pr_failed_chapters st with
    | [] => "completed"
    | _ :: _ => "partial"
    end in
  let status :=
    if Z.of_nat (List.length (pr_failed_chapters st))
       =? Z.of_nat (List.length chapters) + 1
    then "failed" else status in
  ret {| total_chapters := Z.of_nat (List.length chapters);
         audio_files := pr_audio_files st;
         total_duration := pr_total_duration st;
         failed_chapters := pr_failed_chapters st;
         status := status |}.

End Audiobook.

End AudiobookGenerator.

(* ================================================================== *)
(** * A scripted world for running the code on concrete inputs *)
(* ================================================================== *)

Module Script.

(** The backends answer from prepared lists of outcomes, one per call
    and in call order; a backend whose list is used up raises. *)
Record world : Type := {
  bedrock_script : list (outcome string);
  groq_script : list (outcome string);
  clock : string
}.

Definition next_bedrock (prompt : string) : M world string :=
  fun w =>
    match bedrock_script w with
    | [] => (Raised "bedrock: no response", w)
    | r :: rest =>
        (r, {| bedrock_script := rest;
               groq_script := groq_script w;
               clock := clock w |})
    end.

Definition next_groq (prompt : string) : M world string :=
  fun w =>
    match groq_script w with
    | [] => (Raised "groq: no response", w)
    | r :: rest =>
        (r, {| bedrock_script := bedrock_script w;
               groq_script := rest;
               clock := clock w |})
    end.

#[global] Instance research_backends : ResearchHandler.Backends world := {
  ResearchHandler.bedrock_completion := next_bedrock;
  ResearchHandler.groq_completion := next_groq
}.

#[global] Instance book_services : BookGenerator.Services world := {
  BookGenerator.bedrock_completion := next_bedrock;
  BookGenerator.utcnow_isoformat := fun w => (clock w, w)
}.

(** Both backends down for the whole run. *)
Definition all_down : world :=
  {| bedrock_script := []; groq_script := [];
     clock := "2024-01-01T00:00:00" |}.

(** Bedrock answers every call of a run of up to four calls. *)
Definition bedrock_up : world :=
  {| bedrock_script :=
       [ Returned "An opening."; Returned "A first chapter.";
         Returned "A second chapter."; Returned "A closing." ];
     groq_script := [];
     clock := "2024-01-01T00:00:00" |}.

(** Three research calls: the second fails on both backends. *)
Definition second_fails : world :=
  {| bedrock_script :=
       [ Returned "Solar power converts light."; Raised "timeout";
         Returned "Costs fell by 80% since 2010." ];
     groq_script := [ Raised "503" ];
     clock := "2024-01-01T00:00:00" |}.

End Script.

(** A scripted cloud for the orchestrator: each Lambda has one prepared
    answer, and every call on the outside is noted in [calls]. *)
Module CloudScript.

Record world : Type := {
  research_answer : outcome (Z * Orchestrator.lambda_body);
  book_answer : outcome (Z * Orchestrator.lambda_body);
  calls : list string
}.

Definition note {A : Type} (name : string) (answer : world -> A)
  : world -> A * world :=
  fun w => (answer w,
            {| research_answer := research_answer w;
               book_answer := book_answer w;
               calls := (calls w ++ [name])%list |}).

#[global] Instance cloud : Orchestrator.Cloud world := {
  Orchestrator.invoke_research := fun _ _ _ => note "research" research_answer;
  Orchestrator.invoke_book := fun _ _ _ _ _ => note "book" book_answer;
  Orchestrator.utcnow_timestamp := note "clock" (fun _ => 1700000000);
  Orchestrator.utcnow_isoformat :=
    note "clock" (fun _ => "2023-11-14T22:13:20");
  Orchestrator.log_workflow_history := fun _ => note "history" (fun _ => tt)
}.

Definition body_of (confidences : list Z) : Orchestrator.lambda_body :=
  {| Orchestrator.lb_results :=
       Some (map (fun c => {| section := Some "Overview";
                              details := Some "text";
                              ri_confidence := Some c;
                              source := Some "bedrock" |}) confidences);
     Orchestrator.lb_error := None;
     Orchestrator.lb_rest := EmptyString |}.

Definition book_body : Orchestrator.lambda_body :=
  {| Orchestrator.lb_results := None; Orchestrator.lb_error := None;
     Orchestrator.lb_rest := "book" |}.

(** Research of high confidence, and a book Lambda that answers. *)
Definition good_research : world :=
  {| research_answer := Returned (200, body_of [92; 88]);
     book_answer := Returned (200, book_body);
     calls := [] |}.

(** Research below the bar: one high section out of three. *)
Definition weak_research : world :=
  {| research_answer := Returned (200, body_of [90; 60; 60]);
     book_answer := Returned (200, book_body);
     calls := [] |}.

(** The research Lambda answers with status 500. *)
Definition failing_research : world :=
  {| research_answer :=
       Returned (500, {| Orchestrator.lb_results := None;
                         Orchestrator.lb_error := Some "Internal server error";
                         Orchestrator.lb_rest := EmptyString |});
     book_answer := Returned (200, book_body);
     calls := [] |}.

Definition demo : Orchestrator.orchestrator :=
  {| Orchestrator.research_lambda := "research-handler";
     Orchestrator.book_lambda := "book-generator";
     Orchestrator.min_confidence := F64.of_int 70 |}.

End CloudScript.

(** Backends that are down: every call raises. *)
Definition dead_backends : ResearchHandler.Backends unit := {|
  ResearchHandler.bedrock_completion := fun _ => raise "bedrock is down";
  ResearchHandler.groq_completion := fun _ => raise "groq is down"
|}.

(** A speech backend over a disk.  The world is the list of the
    temporary files that exist and the number of files created so far;
    a removed file is gone, and uploading or measuring a file that does
    not exist raises. *)
Module Disk.

Record world : Type := {
  files : list string;
  created : Z
}.

Definition temp_name (n : Z) : string :=
  "/tmp/tmp" ++ Py.str_int n ++ ".mp3".

Definition present (file : string) (w : world) : bool :=
  existsb (String.eqb file) (files w).

Definition no_such_file {A : Type} (file : string) : M world A :=
  raise ("[Errno 2] No such file or directory: '" ++ file ++ "'").

#[global] Instance speech_services : AudiobookGenerator.Services world := {
  AudiobookGenerator.groq_client := ret tt;
  AudiobookGenerator.speech_to_temp_file :=
    fun _ _ w =>
      let file := temp_name (created w) in
      (Returned file,
       {| files := file :: files w; created := created w + 1 |});
  AudiobookGenerator.os_remove :=
    fun file w =>
      (tt, {| files := filter (fun g => negb (String.eqb file g)) (files w);
              created := created w |});
  AudiobookGenerator.upload_audio_to_s3 :=
    fun file _ _ _ _ w =>
      if present file w then (Returned ("audiobooks/u/" ++ file), w)
      else no_such_file file w;
  AudiobookGenerator.os_path_getsize :=
    fun file w =>
      if present file w then (Returned 1024, w) else no_such_file file w
}.

(** Nothing written yet. *)
Definition blank : world := {| files := []; created := 0 |}.

End Disk.

(** Two research insights as the research stage produces them. *)
Definition sample_research : list research_item :=
  [ {| section := Some "Overview";
       details := Some "AI is transforming industries...";
       ri_confidence := Some 92; source := Some "bedrock" |};
    {| section := Some "Applications";
       details := Some "AI applications span healthcare, finance...";
       ri_confidence := Some 88; source := Some "bedrock" |} ].

(** A research item with a given confidence. *)
Definition item_with (c : Z) : research_item :=
  {| section := Some "Overview"; details := Some "text";
     ri_confidence := Some c; source := Some "bedrock" |}.

(** The duration estimate as the specification words it:
    [round(word_count / 150 * 60)], with Python's [round] to an integer
    (nearest, a tie going to the even neighbour). *)
Definition py_round (f : F64.float) : outcome Z :=
  match f with
  | S754_nan => Raised "cannot convert float NaN to integer"
  | S754_infinity _ => Raised "cannot convert float infinity to integer"
  | S754_zero _ => Returned 0
  | S754_finite s m e =>
      let a := if 0 <=? e then Z.pos m * 2 ^ e
               else F64.div_half_even (Z.pos m) (2 ^ (- e)) in
      Returned (if s then - a else a)
  end.

Definition rounded_duration (text : string) : outcome Z :=
  let word_count := Z.of_nat (List.length (Py.split_ws text)) in
  match F64.truediv_int word_count 150 with
  | Returned duration_minutes =>
      py_round (F64.mul duration_minutes (F64.of_int 60))
  | Raised e => Raised e
  end.

(* ================================================================== *)
(** * Vocabulary of the statements *)
(* ================================================================== *)

(** Both backends fail for a section when the research stage reaches it
    in the world [w]. *)
Definition both_fail {W : Type} {backends : ResearchHandler.Backends W}
    (topic section : string) (w : W) : Prop :=
  exists msg1 w1 msg2 w2,
    ResearchHandler.generate_with_bedrock
      (ResearchHandler.create_research_prompt topic section) w
    = (Raised msg1, w1)
    /\ ResearchHandler.generate_with_groq
         (ResearchHandler.create_research_prompt topic section) w1
       = (Raised msg2, w2).

(** [k, k+1, ..., k+n-1] *)
Fixpoint numbers_from (k : Z) (n : nat) : list Z :=
  match n with
  | O => []
  | S n' => k :: numbers_from (k + 1) n'
  end.

(** [p] holds of 0, 1, ..., n. *)
Fixpoint all_upto (n : nat) (p : Z -> bool) : bool :=
  match n with
  | O => p 0
  | S k => p (Z.of_nat n) && all_upto k p
  end.

(** The duration estimate as a function of the word count. *)
Definition duration_of_words (word_count : Z) : outcome Z :=
  match F64.truediv_int word_count 150 with
  | Returned duration_minutes =>
      F64.to_int (F64.mul duration_minutes (F64.of_int 60))
  | Raised e => Raised e
  end.

(** The estimate for [word_count] words is the integer part of
    [2 * word_count / 5], except for 615 words, where it is 245 and not
    246. *)
Definition duration_ok (word_count : Z) : bool :=
  match duration_of_words word_count with
  | Returned d =>
      d =? (if word_count =? 615 then 245 else 2 * word_count / 5)
  | Raised _ => false
  end.

(** A text of [n] one-letter words. *)
Fixpoint words_text (n : nat) : string :=
  match n with
  | O => EmptyString
  | S k => String "w" (String " " (words_text k))
  end.


(** What [generate_chapter] makes of a research item: a chapter under the
    item's section name whose word count is that of its content, either
    expanded (non-empty, scored from the item's confidence, with one
    sub-section repeating it) or, on failure, the item's details with
    the confidence lowered by ten but not below 60, and no sub-section. *)
Definition chapter_of_item (item : research_item) (c : chapter) : Prop :=
  title c = BookGenerator.get_section item
  /\ word_count c = Z.of_nat (List.length (Py.split_ws (content c)))
  /\ ((confidence c
       = BookGenerator.calculate_chapter_confidence (content c)
           (BookGenerator.get_confidence item)
       /\ content c <> EmptyString
       /\ sections c = [ {| section_title := title c;
                            cs_content := content c;
                            cs_confidence := confidence c |} ])
      \/ (content c = BookGenerator.get_details item
          /\ confidence c = Z.max (BookGenerator.get_confidence item - 10) 60
          /\ sections c = [])).

(** What the packing loop of [split_text_into_chunks] has taken in so
    far: the closed chunks followed by the open one. *)
Definition packed (st : AudiobookGenerator.pack_state) : string :=
  String.concat "" (AudiobookGenerator.chunks st)
  ++ AudiobookGenerator.current_chunk st.

(** The closed chunks and the open one respect a limit. *)
Definition bounded_by (limit : Z) (st : AudiobookGenerator.pack_state)
  : Prop :=
  Forall (fun c => Py.len c <= limit) (AudiobookGenerator.chunks st)
  /\ Py.len (AudiobookGenerator.current_chunk st) <= limit.

(** The two shapes of a narration result: a success carries the audio
    information of the chapter and no error; a failure carries an error
    message, no audio information and the duration 0. *)
Definition narration_shape (number : Z) (ttl vc : string)
    (conf : option Z) (r : audio_result) : Prop :=
  (success r = true /\ error r = None
   /\ exists i : audio_info,
        info r = Some i
        /\ duration r = estimated_duration_seconds i
        /\ ai_chapter_number i = number
        /\ chapter_title i = ttl
        /\ voice i = vc
        /\ ai_confidence i = conf)
  \/ (success r = false /\ info r = None /\ duration r = 0
      /\ exists e : string, error r = Some e).

(** The bookkeeping of [generate_audiobook] after [k] narrations: every
    narration is counted once, and the total duration is the sum over
    the audio files. *)
Definition progress_ok (k : nat) (st : AudiobookGenerator.progress) : Prop :=
  (List.length (AudiobookGenerator.pr_audio_files st)
   + List.length (AudiobookGenerator.pr_failed_chapters st))%nat = k
  /\ AudiobookGenerator.pr_total_duration st
     = Py.sum (map estimated_duration_seconds
                 (AudiobookGenerator.pr_audio_files st)).

(** [r] is the integer nearest to [num / den] ([den] positive), a tie
    going to the even neighbour. *)
Definition nearest_even (num den r : Z) : Prop :=
  2 * Z.abs (den * r - num) <= den
  /\ (2 * Z.abs (den * r - num) = den -> Z.even r = true).

(** The scaling [num / den = (N / D) * 2^e]. *)
Definition scaled (num den N D e : Z) : Prop :=
  if 0 <=? e then num * D = N * den * 2 ^ e
  else num * D * 2 ^ (- e) = N * den.

(** [f] is the binary64 number of sign [s] nearest to the fraction
    [num / den] ([num] not negative, [den] positive), a tie going to the
    even mantissa.  The fraction is written as [(N / D) * 2^e] with
    [N / D] between [2^52] and [2^53]; the mantissa is the integer
    nearest to [N / D], and the number is that mantissa times [2^e]
    (a mantissa of [2^53] being [2^52] with the next exponent). *)
Definition rounds_to (s : bool) (num den : Z) (f : F64.float) : Prop :=
  match f with
  | S754_zero s' => s' = s /\ num = 0
  | S754_finite s' m' e' =>
      s' = s /\ -1074 <= e' <= 971
      /\ 4503599627370496 <= Z.pos m' < 9007199254740992
      /\ exists N D e m : Z,
           0 < D /\ scaled num den N D e
           /\ 4503599627370496 * D <= N < 9007199254740992 * D
           /\ nearest_even N D m
           /\ ((m < 9007199254740992 /\ Z.pos m' = m /\ e' = e)
               \/ (m = 9007199254740992
                   /\ Z.pos m' = 4503599627370496 /\ e' = e + 1))
  | _ => False
  end.

(** The magnitude of a finite float is the fraction [P / Q]. *)
Definition magnitude (f : F64.float) (P Q : Z) : Prop :=
  match f with
  | S754_zero _ => P = 0 /\ Q = 1
  | S754_finite _ m e =>
      if 0 <=? e then P = Z.pos m * 2 ^ e /\ Q = 1
      else P = Z.pos m /\ Q = 2 ^ (- e)
  | _ => False
  end.

(** The exact value [N / D] lies at [l] between [m] and [m + 1]. *)
Definition located (N D m : Z) (l : location) : Prop :=
  match l with
  | loc_Exact => N = D * m
  | loc_Inexact Lt => D * m < N /\ 2 * N < D * (2 * m + 1)
  | loc_Inexact Eq => 2 * N = D * (2 * m + 1)
  | loc_Inexact Gt => D * (2 * m + 1) < 2 * N /\ N < D * (m + 1)
  end.

(** What a shift of the mantissa keeps: the record still locates the
    exact value [N / D]. *)
Definition shr_inv (N D : Z) (r : shr_record) : Prop :=
  0 < D /\ 0 <= shr_m r /\ located N D (shr_m r) (loc_of_shr_record r).

(** Research data of a size and with confidences that a float average
    can hold: [generate_book] divides the sum of the chapter confidences
    by their number, and that division raises when the quotient is too
    large for a float. *)
Definition moderate (research_data : list research_item) : Prop :=
  Forall (fun item => BookGenerator.get_confidence item < 2 ^ 1023)
    research_data
  /\ Z.of_nat (List.length research_data) < 2 ^ 1020.

(* ================================================================== *)
(** * Facts about strings *)
(* ================================================================== *)

Section StringFacts.

Lemma len_append (s t : string) : Py.len (s ++ t) = Py.len s + Py.len t.
Proof.
  unfold Py.len. induction s as [|c s IH]; simpl String.length.
  - reflexivity.
  - rewrite !Nat2Z.inj_succ. lia.
Qed.

Lemma len_repeat_char (c : ascii) (n : nat) :
  Py.len (Py.repeat_char c n) = Z.of_nat n.
Proof.
  unfold Py.len in *. induction n as [|n IH]; [reflexivity|].
  cbn [Py.repeat_char String.length]. rewrite !Nat2Z.inj_succ. now rewrite IH.
Qed.

Lemma len_nonneg (s : string) : 0 <= Py.len s.
Proof. unfold Py.len. lia. Qed.

Lemma truthy_len (s : string) : Py.truthy s = (0 <? Py.len s).
Proof. unfold Py.len. destruct s; simpl; [reflexivity|]. symmetry. apply Z.ltb_lt. lia. Qed.

End StringFacts.

(** A run of the letter [a] holds no separator: the replaces and the
    split pass over it. *)
Lemma replace_run (old new : string) (c0 : ascii) (old' rest : string) (n : nat) :
  old = String c0 old' -> c0 <> "a"%char ->
  Py.replace_from old new (Py.repeat_char "a" n ++ rest) 0
  = Py.repeat_char "a" n ++ Py.replace_from old new rest 0.
Proof.
  intros -> Hc. induction n as [|n IH]; [reflexivity|].
  cbn [Py.repeat_char append Py.replace_from prefix].
  destruct (ascii_dec c0 "a") as [E|_]; [contradiction|].
  now rewrite IH.
Qed.

Lemma split_from_nonempty (sep s : string) (k : nat) :
  Py.split_from sep s k <> [].
Proof.
  revert k. induction s as [|c s IH]; intros k; [discriminate|].
  cbn [Py.split_from]. destruct k as [|k]; [|apply IH].
  destruct (prefix sep (String c s)); [discriminate|].
  destruct (Py.split_from sep s 0); discriminate.
Qed.

Lemma split_run (rest : string) (n : nat) :
  Py.split_from "|" (Py.repeat_char "a" n ++ rest) 0
  = match Py.split_from "|" rest 0 with
    | w :: ws => (Py.repeat_char "a" n ++ w) :: ws
    | [] => []
    end.
Proof.
  induction n as [|n IH].
  - simpl. destruct (Py.split_from "|" rest 0); reflexivity.
  - cbn [Py.repeat_char append Py.split_from prefix].
    destruct (ascii_dec "|" "a") as [E|_]; [discriminate|].
    rewrite IH. pose proof (split_from_nonempty "|" rest 0) as Hne.
    destruct (Py.split_from "|" rest 0); [contradiction|reflexivity].
Qed.

Lemma sentences_of_run (n : nat) (rest : string) :
  AudiobookGenerator.sentences_of (Py.repeat_char "a" n ++ rest)
  = match AudiobookGenerator.sentences_of rest with
    | w :: ws => (Py.repeat_char "a" n ++ w) :: ws
    | [] => []
    end.
Proof.
  unfold AudiobookGenerator.sentences_of, Py.split, Py.replace.
  rewrite (replace_run "! " "!|" "!" " ") by (reflexivity || discriminate).
  rewrite (replace_run "? " "?|" "?" " ") by (reflexivity || discriminate).
  rewrite (replace_run ". " ".|" "." " ") by (reflexivity || discriminate).
  apply split_run.
Qed.

Lemma append_empty_r (s : string) : s ++ "" = s.
Proof. induction s as [|c s IH]; simpl; [reflexivity|now rewrite IH]. Qed.

Lemma append_assoc (a b c : string) : (a ++ b) ++ c = a ++ b ++ c.
Proof. induction a as [|x a IH]; cbn; [reflexivity|now rewrite IH]. Qed.

Lemma sentences_of_run_alone (n : nat) :
  AudiobookGenerator.sentences_of (Py.repeat_char "a" n)
  = [Py.repeat_char "a" n].
Proof.
  rewrite <- (append_empty_r (Py.repeat_char "a" n)) at 1.
  rewrite sentences_of_run. cbn. now rewrite append_empty_r.
Qed.

(** Without a separator the whole text is one sentence, and the packing
    loop cannot cut it. *)
Lemma split_run_alone (n : nat) (max_size : Z) :
  max_size < Z.of_nat n -> 0 <= max_size ->
  AudiobookGenerator.split_text_into_chunks (Py.repeat_char "a" n) max_size
  = [Py.repeat_char "a" n].
Proof.
  intros Hn H0. unfold AudiobookGenerator.split_text_into_chunks.
  rewrite len_repeat_char, sentences_of_run_alone.
  destruct (Z.leb_spec (Z.of_nat n) max_size) as [Hle|_]; [lia|].
  cbn [fold_left]. unfold AudiobookGenerator.pack_step.
  cbn [AudiobookGenerator.current_chunk AudiobookGenerator.chunks Py.truthy].
  rewrite len_repeat_char. change (Py.len "") with 0.
  destruct (Z.leb_spec (0 + Z.of_nat n) max_size) as [Hle|_]; [lia|].
  cbn [AudiobookGenerator.current_chunk AudiobookGenerator.chunks].
  destruct n as [|n]; [simpl in Hn; lia|]. reflexivity.
Qed.

Lemma sentences_of_two (n : nat) :
  AudiobookGenerator.sentences_of (Py.repeat_char "a" n ++ ". b")
  = [Py.repeat_char "a" n ++ "."; "b"].
Proof. rewrite sentences_of_run. reflexivity. Qed.

Lemma pack_step_fits (max_size : Z) (st : AudiobookGenerator.pack_state)
    (sentence : string) :
  Py.len (AudiobookGenerator.current_chunk st) + Py.len sentence <= max_size ->
  AudiobookGenerator.pack_step max_size st sentence
  = {| AudiobookGenerator.chunks := AudiobookGenerator.chunks st;
       AudiobookGenerator.current_chunk :=
         AudiobookGenerator.current_chunk st ++ sentence |}.
Proof.
  intros H. unfold AudiobookGenerator.pack_step.
  now destruct (Z.leb_spec
    (Py.len (AudiobookGenerator.current_chunk st) + Py.len sentence) max_size);
    [|lia].
Qed.

Lemma pack_step_over (max_size : Z) (st : AudiobookGenerator.pack_state)
    (sentence : string) :
  max_size < Py.len (AudiobookGenerator.current_chunk st) + Py.len sentence ->
  AudiobookGenerator.pack_step max_size st sentence
  = {| AudiobookGenerator.chunks :=
         if Py.truthy (AudiobookGenerator.current_chunk st)
         then (AudiobookGenerator.chunks st
                 ++ [AudiobookGenerator.current_chunk st])%list
         else AudiobookGenerator.chunks st;
       AudiobookGenerator.current_chunk := sentence |}.
Proof.
  intros H. unfold AudiobookGenerator.pack_step.
  now destruct (Z.leb_spec
    (Py.len (AudiobookGenerator.current_chunk st) + Py.len sentence) max_size);
    [lia|].
Qed.

Lemma split_two_sentences (n : nat) :
  Z.of_nat n = 9499 ->
  AudiobookGenerator.split_text_into_chunks (Py.repeat_char "a" n ++ ". b") 9500
  = [Py.repeat_char "a" n ++ "."; "b"].
Proof.
  intros Hn. unfold AudiobookGenerator.split_text_into_chunks.
  rewrite sentences_of_two, len_append, len_repeat_char, Hn.
  change (9499 + Py.len ". b" <=? 9500) with false. cbv iota.
  cbn [fold_left].
  rewrite (pack_step_fits 9500 _ (Py.repeat_char "a" n ++ "."));
    cbn [AudiobookGenerator.current_chunk AudiobookGenerator.chunks append].
  2:{ rewrite len_append, len_repeat_char, Hn. vm_compute. discriminate. }
  rewrite pack_step_over;
    cbn [AudiobookGenerator.current_chunk AudiobookGenerator.chunks append].
  2:{ rewrite len_append, len_repeat_char, Hn. vm_compute. reflexivity. }
  cbn [Py.truthy]. rewrite truthy_len, len_append, len_repeat_char, Hn.
  reflexivity.
Qed.

Lemma concat_lengths_differ (n : nat) :
  String.concat "" [Py.repeat_char "a" n ++ "."; "b"]
  <> Py.repeat_char "a" n ++ ". b".
Proof.
  intros E. apply (f_equal Py.len) in E. cbn [String.concat] in E.
  rewrite !len_append, !len_repeat_char in E.
  change (Py.len ".") with 1 in E. change (Py.len "") with 0 in E.
  change (Py.len "b") with 1 in E. change (Py.len ". b") with 3 in E. lia.
Qed.

(** C3 (code defect): re-joining the chunks does not give the text back.
    On 9499 letters followed by [. b] (9502 characters, over the limit of
    9500) the separator space of the sentence break is dropped: the chunks
    are the 9500 characters up to the full stop and [b], and their
    concatenation is one character short of the text. *)
Theorem rejoined_chunks_lose_separator :
  AudiobookGenerator.split_text_into_chunks
    (Py.repeat_char "a" (Z.to_nat 9499) ++ ". b") AudiobookGenerator.max_chunk_size
  = [Py.repeat_char "a" (Z.to_nat 9499) ++ "."; "b"]
  /\ String.concat ""
       (AudiobookGenerator.split_text_into_chunks
          (Py.repeat_char "a" (Z.to_nat 9499) ++ ". b") AudiobookGenerator.max_chunk_size)
     <> Py.repeat_char "a" (Z.to_nat 9499) ++ ". b".
Proof.
  assert (H : AudiobookGenerator.split_text_into_chunks
                (Py.repeat_char "a" (Z.to_nat 9499) ++ ". b")
                AudiobookGenerator.max_chunk_size
              = [Py.repeat_char "a" (Z.to_nat 9499) ++ "."; "b"]).
  { apply split_two_sentences. vm_compute. reflexivity. }
  split; [exact H|]. rewrite H. apply concat_lengths_differ.
Qed.

(** C4 (code defect): a chunk can be longer than the limit.  A text of
    20000 letters without any sentence break comes back as one chunk of
    20000 characters. *)
Theorem unbroken_text_is_one_chunk :
  AudiobookGenerator.split_text_into_chunks
    (Py.repeat_char "a" (Z.to_nat 20000)) AudiobookGenerator.max_chunk_size
  = [Py.repeat_char "a" (Z.to_nat 20000)]
  /\ Py.len (Py.repeat_char "a" (Z.to_nat 20000)) = 20000
  /\ AudiobookGenerator.max_chunk_size = 9500.
Proof.
  split; [|split].
  - apply split_run_alone; vm_compute; [reflexivity|discriminate].
  - rewrite len_repeat_char. vm_compute. reflexivity.
  - reflexivity.
Qed.

(* ================================================================== *)
(** * Confidence scores *)
(* ================================================================== *)

(** C6: for every content string and section name the research scorer
    returns a value between 70 and 98, and for every content string and
    every base the chapter scorer returns a value between 70 and 95. *)
Theorem confidence_scores_in_range :
  (forall content section : string,
     70 <= ResearchHandler.calculate_confidence_score content section <= 98)
  /\ (forall (content : string) (base_confidence : Z),
        70 <= BookGenerator.calculate_chapter_confidence content base_confidence
           <= 95).
Proof.
  split; intros.
  - unfold ResearchHandler.calculate_confidence_score. lia.
  - unfold BookGenerator.calculate_chapter_confidence. lia.
Qed.

(* ================================================================== *)
(** * The research stage *)
(* ================================================================== *)

Section Research.

Context {W : Type} {backends : ResearchHandler.Backends W}.

Import ResearchHandler.

(** A section always yields an entry under its own name; the entry is
    the placeholder when both backends fail. *)
Lemma research_section_returns (topic s : string) (w : W) :
  exists item w',
    research_section topic s w = (Returned item, w')
    /\ section item = Some s
    /\ (both_fail topic s w -> item = fallback_item s).
Proof.
  unfold research_section, both_fail, try_except, bind.
  destruct (generate_with_bedrock (create_research_prompt topic s) w)
    as [[c|m] w1] eqn:Hb.
  - eexists _, _. split; [reflexivity|]. split; [reflexivity|].
    intros (m1 & wa & m2 & wb & H1 & _). discriminate.
  - destruct (generate_with_groq (create_research_prompt topic s) w1)
      as [[c|m'] w2] eqn:Hg.
    + eexists _, _. split; [reflexivity|]. split; [reflexivity|].
      intros (m1 & wa & m2 & wb & H1 & H2).
      injection H1 as _ <-. rewrite Hg in H2. discriminate.
    + eexists _, _. split; [reflexivity|]. split; reflexivity.
Qed.

Lemma research_loop_acc (topic : string) (sections : list string) :
  forall (acc : list research_item) (w : W),
    research_loop topic sections acc w
    = match research_loop topic sections [] w with
      | (Returned items, w') => (Returned (acc ++ items)%list, w')
      | (Raised msg, w') => (Raised msg, w')
      end.
Proof.
  induction sections as [|s rest IH]; intros acc w.
  - cbn. unfold ret. now rewrite app_nil_r.
  - cbn [research_loop]. unfold bind.
    destruct (research_section topic s w) as [[item|msg] w1]; [|reflexivity].
    rewrite (IH (acc ++ [item])%list), (IH ([] ++ [item])%list).
    destruct (research_loop topic rest [] w1) as [[items|msg] w2];
      [|reflexivity].
    now rewrite <- app_assoc.
Qed.

Lemma generate_research_cons (topic s : string) (rest : list string) (w : W) :
  generate_research topic (s :: rest) w
  = match research_section topic s w with
    | (Returned item, w1) =>
        match generate_research topic rest w1 with
        | (Returned items, w2) => (Returned (item :: items), w2)
        | (Raised msg, w2) => (Raised msg, w2)
        end
    | (Raised msg, w1) => (Raised msg, w1)
    end.
Proof.
  unfold generate_research. cbn [research_loop]. unfold bind.
  destruct (research_section topic s w) as [[item|msg] w1]; [|reflexivity].
  now rewrite research_loop_acc.
Qed.


End Research.

(** Three sections, the second failing on both backends: three entries,
    the second one the placeholder, the third generated as usual. *)
Example research_with_a_failed_section :
  fst (ResearchHandler.generate_research "Solar"
         ["Overview"; "Key Statistics"; "Advantages"] Script.second_fails)
  = Returned
      [ {| section := Some "Overview";
           details := Some "Solar power converts light.";
           ri_confidence := Some 75; source := Some "bedrock" |};
        {| section := Some "Key Statistics";
           details := Some ("Research data for Key Statistics is " ++
                            "currently unavailable. Please try again later.");
           ri_confidence := Some 50; source := Some "fallback" |};
        {| section := Some "Advantages";
           details := Some "Costs fell by 80% since 2010.";
           ri_confidence := Some 84; source := Some "bedrock" |} ].
Proof. vm_compute. reflexivity. Qed.

(* ================================================================== *)
(** * The book stage *)
(* ================================================================== *)

Section Book.

Context {W : Type} {services : BookGenerator.Services W}.

Import BookGenerator.

(** C8: when the expansion of a research section fails, the chapter
    returned holds the original research content, the confidence
    [max(base_confidence - 10, 60)] and no sections; its word count is
    that of the research content. *)
Theorem failed_expansion_keeps_research_content :
  forall (chapter_number : Z) (title research_content topic : string)
         (base_confidence : Z) (w w' : W) (msg : string),
    generate_with_bedrock (chapter_prompt topic title research_content) w
    = (Raised msg, w') ->
    generate_chapter chapter_number title research_content topic
      base_confidence w
    = (Returned
         {| chapter_number := chapter_number;
            title := title;
            content := research_content;
            word_count :=
              Z.of_nat (List.length (Py.split_ws research_content));
            confidence := Z.max (base_confidence - 10) 60;
            sections := [] |}, w').
Proof.
  intros * H. unfold generate_chapter, try_except, bind.
  rewrite H. reflexivity.
Qed.

Lemma generate_introduction_returns (topic : string)
    (research_data : list research_item) (w : W) :
  exists c w',
    generate_introduction topic research_data w = (Returned c, w')
    /\ chapter_number c = 1.
Proof.
  unfold generate_introduction, try_except, bind.
  destruct (generate_with_bedrock (introduction_prompt topic) w)
    as [[c|m] w1]; eexists _, _; split; reflexivity.
Qed.

Lemma generate_chapter_returns (n : Z) (title research_content topic : string)
    (base : Z) (w : W) :
  exists c w',
    generate_chapter n title research_content topic base w = (Returned c, w')
    /\ chapter_number c = n.
Proof.
  unfold generate_chapter, try_except, bind.
  destruct (generate_with_bedrock (chapter_prompt topic title research_content) w)
    as [[c|m] w1]; eexists _, _; split; reflexivity.
Qed.

Lemma generate_conclusion_returns (topic : string)
    (research_data : list research_item) (w : W) :
  exists c w',
    generate_conclusion topic research_data w = (Returned c, w')
    /\ chapter_number c = 99.
Proof.
  unfold generate_conclusion, try_except, bind.
  destruct (generate_with_bedrock
              (conclusion_prompt topic (map get_section research_data)) w)
    as [[c|m] w1]; eexists _, _; split; reflexivity.
Qed.

Lemma chapter_loop_numbers (topic : string)
    (research_data : list research_item) :
  forall (st : assembly) (w : W),
  exists st' w',
    chapter_loop topic research_data st w = (Returned st', w')
    /\ map chapter_number (asm_chapters st')
       = (map chapter_number (asm_chapters st)
            ++ numbers_from (asm_chapter_number st)
                 (List.length research_data))%list
    /\ map toc_chapter_number (asm_table_of_contents st')
       = (map toc_chapter_number (asm_table_of_contents st)
            ++ numbers_from (asm_chapter_number st)
                 (List.length research_data))%list
    /\ asm_chapter_number st'
       = asm_chapter_number st + Z.of_nat (List.length research_data).
Proof.
  induction research_data as [|item rest IH]; intros st w.
  - exists st, w. cbn [chapter_loop List.length numbers_from].
    rewrite !app_nil_r. repeat split; try reflexivity. cbn. lia.
  - cbn [chapter_loop]. unfold bind at 1.
    destruct (generate_chapter_returns (asm_chapter_number st)
                (get_section item) (get_details item) topic
                (get_confidence item) w) as (c & w1 & Hc & Hn).
    rewrite Hc.
    match goal with |- context [chapter_loop topic rest ?s w1] =>
      destruct (IH s w1) as (st' & w' & Hl & H1 & H2 & H3) end.
    exists st', w'. cbn [asm_chapters asm_table_of_contents asm_chapter_number]
      in H1, H2, H3.
    split; [exact Hl|].
    rewrite H1, H2, H3, !map_app.
    cbn [map List.length numbers_from toc_chapter_number].
    rewrite Hn, <- !app_assoc. repeat split; try reflexivity. lia.
Qed.

End Book.

(** The expansion of "Overview" fails with Bedrock down: the chapter is
    the research text, with confidence 92 - 10. *)
Lemma failed_expansion_witness :
  BookGenerator.generate_with_bedrock
    (BookGenerator.chapter_prompt "AI" "Overview"
       "AI is transforming industries...") Script.all_down
  = (Raised "bedrock: no response", Script.all_down)
  /\ BookGenerator.generate_chapter 2 "Overview"
       "AI is transforming industries..." "AI" 92 Script.all_down
     = (Returned
          {| chapter_number := 2;
             title := "Overview";
             content := "AI is transforming industries...";
             word_count := 4;
             confidence := 82;
             sections := [] |}, Script.all_down).
Proof.
  split; [reflexivity|].
  exact (failed_expansion_keeps_research_content 2 "Overview"
           "AI is transforming industries..." "AI" 92 Script.all_down
           Script.all_down "bedrock: no response" eq_refl).
Defined.

(** C2 (code defect): the conclusion keeps its placeholder number.  For
    two research sections and a backend that answers every call, the
    table of contents counts 1, 2, 3, 4 while the chapters carry
    1, 2, 3, 99: the last entries differ. *)
Theorem conclusion_keeps_placeholder_number :
  exists (b : book) (w' : Script.world),
    BookGenerator.generate_book "Artificial Intelligence" sample_research
      "AI Revolution: A Comprehensive Guide" Script.bedrock_up
    = (Returned b, w')
    /\ List.length (table_of_contents b) = List.length (chapters b)
    /\ map toc_chapter_number (table_of_contents b) = [1; 2; 3; 4]
    /\ map chapter_number (chapters b) = [1; 2; 3; 99].
Proof. eexists _, _. vm_compute. repeat split. Qed.

(** C9 (code defect): on the fallback paths of the introduction and the
    conclusion the word count is the constant 15, whatever the content.
    With every backend down and the topic "Artificial Intelligence"
    the introduction has 14 words and is recorded with 15. *)
Theorem fallback_word_count_is_a_constant :
  exists (b : book) (w' : Script.world) (intro body1 body2 concl : chapter),
    BookGenerator.generate_book "Artificial Intelligence" sample_research
      "AI Revolution: A Comprehensive Guide" Script.all_down
    = (Returned b, w')
    /\ chapters b = [intro; body1; body2; concl]
    /\ word_count intro = 15
    /\ Z.of_nat (List.length (Py.split_ws (content intro))) = 14
    /\ word_count concl = 15
    /\ Z.of_nat (List.length (Py.split_ws (content concl))) = 15.
Proof. eexists _, _, _, _, _, _. vm_compute. repeat split. Qed.

(* ================================================================== *)
(** * Binary64 arithmetic *)
(* ================================================================== *)

Section Binary64.

Lemma digits2_pos_size (p : positive) : digits2_pos p = Pos.size p.
Proof. induction p; simpl; congruence. Qed.

Lemma digits2_pos_le_53 (p : positive) :
  Z.pos p < 2 ^ 53 -> (digits2_pos p <= 53)%positive.
Proof.
  intros H. rewrite digits2_pos_size.
  destruct (Pos.leb_spec (Pos.size p) 53) as [L|G]; [exact L|exfalso].
  pose proof (Pos.size_le p) as Hs.
  assert (2 ^ 54 <= 2 ^ Z.pos (Pos.size p)) by (apply Z.pow_le_mono_r; lia).
  assert (Z.pos (2 ^ Pos.size p) = 2 ^ Z.pos (Pos.size p))
    by (rewrite Pos2Z.inj_pow; reflexivity).
  assert (Z.pos (2 ^ Pos.size p) <= Z.pos p~0) by (apply Pos2Z.pos_le_pos; exact Hs).
  change (2 ^ 54) with (2 * 2 ^ 53) in *. lia.
Qed.

Lemma digits2_pos_iter_xO (p k : positive) :
  digits2_pos (Pos.iter xO p k) = (digits2_pos p + k)%positive.
Proof.
  induction k using Pos.peano_ind.
  - simpl. lia.
  - rewrite Pos.iter_succ. cbn [digits2_pos]. rewrite IHk. lia.
Qed.

Lemma iter_xO_value (p k : positive) :
  Z.pos (Pos.iter xO p k) = Z.pos p * 2 ^ Z.pos k.
Proof.
  induction k using Pos.peano_ind.
  - simpl. lia.
  - rewrite Pos.iter_succ, Pos2Z.inj_succ, Z.pow_succ_r by lia.
    rewrite Pos2Z.inj_xO, IHk. lia.
Qed.

(** A 53-bit mantissa with an exponent in range is left as it is by
    rounding. *)
Lemma round_canonical (m : positive) (e : Z) :
  digits2_pos m = 53%positive -> -1074 <= e <= 971 ->
  binary_round_aux F64.prec F64.emax false (Z.pos m) e loc_Exact
  = S754_finite false m e.
Proof.
  intros Hd He. unfold binary_round_aux, shr_fexp, fexp, emin.
  cbn [Zdigits2 shr_record_of_loc]. rewrite Hd.
  unfold F64.prec, F64.emax.
  replace (Z.max (53 + e - 53) (3 - 1024 - 53) - e) with 0 by lia.
  cbn [shr shr_m loc_of_shr_record round_nearest_even Zdigits2
       shr_record_of_loc]. rewrite Hd.
  replace (Z.max (53 + e - 53) (3 - 1024 - 53) - e) with 0 by lia.
  cbn [shr shr_m]. destruct (Z.leb_spec e (1024 - 53)); [reflexivity|lia].
Qed.

Lemma of_int_pos (p : positive) :
  Z.pos p < 2 ^ 53 ->
  exists (m : positive) (e : Z),
    F64.of_int (Z.pos p) = S754_finite false m e
    /\ digits2_pos m = 53%positive
    /\ -52 <= e <= 0
    /\ Z.pos m = Z.pos p * 2 ^ (- e).
Proof.
  intros Hp. pose proof (digits2_pos_le_53 p Hp) as Hd. clear Hp.
  unfold F64.of_int, binary_normalize, binary_round, shl_align, fexp, emin,
    F64.prec, F64.emax.
  destruct (Pos.eq_dec (digits2_pos p) 53) as [E|N].
  - rewrite E. change (Z.max (53 + 0 - 53) (3 - 1024 - 53) - 0) with 0.
    change (Z.max (53 + 0 - 53) (3 - 1024 - 53)) with 0. 
    exists p, 0. split; [now apply round_canonical|].
    split; [exact E|]. split; [lia|].  cbn. lia.
  - set (k := (53 - digits2_pos p)%positive).
    assert (Hk : Z.pos k = 53 - Z.pos (digits2_pos p)) by lia.
    
    replace (Z.max (Z.pos (digits2_pos p) + 0 - 53) (3 - 1024 - 53) - 0)
      with (Z.neg k) by lia.
    replace (Z.max (Z.pos (digits2_pos p) + 0 - 53) (3 - 1024 - 53))
      with (Z.neg k) by lia.
    
    exists (Pos.iter xO p k), (Z.neg k).
    assert (D : digits2_pos (Pos.iter xO p k) = 53%positive)
      by (rewrite digits2_pos_iter_xO; lia).
    split; [apply round_canonical; [exact D|lia]|].
    split; [exact D|]. split; [lia|].
    rewrite iter_xO_value. reflexivity.
Qed.

(** Multiplying a normal number by [0.5] lowers its exponent by one. *)
Lemma mul_half (m : positive) (e : Z) :
  digits2_pos m = 53%positive -> -1073 <= e <= 971 ->
  F64.mul (S754_finite false m e) F64.half = S754_finite false m (e - 1).
Proof.
  intros Hd He. unfold F64.mul, F64.half, SFmul. cbn [xorb].
  rewrite Pos.mul_comm.
  unfold binary_round_aux, shr_fexp, fexp, emin, F64.prec, F64.emax.
  cbn [Pos.mul Zdigits2 digits2_pos shr_record_of_loc]. rewrite Hd.
  cbn [Pos.succ].
  replace (Z.max (105 + (e + -53) - 53) (3 - 1024 - 53) - (e + -53))
    with 52 by lia.
  cbn [shr iter_pos shr_1 orb shr_m loc_of_shr_record round_nearest_even
       Zdigits2 shr_record_of_loc]. rewrite Hd.
  replace (Z.max (53 + (e + -53 + 52) - 53) (3 - 1024 - 53) - (e + -53 + 52))
    with 0 by lia.
  cbn [shr shr_m].
  destruct (Z.leb_spec (e + -53 + 52) (1024 - 53)); [|lia].
  f_equal. lia.
Qed.

(** [h >= n * 0.5] decides [n <= 2 * h]: exactly half is enough. *)
Lemma int_geb_half (n h : Z) :
  0 < n < 2 ^ 53 ->
  F64.int_geb h (F64.mul (F64.of_int n) F64.half) = (n <=? 2 * h).
Proof.
  intros Hn. destruct n as [|p|p]; [destruct Hn as [H _]; discriminate H| |
    destruct Hn as [H _]; discriminate H].
  destruct (of_int_pos p (proj2 Hn)) as (m & e & Hof & Hd & He & Hm).
  clear Hn.
  rewrite Hof, mul_half by (auto; lia).
  unfold F64.int_geb. destruct (Z.leb_spec 0 (e - 1)) as [?|_]; [lia|].
  rewrite Hm. replace (- (e - 1)) with (Z.succ (- e)) by lia.
  rewrite Z.pow_succ_r by lia.
  assert (0 < 2 ^ (- e)) by (apply Z.pow_pos_nonneg; lia).
  set (q := 2 ^ (- e)) in *.
  destruct (Z.leb_spec (Z.pos p) (2 * h)),
           (Z.leb_spec (Z.pos p * q) (h * (2 * q)));
    try reflexivity; timeout 20 nia.
Qed.

(** ** Rounding to the nearest float *)

Lemma located_round (N D m : Z) (l : location) :
  0 < D -> located N D m l -> nearest_even N D (round_nearest_even m l).
Proof.
  intros HD H. unfold nearest_even.
  destruct l as [|[]]; cbn [located round_nearest_even] in *.
  - split; [lia|]. intros; lia.
  - destruct (Z.even m) eqn:E.
    + split; [lia|]. intros _. exact E.
    + split; [lia|]. intros _. rewrite Z.even_add, E. reflexivity.
  - split; [lia|]. intros; lia.
  - split; [lia|]. intros; lia.
Qed.

Lemma located_floor (N D m : Z) (l : location) :
  0 < D -> located N D m l -> D * m <= N < D * (m + 1).
Proof. intros HD H. destruct l as [|[]]; cbn [located] in H; lia. Qed.

Lemma round_near_floor (m : Z) (l : location) :
  m <= round_nearest_even m l <= m + 1.
Proof. destruct l as [|[]]; cbn; try destruct (Z.even m); lia. Qed.

Lemma shr_1_inv (N D : Z) (r : shr_record) :
  shr_inv N D r -> shr_inv N (2 * D) (shr_1 r).
Proof.
  unfold shr_inv. destruct r as [m rb sb].
  destruct m as [|[p|p|]|p]; destruct rb, sb;
    cbn [shr_1 shr_m loc_of_shr_record located orb]; intros (HD & Hm & H);
    repeat split; lia.
Qed.

Lemma shr_inv_eq (N D D' : Z) (r : shr_record) :
  D = D' -> shr_inv N D r -> shr_inv N D' r.
Proof. now intros ->. Qed.

Lemma pow2_xO (p : positive) :
  2 ^ Z.pos p~0 = 2 ^ Z.pos p * 2 ^ Z.pos p.
Proof. rewrite <- Z.pow_add_r by lia. f_equal. lia. Qed.

Lemma pow2_xI (p : positive) :
  2 ^ Z.pos p~1 = 2 * (2 ^ Z.pos p * 2 ^ Z.pos p).
Proof.
  rewrite <- Z.pow_add_r, <- Z.pow_succ_r by lia. f_equal. lia.
Qed.

Lemma iter_shr_inv (p : positive) :
  forall (N D : Z) (r : shr_record),
    shr_inv N D r -> shr_inv N (D * 2 ^ Z.pos p) (iter_pos shr_1 p r).
Proof.
  induction p as [p IH|p IH|]; intros N D r H; cbn [iter_pos].
  - apply (shr_inv_eq N (2 * D * 2 ^ Z.pos p * 2 ^ Z.pos p)).
    + rewrite pow2_xI. lia.
    + apply IH, IH, shr_1_inv, H.
  - apply (shr_inv_eq N (D * 2 ^ Z.pos p * 2 ^ Z.pos p)).
    + rewrite pow2_xO. lia.
    + apply IH, IH, H.
  - apply (shr_inv_eq N (2 * D)); [change (2 ^ 1) with 2; lia|].
    apply shr_1_inv, H.
Qed.

Lemma shr_record_of_loc_inv (N D m : Z) (l : location) :
  0 < D -> 0 <= m -> located N D m l -> shr_inv N D (shr_record_of_loc m l).
Proof.
  intros HD Hm H. unfold shr_inv.
  destruct l as [|[]]; cbn in *; repeat split; lia.
Qed.

(** Shifting by [k] places. *)
Lemma shr_inv_shift (N D m k e : Z) (l : location) :
  0 < D -> 0 <= m -> 0 <= k -> located N D m l ->
  shr_inv N (D * 2 ^ k) (fst (shr (shr_record_of_loc m l) e k))
  /\ snd (shr (shr_record_of_loc m l) e k) = e + k.
Proof.
  intros HD Hm Hk H. destruct k as [|p|p]; [| |lia].
  - cbn [shr fst snd]. split; [|lia].
    apply (shr_inv_eq N D); [change (2 ^ 0) with 1; lia|].
    now apply shr_record_of_loc_inv.
  - cbn [shr fst snd]. split; [|reflexivity].
    apply iter_shr_inv. now apply shr_record_of_loc_inv.
Qed.

Lemma digits2_pos_bounds (p : positive) :
  2 ^ (Z.pos (digits2_pos p) - 1) <= Z.pos p < 2 ^ Z.pos (digits2_pos p).
Proof.
  induction p as [p IH|p IH|]; cbn [digits2_pos].
  - rewrite Pos2Z.inj_succ.
    replace (Z.succ (Z.pos (digits2_pos p)) - 1)
      with (Z.succ (Z.pos (digits2_pos p) - 1)) by lia.
    rewrite !Z.pow_succ_r by lia. lia.
  - rewrite Pos2Z.inj_succ.
    replace (Z.succ (Z.pos (digits2_pos p)) - 1)
      with (Z.succ (Z.pos (digits2_pos p) - 1)) by lia.
    rewrite !Z.pow_succ_r by lia. lia.
  - cbn. lia.
Qed.

Lemma digits2_pos_unique (p : positive) (d : Z) :
  2 ^ (d - 1) <= Z.pos p < 2 ^ d -> 0 < d -> Z.pos (digits2_pos p) = d.
Proof.
  intros [Hl Hu] Hd. pose proof (digits2_pos_bounds p) as [Bl Bu].
  set (n := Z.pos (digits2_pos p)) in *.
  assert (0 < n) by (subst n; lia).
  destruct (Z.lt_trichotomy n d) as [L|[E|G]]; [exfalso| exact E |exfalso].
  - assert (2 ^ n <= 2 ^ (d - 1)) by (apply Z.pow_le_mono_r; lia). lia.
  - assert (2 ^ d <= 2 ^ (n - 1)) by (apply Z.pow_le_mono_r; lia). lia.
Qed.

Lemma pow2_pos (k : Z) : 0 <= k -> 0 < 2 ^ k.
Proof. intros. apply Z.pow_pos_nonneg; lia. Qed.

Lemma mul_cancel_lt (a b c : Z) : 0 < a -> a * b < a * c -> b < c.
Proof. intros Ha H. now apply Z.mul_lt_mono_pos_l in H. Qed.

Lemma mul_cancel_le (a b c : Z) : 0 < a -> a * b <= a * c -> b <= c.
Proof. intros Ha H. now apply Z.mul_le_mono_pos_l in H. Qed.

(** Rounding a positive integer mantissa of [53 + k] digits, with the
    exact value [N / D] located next to it, to 53 digits. *)
Lemma binary_round_aux_nearest (s : bool) (p : positive) (ex k N D : Z)
    (l : location) :
  0 < D -> 0 <= k -> Z.pos (digits2_pos p) = 53 + k -> -1074 <= ex + k ->
  located N D (Z.pos p) l ->
  exists R : Z,
    nearest_even N (D * 2 ^ k) R
    /\ 4503599627370496 <= R <= 9007199254740992
    /\ binary_round_aux 53 1024 s (Z.pos p) ex l
       = if R <? 9007199254740992
         then (if ex + k <=? 971 then S754_finite s (Z.to_pos R) (ex + k)
               else S754_infinity s)
         else (if ex + k + 1 <=? 971
               then S754_finite s 4503599627370496 (ex + k + 1)
               else S754_infinity s).
Proof.
  intros HD Hk Hd He Hloc.
  unfold binary_round_aux, shr_fexp. cbn [Zdigits2]. rewrite Hd.
  unfold fexp, emin.
  replace (Z.max (53 + k + ex - 53) (3 - 1024 - 53) - ex) with k by lia.
  destruct (shr_inv_shift N D (Z.pos p) k ex l HD ltac:(lia) Hk Hloc)
    as [Hinv He1].
  destruct (shr (shr_record_of_loc (Z.pos p) l) ex k) as [r1 e1].
  cbn [fst snd] in Hinv, He1. subst e1.
  destruct Hinv as (HD' & Hm1 & Hloc1).
  pose proof (located_round _ _ _ _ HD' Hloc1) as Hnear.
  pose proof (round_near_floor (shr_m r1) (loc_of_shr_record r1)) as HR.
  set (R := round_nearest_even (shr_m r1) (loc_of_shr_record r1)) in *.
  assert (Hm : 4503599627370496 <= shr_m r1 < 9007199254740992).
  { pose proof (located_floor _ _ _ _ HD Hloc) as F0.
    pose proof (located_floor _ _ _ _ HD' Hloc1) as F1.
    pose proof (digits2_pos_bounds p) as B. rewrite Hd in B.
    replace (53 + k - 1) with (52 + k) in B by lia.
    rewrite !Z.pow_add_r in B by lia.
    change (2 ^ 52) with 4503599627370496 in B.
    change (2 ^ 53) with 9007199254740992 in B.
    pose proof (pow2_pos k Hk) as HT. set (T := 2 ^ k) in *.
    set (m1 := shr_m r1) in *. clearbody m1 T. clear - F0 F1 B HT HD.
    assert (T * m1 < Z.pos p + 1).
    { apply (mul_cancel_lt D); [exact HD|]. rewrite Z.mul_assoc. lia. }
    assert (Z.pos p < T * (m1 + 1)).
    { apply (mul_cancel_lt D); [exact HD|]. rewrite Z.mul_assoc. lia. }
    split.
    - assert (T * 4503599627370496 < T * (m1 + 1)) by lia.
      apply mul_cancel_lt in H1; [lia|exact HT].
    - assert (T * m1 < T * 9007199254740992) by lia.
      apply mul_cancel_lt in H1; [lia|exact HT]. }
  exists R. split; [exact Hnear|]. split; [lia|].
  clearbody R. clear Hnear Hloc1 Hloc.
  destruct (Z.ltb_spec R 9007199254740992) as [Hlt|Hge].
  - destruct R as [|q|q]; [lia| |lia].
    cbn [Zdigits2].
    rewrite (digits2_pos_unique q 53) by
      (change (2 ^ (53 - 1)) with 4503599627370496;
       change (2 ^ 53) with 9007199254740992; lia).
    replace (Z.max (53 + (ex + k) - 53) (3 - 1024 - 53) - (ex + k))
      with 0 by lia.
    cbn [shr shr_record_of_loc shr_m Z.to_pos]. reflexivity.
  - assert (R = 9007199254740992) by lia. subst R.
    cbn [Zdigits2 digits2_pos Pos.succ].
    replace (Z.max (54 + (ex + k) - 53) (3 - 1024 - 53) - (ex + k))
      with 1 by lia.
    cbn [shr shr_record_of_loc iter_pos shr_1 shr_m orb]. reflexivity.
Qed.

Lemma new_location_located (b q r : Z) :
  0 < b -> 0 <= r < b -> located (b * q + r) b q (new_location b r).
Proof.
  intros Hb Hr. unfold new_location, new_location_even, new_location_odd.
  destruct (Z.even b) eqn:E.
  - destruct (Z.eqb_spec r 0) as [->|N]; [cbn; lia|].
    destruct (Z.compare_spec (2 * r) b); cbn [located]; lia.
  - assert (O : Z.odd b = true) by (rewrite <- Z.negb_even, E; reflexivity).
    apply Z.odd_spec in O as [c Hc].
    destruct (Z.eqb_spec r 0) as [->|N]; [cbn; lia|].
    destruct (Z.compare_spec (2 * r + 1) b); cbn [located]; lia.
Qed.

Lemma pow2_mono (a b : Z) : 0 <= a <= b -> 2 ^ a <= 2 ^ b.
Proof. intros. apply Z.pow_le_mono_r; lia. Qed.

Lemma pow2_split (a b : Z) : 0 <= a -> 0 <= b -> 2 ^ (a + b) = 2 ^ a * 2 ^ b.
Proof. intros. apply Z.pow_add_r; lia. Qed.

(** Division of two positive integers, given as unrounded mantissas. *)
Lemma SFdiv_exact (sa sb : bool) (a b : positive) :
  Z.pos b < 2 ^ 1021 ->
  let f := SFdiv 53 1024 (S754_finite sa a 0) (S754_finite sb b 0) in
  (exists m e, f = S754_finite (xorb sa sb) m e
               /\ rounds_to (xorb sa sb) (Z.pos a) (Z.pos b) f)
  \/ (f = S754_infinity (xorb sa sb) /\ 2 ^ 1023 * Z.pos b <= Z.pos a).
Proof.
  intros Hb f. subst f. unfold SFdiv, SFdiv_core_binary. cbn [Zdigits2].
  pose proof (digits2_pos_bounds a) as Ba.
  pose proof (digits2_pos_bounds b) as Bb.
  set (d1 := Z.pos (digits2_pos a)) in *.
  set (d2 := Z.pos (digits2_pos b)) in *.
  assert (H1 : 0 < d1) by (subst d1; lia).
  assert (H2 : 0 < d2) by (subst d2; lia).
  assert (H3 : d2 <= 1021).
  { destruct (Z.le_gt_cases d2 1021) as [L|G]; [exact L|exfalso].
    assert (2 ^ 1021 <= 2 ^ (d2 - 1)) by (apply pow2_mono; lia). lia. }
  clear Hb.
  unfold fexp, emin.
  set (e0 := Z.min (Z.max (d1 + 0 - (d2 + 0) - 53) (3 - 1024 - 53)) (0 - 0)).
  assert (He0 : e0 = Z.min (d1 - d2 - 53) 0) by (subst e0; lia).
  clearbody e0.
  replace (0 - 0 - e0) with (- e0) by lia.
  set (N0 := match - e0 with
             | 0 => Z.pos a
             | Z.pos _ => Z.shiftl (Z.pos a) (- e0)
             | Z.neg _ => 0
             end).
  assert (HN0 : N0 = Z.pos a * 2 ^ (- e0)).
  { subst N0. destruct (- e0) as [|s|s] eqn:Es; [cbn; lia| |lia].
    rewrite Z.shiftl_mul_pow2 by lia. reflexivity. }
  clearbody N0.
  pose proof (Z_div_mod N0 (Z.pos b) ltac:(lia)) as Hdiv.
  destruct (Z.div_eucl N0 (Z.pos b)) as [q r]. destruct Hdiv as [Hq Hr].
  pose proof (new_location_located (Z.pos b) q r ltac:(lia) Hr) as Hloc.
  rewrite <- Hq in Hloc.
  (* the quotient has at least 53 digits *)
  assert (Hlow : 2 ^ 52 * 2 ^ d2 <= N0).
  { rewrite HN0. destruct (Z.le_gt_cases (d1 - d2 - 53) 0) as [L|G].
    - replace (- e0) with (53 + d2 - d1) by lia.
      rewrite <- pow2_split by lia.
      replace (52 + d2) with ((d1 - 1) + (53 + d2 - d1)) by lia.
      rewrite pow2_split by lia.
      apply Z.mul_le_mono_nonneg_r; [apply Z.pow_nonneg; lia|lia].
    - replace (- e0) with 0 by lia. change (2 ^ 0) with 1.
      rewrite Z.mul_1_r, <- pow2_split by lia.
      assert (2 ^ (52 + d2) <= 2 ^ (d1 - 1)) by (apply pow2_mono; lia).
      lia. }
  assert (Hq52 : 2 ^ 52 <= q).
  { assert (2 ^ 52 * Z.pos b < Z.pos b * (q + 1)).
    { assert (2 ^ 52 * Z.pos b < 2 ^ 52 * 2 ^ d2)
        by (apply Z.mul_lt_mono_pos_l; [reflexivity|lia]).
      lia. }
    rewrite (Z.mul_comm (2 ^ 52)) in H.
    apply mul_cancel_lt in H; lia. }
  destruct q as [|pq|pq]; [cbv in Hq52; congruence| |cbv in Hq52; congruence].
  pose proof (digits2_pos_bounds pq) as Bq.
  set (dq := Z.pos (digits2_pos pq)) in *.
  assert (Hdq : 53 <= dq).
  { destruct (Z.le_gt_cases 53 dq) as [L|G]; [exact L|exfalso].
    assert (2 ^ dq <= 2 ^ 52) by (apply pow2_mono; subst dq; lia). lia. }
  set (k := dq - 53).
  assert (Hk : 0 <= k) by (subst k; lia).
  assert (Hdk : dq = 53 + k) by (subst k; lia).
  destruct (binary_round_aux_nearest (xorb sa sb) pq e0 k N0 (Z.pos b)
              (new_location (Z.pos b) r) ltac:(lia) Hk Hdk ltac:(lia) Hloc)
    as (R & Hnear & HR & Hres).
  rewrite Hres. clear Hres.
  (* the binade of the quotient *)
  rewrite Hdk in Bq. replace (53 + k - 1) with (52 + k) in Bq by lia.
  rewrite !pow2_split in Bq by lia.
  change (2 ^ 52) with 4503599627370496 in Bq, Hq52.
  change (2 ^ 53) with 9007199254740992 in Bq.
  pose proof (pow2_pos k Hk) as HT.
  assert (Hbin : 4503599627370496 * (Z.pos b * 2 ^ k) <= N0
                 < 9007199254740992 * (Z.pos b * 2 ^ k)).
  { set (T := 2 ^ k) in *. clearbody T. split; nia. }
  assert (Hsc : scaled (Z.pos a) (Z.pos b) N0 (Z.pos b * 2 ^ k) (e0 + k)).
  { unfold scaled. rewrite HN0.
    destruct (Z.leb_spec 0 (e0 + k)) as [L|G].
    - replace k with (- e0 + (e0 + k)) at 1 by lia.
      rewrite pow2_split by lia. ring.
    - replace (- e0) with (k + - (e0 + k)) by lia.
      rewrite pow2_split by lia. ring. }
  (* when the exponent overflows the quotient is huge *)
  assert (Hbig : 971 <= e0 + k -> 2 ^ 1023 * Z.pos b <= Z.pos a).
  { intros Hov.
    assert (E0 : e0 = 0).
    { destruct (Z.le_gt_cases (d1 - d2 - 53) 0) as [L|G]; [exfalso|lia].
      (* here the quotient has at most 54 digits *)
      assert (N0 < 2 ^ 54 * Z.pos b).
      { rewrite HN0. replace (- e0) with (53 + d2 - d1) by lia.
        assert (Z.pos a * 2 ^ (53 + d2 - d1) < 2 ^ d1 * 2 ^ (53 + d2 - d1))
          by (apply Z.mul_lt_mono_pos_r; [apply pow2_pos; lia|lia]).
        rewrite <- pow2_split in H by lia.
        replace (d1 + (53 + d2 - d1)) with (54 + (d2 - 1)) in H by lia.
        rewrite pow2_split in H by lia.
        assert (2 ^ 54 * 2 ^ (d2 - 1) <= 2 ^ 54 * Z.pos b)
          by (apply Z.mul_le_mono_nonneg_l; [apply Z.pow_nonneg|]; lia).
        lia. }
      assert (2 ^ 2 <= 2 ^ k) by (apply pow2_mono; lia).
      change (2 ^ 2) with 4 in H0. change (2 ^ 54) with 18014398509481984 in H.
      set (T := 2 ^ k) in *. clearbody T. nia. }
    rewrite E0 in HN0, Hov. change (2 ^ (- 0)) with 1 in HN0.
    rewrite Z.mul_1_r in HN0.
    assert (2 ^ 971 <= 2 ^ k) by (apply pow2_mono; lia).
    assert (0 < 2 ^ 971) by (apply pow2_pos; lia).
    replace 1023 with (52 + 971) by reflexivity.
    rewrite pow2_split by lia. change (2 ^ 52) with 4503599627370496.
    set (T := 2 ^ k) in *. set (U := 2 ^ 971) in *. clearbody T U.
    nia. }
  destruct (Z.ltb_spec R 9007199254740992) as [Hlt|Hge].
  - destruct (Z.leb_spec (e0 + k) 971) as [Hle|Hgt].
    + left. eexists _, _. split; [reflexivity|].
      cbn [rounds_to]. split; [reflexivity|]. split; [lia|].
      rewrite Z2Pos.id by lia. split; [lia|].
      exists N0, (Z.pos b * 2 ^ k), (e0 + k), R.
      split; [nia|]. split; [exact Hsc|]. split; [exact Hbin|].
      split; [exact Hnear|]. left. repeat split; lia.
    + right. split; [reflexivity|]. apply Hbig. lia.
  - destruct (Z.leb_spec (e0 + k + 1) 971) as [Hle|Hgt].
    + left. eexists _, _. split; [reflexivity|].
      cbn [rounds_to]. split; [reflexivity|]. split; [lia|].
      split; [lia|].
      exists N0, (Z.pos b * 2 ^ k), (e0 + k), R.
      split; [nia|]. split; [exact Hsc|]. split; [exact Hbin|].
      split; [exact Hnear|]. right. repeat split; lia.
    + right. split; [reflexivity|]. apply Hbig. lia.
Qed.

(** What [rounds_to] says of a fraction below [2^52]. *)
Lemma rounds_to_small (s : bool) (num den : Z) (f : spec_float) (P Q : Z) :
  0 < num -> 0 < den -> num < 4503599627370496 * den ->
  rounds_to s num den f -> magnitude f P Q ->
  exists m T : Z,
    0 < T /\ 0 < Q
    /\ 4503599627370496 * den <= num * T < 9007199254740992 * den
    /\ nearest_even (num * T) den m
    /\ P * T = m * Q.
Proof.
  intros Hn Hd Hsmall Hr Hm.
  destruct f as [s'|s'| |s' m' e']; cbn [rounds_to magnitude] in *;
    [lia|contradiction|contradiction|].
  destruct Hr as (_ & He' & Hm' & N & D & e & m & HD & Hsc & Hbin & Hnear & Hnorm).
  unfold scaled in Hsc.
  destruct (Z.leb_spec 0 e) as [Hpos|Hneg].
  { exfalso. pose proof (pow2_pos e Hpos) as HT. set (T := 2 ^ e) in *.
    clearbody T.
    assert (num * D < 4503599627370496 * den * D)
      by (apply Z.mul_lt_mono_pos_r; lia).
    assert (4503599627370496 * D * den <= N * den)
      by (apply Z.mul_le_mono_nonneg_r; lia).
    assert (N * den <= N * den * T) by nia.
    lia. }
  pose proof (pow2_pos (- e) ltac:(lia)) as HT. set (T := 2 ^ (- e)) in *.
  assert (HP : P * T = m * Q /\ 0 < Q).
  { destruct Hnorm as [(Hlt & Em & Ee)|(Em & Em' & Ee)].
    - subst e'. destruct (Z.leb_spec 0 e); [lia|].
      destruct Hm as [-> ->]. fold T. split; [lia|exact HT].
    - destruct (Z.leb_spec 0 e') as [L|G].
      + assert (e = -1) by lia. subst e. destruct Hm as [-> ->].
        subst T. change (2 ^ (- -1)) with 2. replace e' with 0 by lia.
        change (2 ^ 0) with 1. lia.
      + destruct Hm as [-> ->]. subst T.
        replace (- e) with (1 + - e') by lia.
        rewrite pow2_split by lia. change (2 ^ 1) with 2.
        pose proof (pow2_pos (- e') ltac:(lia)). lia. }
  clearbody T. exists m, T. split; [exact HT|]. split; [apply HP|].
  split; [|split; [|apply HP]].
  - assert (E : num * T * D = N * den) by lia.
    split.
    + apply (mul_cancel_le D); [exact HD|].
      replace (D * (num * T)) with (N * den) by lia. nia.
    + apply (mul_cancel_lt D); [exact HD|].
      replace (D * (num * T)) with (N * den) by lia. nia.
  - destruct Hnear as [H1 H2].
    assert (E : D * (den * m - num * T) = den * (D * m - N)) by lia.
    assert (A : D * Z.abs (den * m - num * T) = den * Z.abs (D * m - N)).
    { rewrite <- (Z.abs_eq D) at 1 by lia. rewrite <- (Z.abs_eq den) at 2 by lia.
      rewrite <- !Z.abs_mul. now rewrite E. }
    unfold nearest_even. split.
    + apply (mul_cancel_le D); [exact HD|].
      replace (D * (2 * Z.abs (den * m - num * T)))
        with (den * (2 * Z.abs (D * m - N))) by lia.
      rewrite (Z.mul_comm D den). apply Z.mul_le_mono_nonneg_l; lia.
    + intros Htie. apply H2.
      apply (Z.mul_reg_l _ _ den); [lia|].
      replace (den * (2 * Z.abs (D * m - N)))
        with (D * (2 * Z.abs (den * m - num * T))) by lia.
      rewrite Htie. lia.
Qed.

Lemma abs_bound_mul (c x b : Z) :
  0 < c -> Z.abs (c * x) < c * b -> Z.abs x < b.
Proof.
  intros Hc H. rewrite Z.abs_mul, (Z.abs_eq c) in H by lia.
  now apply (mul_cancel_lt c).
Qed.

(** The arithmetic of [int(word_count / 150 * 60)] from the two
    roundings. *)
Lemma duration_arith (wc : Z) (x y : spec_float) (P Q P' Q' : Z) :
  1 <= wc < 2 ^ 50 ->
  rounds_to false wc 150 x -> magnitude x P Q ->
  rounds_to false (60 * P) Q y -> magnitude y P' Q' ->
  0 < Q' /\ 5 * (P' / Q') <= 2 * wc <= 5 * (P' / Q') + 5.
Proof.
  intros Hwc Hx Mx Hy My.
  change (2 ^ 50) with 1125899906842624 in Hwc.
  destruct (rounds_to_small false wc 150 x P Q) as
    (m & T & HT & HQ & Hbin & [Hnear _] & HP); try assumption; try lia.
  assert (Hv : Z.abs (150 * m - wc * T) <= 75) by lia. clear Hnear.
  assert (HT600 : 600 < T).
  { destruct (Z.lt_ge_cases 600 T) as [L|G]; [exact L|exfalso].
    assert (wc * T <= wc * 600) by (apply Z.mul_le_mono_nonneg_l; lia).
    lia. }
  assert (Hm : 0 < m) by lia.
  assert (HP0 : 0 < P) by timeout 30 nia.
  assert (Hsmall : 60 * P < 4503599627370496 * Q).
  { apply (mul_cancel_lt T); [exact HT|].
    replace (T * (60 * P)) with (60 * m * Q) by lia.
    replace (T * (4503599627370496 * Q)) with (4503599627370496 * T * Q) by lia.
    apply Z.mul_lt_mono_pos_r; [exact HQ|].
    assert (wc * T < 1125899906842624 * T)
      by (apply Z.mul_lt_mono_pos_r; lia).
    lia. }
  destruct (rounds_to_small false (60 * P) Q y P' Q') as
    (m2 & T2 & HT2 & HQ' & Hbin2 & [Hnear2 _] & HP');
    try assumption; try lia.
  split; [exact HQ'|].
  (* the second rounding, in units of the first *)
  assert (Hu : 2 * Z.abs (T * m2 - 60 * m * T2) <= T).
  { apply (mul_cancel_le Q); [exact HQ|].
    replace (Q * (2 * Z.abs (T * m2 - 60 * m * T2)))
      with (2 * Z.abs (Q * (T * m2 - 60 * m * T2)))
      by (rewrite Z.abs_mul, (Z.abs_eq Q) by lia; lia).
    replace (Q * (T * m2 - 60 * m * T2)) with (T * (Q * m2 - 60 * P * T2))
      by (transitivity (T * Q * m2 - 60 * (m * Q) * T2); [rewrite <- HP|]; ring).
    rewrite Z.abs_mul, (Z.abs_eq T) by lia.
    replace (Q * T) with (T * Q) by ring.
    replace (2 * (T * Z.abs (Q * m2 - 60 * P * T2)))
      with (T * (2 * Z.abs (Q * m2 - 60 * P * T2))) by ring.
    apply Z.mul_le_mono_nonneg_l; [lia|].
    replace (60 * P * T2) with (60 * P * T2) by ring.
    replace (Q * m2 - 60 * P * T2) with (Q * m2 - 60 * P * T2) by ring.
    exact Hnear2. }
  clear Hnear2.
  assert (HT10 : 10 < T2).
  { destruct (Z.lt_ge_cases 10 T2) as [L|G]; [exact L|exfalso].
    destruct Hbin2 as [Hb2 _].
    assert (E1 : 4503599627370496 * T <= 60 * m * T2).
    { apply (mul_cancel_le Q); [exact HQ|].
      replace (Q * (4503599627370496 * T)) with (4503599627370496 * Q * T) by ring.
      replace (Q * (60 * m * T2)) with (60 * (m * Q) * T2) by ring.
      rewrite <- HP.
      replace (60 * (P * T) * T2) with (60 * P * T2 * T) by ring.
      apply Z.mul_le_mono_nonneg_r; lia. }
    assert (60 * m * T2 <= 60 * m * 10)
      by (apply Z.mul_le_mono_nonneg_l; lia).
    assert (wc * T <= 1125899906842623 * T)
      by (apply Z.mul_le_mono_nonneg_r; lia).
    lia. }
  assert (Hmain : Z.abs (5 * m2 - 2 * wc * T2) < T2).
  { apply (abs_bound_mul (30 * T)); [lia|].
    replace (30 * T * (5 * m2 - 2 * wc * T2))
      with (150 * (T * m2 - 60 * m * T2) + 60 * T2 * (150 * m - wc * T))
      by ring.
    set (u := T * m2 - 60 * m * T2) in *.
    set (v := 150 * m - wc * T) in *.
    assert (Z.abs (60 * T2 * v) <= 60 * T2 * 75).
    { rewrite Z.abs_mul, (Z.abs_eq (60 * T2)) by lia.
      apply Z.mul_le_mono_nonneg_l; lia. }
    assert (15 * T * 11 <= 15 * T * T2)
      by (apply Z.mul_le_mono_nonneg_l; lia).
    assert (601 * (15 * T2) <= T * (15 * T2))
      by (apply Z.mul_le_mono_nonneg_r; lia).
    clearbody u v. lia. }
  pose proof (Z.div_mod P' Q' ltac:(lia)) as Hdm.
  pose proof (Z.mod_pos_bound P' Q' HQ') as Hmod.
  set (d := P' / Q') in *. set (r := P' mod Q') in *. clearbody d r.
  assert (Hd : T2 * d <= m2 < T2 * (d + 1)).
  { assert (0 <= r * T2) by (apply Z.mul_nonneg_nonneg; lia).
    assert (r * T2 < Q' * T2) by (apply Z.mul_lt_mono_pos_r; lia).
    assert (E : Q' * m2 = (Q' * d + r) * T2) by (rewrite <- Hdm; lia).
    split.
    - apply (mul_cancel_le Q'); [exact HQ'|]. rewrite E. lia.
    - apply (mul_cancel_lt Q'); [exact HQ'|]. rewrite E. lia. }
  split.
  - assert (T2 * (5 * d) < T2 * (2 * wc + 1)) by lia.
    apply mul_cancel_lt in H; lia.
  - assert (T2 * (2 * wc - 1) < T2 * (5 * d + 5)) by lia.
    apply mul_cancel_lt in H; lia.
Qed.

Lemma div_half_even_nearest (num den : Z) :
  0 < den -> nearest_even num den (F64.div_half_even num den).
Proof.
  intros Hd. unfold F64.div_half_even, nearest_even.
  pose proof (Z.div_mod num den ltac:(lia)) as E.
  pose proof (Z.mod_pos_bound num den Hd) as B.
  set (q := num / den) in *. set (r := num mod den) in *. clearbody q r.
  destruct (Z.compare_spec (2 * r) den) as [C|C|C].
  - destruct (Z.even q) eqn:Ev.
    + split; [lia|]. intros _. exact Ev.
    + split; [lia|]. intros _. rewrite Z.even_add, Ev. reflexivity.
  - split; [lia|]. intros; lia.
  - split; [lia|]. intros; lia.
Qed.

(** [a / b] on two integers: the nearest float, or an overflow when the
    quotient reaches [2^1023]. *)
Lemma truediv_int_spec (a b : Z) :
  0 < b < 2 ^ 1021 ->
  match F64.truediv_int a b with
  | Returned f => rounds_to (a <? 0) (Z.abs a) b f
  | Raised msg =>
      msg = "integer division result too large for a float"
      /\ 2 ^ 1023 * b <= Z.abs a
  end.
Proof.
  intros [Hb Hb']. unfold F64.truediv_int, F64.div_int.
  destruct (Z.eqb_spec b 0) as [->|_]; [lia|].
  destruct b as [|pb|pb]; [lia| |lia]. cbn [F64.exact].
  destruct a as [|pa|pa]; cbn [F64.exact Z.abs Z.ltb Z.compare].
  - cbn. split; reflexivity.
  - destruct (SFdiv_exact false false pa pb Hb') as [(m & e & E & R)|[E R]];
      unfold F64.prec, F64.emax; rewrite E in *; cbn [xorb] in *.
    + exact R.
    + split; [reflexivity|exact R].
  - destruct (SFdiv_exact true false pa pb Hb') as [(m & e & E & R)|[E R]];
      unfold F64.prec, F64.emax; rewrite E in *; cbn [xorb] in *.
    + exact R.
    + split; [reflexivity|exact R].
Qed.

Lemma pow2_lt_1023 (t : Z) : t <= 2 ^ 60 -> t < 2 ^ 1023.
Proof.
  intros H. assert (2 ^ 61 <= 2 ^ 1023) by (apply pow2_mono; lia).
  change (2 ^ 60) with 1152921504606846976 in H.
  change (2 ^ 61) with 2305843009213693952 in H0. lia.
Qed.

(** [round(x, 1)] of a float that came out of a rounding: the float
    nearest to [k / 10], for [k] the integer nearest to ten times its
    magnitude. *)
Lemma round1_spec (s : bool) (num den : Z) (f : F64.float) :
  rounds_to s num den f ->
  exists P Q k : Z,
    magnitude f P Q /\ 0 < Q
    /\ nearest_even (10 * P) Q k
    /\ rounds_to s k 10 (F64.round1 f).
Proof.
  intros H. destruct f as [s'|s'| |s' m e]; cbn [rounds_to] in H;
    try contradiction.
  - destruct H as [-> _]. exists 0, 1, 0. cbn [magnitude F64.round1 rounds_to].
    repeat split; try lia.
  - destruct H as (-> & He & Hm & _). cbn [magnitude F64.round1].
    destruct (Z.leb_spec 0 e) as [L|G].
    + pose proof (pow2_pos e L) as HT. set (T := 2 ^ e) in *.
      exists (Z.pos m * T), 1, (10 * (Z.pos m * T)).
      split; [split; reflexivity|]. split; [lia|].
      split; [unfold nearest_even; split; intros; lia|].
      cbn [rounds_to]. split; [reflexivity|]. split; [exact He|].
      split; [exact Hm|].
      exists (Z.pos m), 1, e, (Z.pos m).
      split; [lia|]. split.
      { unfold scaled. destruct (Z.leb_spec 0 e); [|lia]. fold T. lia. }
      split; [lia|]. split; [unfold nearest_even; split; intros; lia|].
      left. repeat split; lia.
    + pose proof (pow2_pos (- e) ltac:(lia)) as HT. set (T := 2 ^ (- e)) in *.
      pose proof (div_half_even_nearest (10 * Z.pos m) T HT) as Hk.
      set (k := F64.div_half_even (10 * Z.pos m) T) in *.
      exists (Z.pos m), T, k. split; [split; reflexivity|].
      split; [exact HT|]. split; [exact Hk|].
      assert (Hk0 : 0 <= k <= 2 ^ 60).
      { destruct Hk as [Hk _].
        assert (2 <= T).
        { subst T. replace (- e) with (1 + (- e - 1)) by lia.
          rewrite pow2_split by lia. change (2 ^ 1) with 2.
          pose proof (pow2_pos (- e - 1) ltac:(lia)). lia. }
        change (2 ^ 60) with 1152921504606846976.
        clearbody k T. split.
        - destruct (Z.le_gt_cases 0 k) as [?|Hneg]; [assumption|exfalso].
          assert (T * k <= T * (-1)) by (apply Z.mul_le_mono_nonneg_l; lia).
          lia.
        - destruct (Z.le_gt_cases k 1152921504606846976) as [?|Hbig];
            [assumption|exfalso].
          assert (T * 1152921504606846977 <= T * k)
            by (apply Z.mul_le_mono_nonneg_l; lia).
          lia. }
      clearbody k. clear Hk.
      destruct k as [|t|t]; [cbn; split; reflexivity| |lia].
      destruct (SFdiv_exact s false t 10 ltac:(reflexivity))
        as [(m' & e' & E & R)|[E R]].
      * replace (xorb s false) with s in * by (destruct s; reflexivity).
        unfold F64.prec, F64.emax. exact R.
      * exfalso. pose proof (pow2_lt_1023 (Z.pos t) (proj2 Hk0)).
        assert (0 < 2 ^ 1023) by (apply pow2_pos; lia). lia.
Qed.

(** ** The arithmetic of the duration estimate *)

(** Multiplying a float by [60.0]. *)
Lemma mul_60 (mx : positive) (ex : Z) :
  4503599627370496 <= Z.pos mx < 9007199254740992 -> -1074 <= ex <= -7 ->
  exists (my : positive) (ey : Z),
    F64.mul (S754_finite false mx ex) (F64.of_int 60)
    = S754_finite false my ey
    /\ rounds_to false (60 * Z.pos mx) (2 ^ (- ex)) (S754_finite false my ey).
Proof.
  intros Hm He.
  change (F64.of_int 60) with (S754_finite false 8444249301319680 (-47)).
  unfold F64.mul, SFmul, F64.prec, F64.emax. cbn [xorb].
  set (pq := (mx * 8444249301319680)%positive).
  assert (Epq : Z.pos pq = Z.pos mx * 8444249301319680)
    by (subst pq; apply Pos2Z.inj_mul).
  pose proof (digits2_pos_bounds pq) as Bq.
  set (dq := Z.pos (digits2_pos pq)) in *.
  assert (Hdq : 105 <= dq <= 106).
  { split.
    - destruct (Z.le_gt_cases 105 dq) as [L|G]; [exact L|exfalso].
      assert (2 ^ dq <= 2 ^ 104) by (apply pow2_mono; subst dq; lia).
      change (2 ^ 104) with 20282409603651670423947251286016 in H. lia.
    - destruct (Z.le_gt_cases dq 106) as [L|G]; [exact L|exfalso].
      assert (2 ^ 106 <= 2 ^ (dq - 1)) by (apply pow2_mono; lia).
      change (2 ^ 106) with 81129638414606681695789005144064 in H. lia. }
  set (k := dq - 53).
  assert (Hk : 52 <= k <= 53) by (subst k; lia).
  assert (Hdk : dq = 53 + k) by (subst k; lia).
  destruct (binary_round_aux_nearest false pq (ex + -47) k (Z.pos pq) 1
              loc_Exact ltac:(lia) ltac:(lia) Hdk ltac:(lia)
              ltac:(cbn; lia))
    as (R & Hnear & HR & Hres).
  rewrite Hres. clear Hres.
  rewrite Hdk in Bq. replace (53 + k - 1) with (52 + k) in Bq by lia.
  rewrite !pow2_split in Bq by lia.
  change (2 ^ 52) with 4503599627370496 in Bq.
  change (2 ^ 53) with 9007199254740992 in Bq.
  pose proof (pow2_pos k ltac:(lia)) as HT.
  assert (Hsc : scaled (60 * Z.pos mx) (2 ^ (- ex)) (Z.pos pq) (1 * 2 ^ k)
                  (ex + -47 + k)).
  { unfold scaled. destruct (Z.leb_spec 0 (ex + -47 + k)); [lia|].
    rewrite Epq.
    replace (60 * Z.pos mx * (1 * 2 ^ k) * 2 ^ (- (ex + -47 + k)))
      with (60 * Z.pos mx * (2 ^ k * 2 ^ (- (ex + -47 + k)))) by ring.
    rewrite <- pow2_split by lia.
    replace (k + - (ex + -47 + k)) with (47 + - ex) by lia.
    rewrite pow2_split by lia.
    change (2 ^ 47) with 140737488355328. ring. }
  assert (Hbin : 4503599627370496 * (1 * 2 ^ k) <= Z.pos pq
                 < 9007199254740992 * (1 * 2 ^ k)) by lia.
  assert (0 < R) by lia.
  destruct (Z.ltb_spec R 9007199254740992) as [Hlt|Hge].
  - destruct (Z.leb_spec (ex + -47 + k) 971); [|lia].
    eexists _, _. split; [reflexivity|].
    cbn [rounds_to]. split; [reflexivity|]. split; [lia|].
    rewrite Z2Pos.id by lia. split; [lia|].
    exists (Z.pos pq), (1 * 2 ^ k), (ex + -47 + k), R.
    split; [lia|]. split; [exact Hsc|]. split; [exact Hbin|].
    split; [exact Hnear|]. left. repeat split; lia.
  - destruct (Z.leb_spec (ex + -47 + k + 1) 971); [|lia].
    eexists _, _. split; [reflexivity|].
    cbn [rounds_to]. split; [reflexivity|]. split; [lia|]. split; [lia|].
    exists (Z.pos pq), (1 * 2 ^ k), (ex + -47 + k), R.
    split; [lia|]. split; [exact Hsc|]. split; [exact Hbin|].
    split; [exact Hnear|]. right. repeat split; lia.
Qed.

(** [int(f)] of a float that is not negative: the integer part of its
    magnitude. *)
Lemma to_int_magnitude (m : positive) (e : Z) (P Q : Z) :
  magnitude (S754_finite false m e) P Q ->
  F64.to_int (S754_finite false m e) = Returned (P / Q).
Proof.
  cbn [magnitude F64.to_int]. destruct (Z.leb_spec 0 e); intros [-> ->].
  - now rewrite Z.div_1_r.
  - reflexivity.
Qed.

(** The estimate for [word_count] words: the quotient by 150 is rounded
    to a float, its product by 60 is rounded again, and the result is
    cut off to an integer. *)
Lemma duration_of_words_spec (wc : Z) :
  1 <= wc < 2 ^ 50 ->
  exists (x y : F64.float) (P Q P' Q' : Z),
    rounds_to false wc 150 x /\ magnitude x P Q
    /\ rounds_to false (60 * P) Q y /\ magnitude y P' Q'
    /\ 0 < Q'
    /\ duration_of_words wc = Returned (P' / Q')
    /\ 5 * (P' / Q') <= 2 * wc <= 5 * (P' / Q') + 5.
Proof.
  intros Hwc. unfold duration_of_words.
  pose proof (truediv_int_spec wc 150 ltac:(split; reflexivity)) as Hx.
  destruct (F64.truediv_int wc 150) as [x|msg].
  2:{ exfalso. destruct Hx as [_ Hx].
      pose proof (pow2_lt_1023 wc) as B.
      change (2 ^ 50) with 1125899906842624 in Hwc.
      change (2 ^ 60) with 1152921504606846976 in B.
      rewrite Z.abs_eq in Hx by lia.
      assert (0 < 2 ^ 1023) by (apply pow2_pos; lia). lia. }
  replace (wc <? 0) with false in Hx by (symmetry; apply Z.ltb_ge; lia).
  rewrite Z.abs_eq in Hx by lia.
  destruct x as [s|s| |s mx ex]; try contradiction;
    [cbn [rounds_to] in Hx; lia|].
  assert (Hs : s = false) by apply Hx. subst s.
  assert (Hrange : -1074 <= ex <= 971) by apply Hx.
  assert (Hmx : 4503599627370496 <= Z.pos mx < 9007199254740992) by apply Hx.
  (* the exponent is small *)
  assert (Mx : exists P Q, magnitude (S754_finite false mx ex) P Q)
    by (cbn [magnitude]; destruct (0 <=? ex); eexists _, _; split; reflexivity).
  destruct Mx as (P & Q & Mx).
  change (2 ^ 50) with 1125899906842624 in Hwc.
  destruct (rounds_to_small false wc 150 _ P Q ltac:(lia) ltac:(lia)
              ltac:(lia) Hx Mx)
    as (m & T & HT & HQ & Hbin & [Hnear _] & HP).
  assert (HT600 : 600 < T).
  { destruct (Z.lt_ge_cases 600 T) as [L|G]; [exact L|exfalso].
    assert (wc * T <= wc * 600) by (apply Z.mul_le_mono_nonneg_l; lia).
    lia. }
  assert (Hm2 : m <= 9007199254740992).
  { destruct (Z.le_gt_cases m 9007199254740992) as [L|G]; [exact L|exfalso].
    assert (wc * T < 1125899906842624 * T)
      by (apply Z.mul_lt_mono_pos_r; lia).
    lia. }
  assert (Hex : ex <= -7).
  { cbn [magnitude] in Mx. destruct (Z.leb_spec 0 ex) as [L|G].
    - exfalso. destruct Mx as [-> ->].
      pose proof (pow2_pos ex L).
      assert (Z.pos mx * 1 <= Z.pos mx * 2 ^ ex)
        by (apply Z.mul_le_mono_nonneg_l; lia).
      assert (Z.pos mx * 2 ^ ex * 601 <= Z.pos mx * 2 ^ ex * T)
        by (apply Z.mul_le_mono_nonneg_l; lia).
      lia.
    - destruct Mx as [-> ->].
      destruct (Z.le_gt_cases ex (-7)) as [?|G7]; [assumption|exfalso].
      assert (2 ^ (- ex) <= 2 ^ 6) by (apply pow2_mono; lia).
      change (2 ^ 6) with 64 in H.
      assert (4503599627370496 * T <= Z.pos mx * T)
        by (apply Z.mul_le_mono_nonneg_r; lia).
      assert (m * 2 ^ (- ex) <= 9007199254740992 * 2 ^ (- ex))
        by (apply Z.mul_le_mono_nonneg_r; lia).
      lia. }
  clear m T HT HQ Hbin Hnear HP HT600 Hm2.
  destruct (mul_60 mx ex Hmx ltac:(lia)) as (my & ey & Emul & Hy).
  assert (EQ : Q = 2 ^ (- ex) /\ P = Z.pos mx).
  { cbn [magnitude] in Mx. destruct (Z.leb_spec 0 ex); [lia|].
    destruct Mx as [-> ->]. split; reflexivity. }
  destruct EQ as [EQ EP].
  assert (My : exists P' Q', magnitude (S754_finite false my ey) P' Q')
    by (cbn [magnitude]; destruct (0 <=? ey); eexists _, _; split; reflexivity).
  destruct My as (P' & Q' & My).
  rewrite <- EQ, <- EP in Hy.
  exists (S754_finite false mx ex), (S754_finite false my ey), P, Q, P', Q'.
  pose proof (duration_arith wc _ _ P Q P' Q'
                ltac:(change (2 ^ 50) with 1125899906842624; lia)
                Hx Mx Hy My) as [HQ' Hd].
  split; [exact Hx|]. split; [exact Mx|]. split; [exact Hy|].
  split; [exact My|]. split; [exact HQ'|].
  split; [|exact Hd].
  rewrite Emul. now apply to_int_magnitude.
Qed.

End Binary64.

(** ** The nearest float is unique *)

Lemma nearest_even_scale (c N D m : Z) :
  0 < c -> nearest_even N D m -> nearest_even (N * c) (D * c) m.
Proof.
  intros Hc [H1 H2]. unfold nearest_even.
  replace (D * c * m - N * c) with (c * (D * m - N)) by ring.
  rewrite Z.abs_mul, (Z.abs_eq c) by lia.
  set (a := Z.abs (D * m - N)) in *. clearbody a.
  split.
  - replace (2 * (c * a)) with (c * (2 * a)) by ring.
    rewrite (Z.mul_comm D c). apply Z.mul_le_mono_nonneg_l; lia.
  - intros E. apply H2. apply (Z.mul_reg_l _ _ c); lia.
Qed.

Lemma nearest_even_unique (N D a b : Z) :
  0 < D -> nearest_even N D a -> nearest_even N D b -> a = b.
Proof.
  assert (G : forall a b, 0 < D -> nearest_even N D a -> nearest_even N D b ->
                          a < b -> False).
  { clear a b. intros a b HD [A1 A2] [B1 B2] Hlt.
    assert (D * (a + 1) <= D * b) by (apply Z.mul_le_mono_nonneg_l; lia).
    assert (Hb : D * b = D * a + D) by lia.
    assert (Eb : b = a + 1).
    { apply (Z.mul_reg_l _ _ D); lia. }
    assert (Z.even a = true) by (apply A2; lia).
    assert (Z.even b = true) by (apply B2; lia).
    subst b. rewrite Z.even_add in H1. rewrite H0 in H1. discriminate H1. }
  intros HD Ha Hb. destruct (Z.lt_trichotomy a b) as [L|[E|L]].
  - exfalso. exact (G a b HD Ha Hb L).
  - exact E.
  - exfalso. exact (G b a HD Hb Ha L).
Qed.

(** Two scalings of one fraction. *)
Lemma scaled_cross (num den N1 D1 e1 N2 D2 e2 : Z) :
  0 < den ->
  scaled num den N1 D1 e1 -> scaled num den N2 D2 e2 -> e1 <= e2 ->
  N1 * D2 = N2 * D1 * 2 ^ (e2 - e1).
Proof.
  intros Hden S1 S2 Hle. unfold scaled in *.
  apply (Z.mul_reg_l _ _ den); [lia|].
  destruct (Z.leb_spec 0 e1) as [P1|M1], (Z.leb_spec 0 e2) as [P2|M2];
    try lia.
  - replace e2 with (e1 + (e2 - e1)) in S2 at 1 by lia.
    rewrite pow2_split in S2 by lia.
    pose proof (pow2_pos e1 P1) as HT.
    apply (Z.mul_reg_l _ _ (2 ^ e1)); [lia|].
    transitivity (num * D1 * D2); [rewrite S1; ring|].
    transitivity (num * D2 * D1); [ring|]. rewrite S2. ring.
  - replace (e2 - e1) with (e2 + - e1) by lia.
    rewrite pow2_split by lia.
    transitivity (N1 * den * D2); [ring|]. rewrite <- S1.
    transitivity (num * D2 * D1 * 2 ^ (- e1)); [ring|]. rewrite S2. ring.
  - replace (- e1) with (- e2 + (e2 - e1)) in S1 by lia.
    rewrite pow2_split in S1 by lia.
    transitivity (N1 * den * D2); [ring|]. rewrite <- S1.
    transitivity (num * D2 * 2 ^ (- e2) * (D1 * 2 ^ (e2 - e1))); [ring|].
    rewrite S2. ring.
Qed.

(** [rounds_to] pins the float: a fraction has one nearest float. *)
Lemma rounds_to_unique (s : bool) (num den : Z) (f g : F64.float) :
  0 < den -> rounds_to s num den f -> rounds_to s num den g -> f = g.
Proof.
  intros Hden Hf Hg.
  assert (Z0 : forall s' m' e',
             num = 0 -> rounds_to s num den (S754_finite s' m' e') -> False).
  { intros s' m' e' E0 H. cbn [rounds_to] in H.
    destruct H as (_ & _ & _ & N & D & e & m & HD & Hsc & Hbin & _).
    unfold scaled in Hsc. subst num.
    destruct (Z.leb_spec 0 e) as [P|M].
    - pose proof (pow2_pos e P).
      assert (N * den * 2 ^ e = 0) by lia.
      apply Z.mul_eq_0 in H0 as [H0|H0]; [|lia].
      apply Z.mul_eq_0 in H0 as [H0|H0]; lia.
    - assert (N * den = 0) by lia.
      apply Z.mul_eq_0 in H as [H|H]; lia. }
  destruct f as [sf|sf| |sf mf ef], g as [sg|sg| |sg mg eg];
    try contradiction.
  - destruct Hf as [-> _], Hg as [-> _]. reflexivity.
  - exfalso. eapply Z0; [apply Hf|exact Hg].
  - exfalso. eapply Z0; [apply Hg|exact Hf].
  - cbn [rounds_to] in Hf, Hg.
    destruct Hf as (-> & _ & _ & N1 & D1 & e1 & m1 & HD1 & S1 & B1 & R1 & F1).
    destruct Hg as (-> & _ & _ & N2 & D2 & e2 & m2 & HD2 & S2 & B2 & R2 & F2).
    assert (He : e1 = e2).
    { destruct (Z.lt_trichotomy e1 e2) as [L|[E|L]]; [exfalso|exact E|exfalso].
      - pose proof (scaled_cross _ _ _ _ _ _ _ _ Hden S1 S2 ltac:(lia)) as C.
        assert (2 <= 2 ^ (e2 - e1))
          by (change 2 with (2 ^ 1) at 1; apply pow2_mono; lia).
        set (T := 2 ^ (e2 - e1)) in *. clearbody T.
        assert (4503599627370496 * D2 * D1 * 2 <= N2 * D1 * T).
        { transitivity (N2 * D1 * 2).
          - apply Z.mul_le_mono_nonneg_r; [lia|].
            apply Z.mul_le_mono_nonneg_r; lia.
          - apply Z.mul_le_mono_nonneg_l; [|lia].
            apply Z.mul_nonneg_nonneg; lia. }
        assert (N1 * D2 < 9007199254740992 * D1 * D2)
          by (apply Z.mul_lt_mono_pos_r; lia).
        lia.
      - pose proof (scaled_cross _ _ _ _ _ _ _ _ Hden S2 S1 ltac:(lia)) as C.
        assert (2 <= 2 ^ (e1 - e2))
          by (change 2 with (2 ^ 1) at 1; apply pow2_mono; lia).
        set (T := 2 ^ (e1 - e2)) in *. clearbody T.
        assert (4503599627370496 * D1 * D2 * 2 <= N1 * D2 * T).
        { transitivity (N1 * D2 * 2).
          - apply Z.mul_le_mono_nonneg_r; [lia|].
            apply Z.mul_le_mono_nonneg_r; lia.
          - apply Z.mul_le_mono_nonneg_l; [|lia].
            apply Z.mul_nonneg_nonneg; lia. }
        assert (N2 * D1 < 9007199254740992 * D2 * D1)
          by (apply Z.mul_lt_mono_pos_r; lia).
        lia. }
    subst e2.
    pose proof (scaled_cross _ _ _ _ _ _ _ _ Hden S1 S2 ltac:(lia)) as C.
    rewrite Z.sub_diag in C. change (2 ^ 0) with 1 in C.
    rewrite Z.mul_1_r in C.
    assert (Em : m1 = m2).
    { apply (nearest_even_unique (N1 * D2) (D1 * D2)); [nia| |].
      - now apply nearest_even_scale.
      - rewrite C, (Z.mul_comm D1 D2). now apply nearest_even_scale. }
    subst m2.
    assert (Z.pos mf = Z.pos mg /\ ef = eg) by lia.
    destruct H as [H ->]. injection H as ->. reflexivity.
Qed.

(* ================================================================== *)
(** * The quality gate *)
(* ================================================================== *)

Lemma sum_from (l : list Z) (a : Z) :
  fold_left Z.add l a = a + Py.sum l.
Proof.
  unfold Py.sum. revert a. induction l as [|x l IH]; intros a; cbn.
  - lia.
  - rewrite (IH (a + x)), (IH x). lia.
Qed.

(** [sum(1 for c in confidences if p(c))] counts the matching entries. *)
Lemma count_if_length (p : Z -> bool) (confidences : list Z) :
  Orchestrator.count_if p confidences
  = Z.of_nat (List.length (filter p confidences)).
Proof.
  unfold Orchestrator.count_if.
  induction (filter p confidences) as [|x l IH].
  - reflexivity.
  - unfold Py.sum in *. cbn [map fold_left List.length].
    rewrite sum_from. unfold Py.sum. rewrite IH, Nat2Z.inj_succ. lia.
Qed.

(** C1, as the code has it.  For every non-empty research result of
    fewer than 2^53 sections and every threshold: unless the mean is so
    large that the division overflows (the sum is then at least 2^1023
    times the number of sections, and the gate raises), the gate returns
    a verdict in which [average_confidence] is [round(average, 1)] and
    not the mean itself, where [average] is the float nearest to the
    exact mean of the confidences and the rounding takes the integer [k]
    nearest to ten times [average] and returns the float nearest to
    [k / 10]; [high_confidence_count] is the number of sections with
    confidence at least 85; and [acceptable] holds exactly when
    [average] is at least the threshold and the count is at least half
    the number of sections, exactly half being enough. *)
Theorem quality_gate_verdict :
  forall (min_confidence : F64.float) (rs : list research_item),
    rs <> [] ->
    Z.of_nat (List.length rs) < 2 ^ 53 ->
    let confidences := Orchestrator.confidences_of rs in
    let total := Py.sum confidences in
    let n := Z.of_nat (List.length rs) in
    let high :=
      Z.of_nat (List.length (filter (fun c => 85 <=? c) confidences)) in
    match Orchestrator._validate_research_quality min_confidence
            {| Orchestrator.results := Some rs |} with
    | Returned v =>
        exists (average rounded : F64.float) (P Q k : Z),
          rounds_to (total <? 0) (Z.abs total) n average
          /\ magnitude average P Q /\ 0 < Q
          /\ nearest_even (10 * P) Q k
          /\ rounds_to (total <? 0) k 10 rounded
          /\ Orchestrator.average_confidence v = Float rounded
          /\ Orchestrator.total_sections v = n
          /\ Orchestrator.high_confidence_count v = high
          /\ (Orchestrator.acceptable v = true
              <-> F64.geb average min_confidence = true /\ n <= 2 * high)
    | Raised msg =>
        msg = "integer division result too large for a float"
        /\ 2 ^ 1023 * n <= Z.abs total
    end.
Proof.
  intros min_confidence rs Hne Hlen confidences total n high.
  assert (Hpos : 0 < n < 2 ^ 53).
  { split; [|exact Hlen]. subst n. destruct rs; [contradiction|].
    cbn [List.length]. rewrite Nat2Z.inj_succ. apply Z.lt_succ_r, Nat2Z.is_nonneg. }
  clear Hlen.
  assert (Hn : 0 < n < 2 ^ 1021).
  { split; [apply Hpos|]. apply Z.lt_le_trans with (2 ^ 53); [apply Hpos|].
    apply pow2_mono. split; discriminate. }
  unfold Orchestrator._validate_research_quality.
  cbn [Orchestrator.results]. destruct rs as [|r rs']; [contradiction|].
  unfold Orchestrator.average_of.
  fold confidences. fold total.
  replace (Z.of_nat (List.length confidences)) with n
    by (subst confidences; unfold Orchestrator.confidences_of;
        now rewrite length_map).
  pose proof (truediv_int_spec total n Hn) as Hdiv.
  destruct (F64.truediv_int total n) as [average|msg]; [|exact Hdiv].
  destruct (round1_spec _ _ _ average Hdiv) as (P & Q & k & HM & HQ & Hk & Hr).
  exists average, (F64.round1 average), P, Q, k.
  cbn [Orchestrator.average_confidence Orchestrator.total_sections
       Orchestrator.high_confidence_count Orchestrator.acceptable].
  fold n. rewrite int_geb_half by exact Hpos. clear Hpos Hn.
  rewrite count_if_length. fold high.
  split; [exact Hdiv|]. split; [exact HM|]. split; [exact HQ|].
  split; [exact Hk|]. split; [exact Hr|]. do 3 (split; [reflexivity|]).
  rewrite andb_true_iff, Z.leb_le. reflexivity.
Qed.

(** With confidences 90, 90, 60, 60 and the threshold 70 the mean is 75
    and two of four sections are high: the result is accepted. *)
Lemma quality_gate_witness :
  exists v : Orchestrator.verdict,
    Orchestrator._validate_research_quality (F64.of_int 70)
      {| Orchestrator.results := Some (map item_with [90; 90; 60; 60]) |}
    = Returned v
    /\ Orchestrator.acceptable v = true
    /\ Orchestrator.high_confidence_count v = 2
    /\ Orchestrator.average_confidence v = Float (F64.of_int 75)
    /\ exists average : F64.float,
         rounds_to false 300 4 average
         /\ F64.geb average (F64.of_int 70) = true.
Proof.
  pose proof (quality_gate_verdict (F64.of_int 70)
                (map item_with [90; 90; 60; 60])
                ltac:(discriminate) ltac:(reflexivity)) as H.
  cbv zeta in H.
  destruct (Orchestrator._validate_research_quality (F64.of_int 70)
              {| Orchestrator.results :=
                   Some (map item_with [90; 90; 60; 60]) |})
    as [v|msg] eqn:E; [|vm_compute in E; discriminate E].
  destruct H as (average & rounded & P & Q & k & Ha & _ & _ & _ & _ & _ & _
                 & Hh & Hacc).
  vm_compute in E. injection E as <-.
  eexists. split; [reflexivity|]. split; [reflexivity|].
  split; [exact Hh|]. split; [reflexivity|].
  exists average. split; [exact Ha|]. now apply Hacc.
Defined.

(** C1 fails as worded: for confidences 90, 90, 91 the verdict reports
    90.3, which is not the mean 271/3 (nor the float nearest to it). *)
Lemma average_confidence_is_rounded :
  exists v : Orchestrator.verdict,
    Orchestrator._validate_research_quality (F64.of_int 70)
      {| Orchestrator.results := Some (map item_with [90; 90; 91]) |}
    = Returned v
    /\ Orchestrator.average_confidence v = Float (F64.decimal 903 1)
    /\ F64.decimal 903 1 <> F64.div_int 271 3
    /\ 903 * 3 <> 271 * 10.
Proof.
  eexists. split; [vm_compute; reflexivity|]. split; [reflexivity|].
  split; [vm_compute; discriminate|discriminate].
Qed.

(** C10, as the code has it: for every threshold an empty section list
    (or a missing one) gives [acceptable = false], average confidence 0,
    no sections, no high-confidence sections, and a verdict without any
    confidence distribution. *)
Theorem empty_result_verdict :
  forall min_confidence : F64.float,
    Orchestrator._validate_research_quality min_confidence
      {| Orchestrator.results := Some [] |}
    = Returned {| Orchestrator.acceptable := false;
                  Orchestrator.average_confidence := Int 0;
                  Orchestrator.total_sections := 0;
                  Orchestrator.high_confidence_count := 0;
                  Orchestrator.confidence_distribution := None |}
    /\ Orchestrator._validate_research_quality min_confidence
         {| Orchestrator.results := None |}
       = Returned {| Orchestrator.acceptable := false;
                     Orchestrator.average_confidence := Int 0;
                     Orchestrator.total_sections := 0;
                     Orchestrator.high_confidence_count := 0;
                     Orchestrator.confidence_distribution := None |}.
Proof. intros; split; reflexivity. Qed.

(** C10 fails as worded: the verdict for an empty list has no
    distribution buckets at all, so it is not the distribution with
    three zero counts. *)
Lemma empty_verdict_has_no_distribution :
  exists v : Orchestrator.verdict,
    Orchestrator._validate_research_quality (F64.of_int 70)
      {| Orchestrator.results := Some [] |} = Returned v
    /\ Orchestrator.confidence_distribution v
       <> Some {| Orchestrator.high := 0; Orchestrator.medium := 0;
                  Orchestrator.low := 0 |}.
Proof. eexists. split; [reflexivity|]. discriminate. Qed.

(* ================================================================== *)
(** * The duration estimate *)
(* ================================================================== *)

Lemma all_upto_spec (p : Z -> bool) (n : nat) :
  all_upto n p = true ->
  forall z, 0 <= z <= Z.of_nat n -> p z = true.
Proof.
  induction n as [|n IH]; intros H z Hz.
  - cbn in H. replace z with 0 by (cbn in Hz; lia). exact H.
  - cbn [all_upto] in H. apply andb_true_iff in H as [H1 H2].
    destruct (Z.eq_dec z (Z.of_nat (S n))) as [->|N]; [exact H1|].
    apply IH; [exact H2|]. rewrite Nat2Z.inj_succ in Hz, N. lia.
Qed.

Lemma durations_checked : all_upto (Z.to_nat 1000) duration_ok = true.
Proof. vm_compute. reflexivity. Qed.

Section Audio.
Context {W : Type} {services : AudiobookGenerator.Services W}.
Import AudiobookGenerator.

(** A successful narration reports the estimate for the text it was
    given, whatever chunks the text was cut into. *)
Lemma chapter_audio_duration (chapter_number : Z)
    (chapter_title text topic voice user_id : string) (confidence : option Z)
    (w w' : W) (r : audio_result) :
  generate_chapter_audio chapter_number chapter_title text topic voice
    user_id confidence w = (Returned r, w') ->
  success r = true ->
  exists (d : Z) (i : audio_info),
    estimate_audio_duration text = Returned d
    /\ duration r = d
    /\ info r = Some i
    /\ estimated_duration_seconds i = d.
Proof.
  unfold generate_chapter_audio, try_except. intros E Hs.
  match type of E with
  | (match ?body w with _ => _ end) = _ =>
      destruct (body w) as [[r0|m] w0] eqn:B
  end.
  2:{ unfold ret in E. injection E as <- _. discriminate Hs. }
  injection E as -> ->. clear Hs.
  unfold bind, lift, ret, raise in B.
  repeat match type of B with
  | context [match ?x with _ => _ end] => destruct x eqn:?; try discriminate B
  | context [let (_, _) := ?x in _] => destruct x eqn:?
  end.
  all: injection B as <- _; eexists _, _; repeat split; eassumption || reflexivity.
Qed.

End Audio.

(** C7, as the code has it: the duration estimate is
    [int(word_count / 150 * 60)], the float product cut off toward zero
    and not rounded.  For every text of fewer than 2^50 words the call
    returns [d], where [minutes] is the float nearest to
    [word_count / 150], [seconds] the float nearest to [60 * minutes],
    and [d] the integer part of [seconds].  So [d] never exceeds the
    exact [2 * word_count / 5]; it is its integer part whenever 5 does
    not divide the word count, and at most one below it otherwise; up
    to 1000 words the only text lengths that lose a second are those of
    615 words (245 and not 246); 150 words give 60 seconds and 1225
    words 489 (not 490); and a successful narration of the text reports this value, computed on
    the whole text and not per chunk. *)
Theorem duration_estimate_truncates :
  forall text : string,
    let word_count := Z.of_nat (List.length (Py.split_ws text)) in
    word_count < 2 ^ 50 ->
    exists (d : Z) (minutes seconds : F64.float) (P Q P' Q' : Z),
      AudiobookGenerator.estimate_audio_duration text = Returned d
      /\ rounds_to false word_count 150 minutes /\ magnitude minutes P Q
      /\ rounds_to false (60 * P) Q seconds /\ magnitude seconds P' Q'
      /\ 0 < Q' /\ d = P' / Q'
      /\ 2 * word_count / 5 - 1 <= d <= 2 * word_count / 5
      /\ (word_count mod 5 <> 0 -> d = 2 * word_count / 5)
      /\ (word_count <= 1000 ->
          d = if word_count =? 615 then 245 else 2 * word_count / 5)
      /\ (word_count = 150 -> d = 60)
      /\ (word_count = 1225 -> d = 489)
      /\ (forall (W : Type) (services : AudiobookGenerator.Services W)
                 (chapter_number : Z)
                 (chapter_title topic voice user_id : string)
                 (confidence : option Z) (w w' : W) (r : audio_result),
            AudiobookGenerator.generate_chapter_audio chapter_number
              chapter_title text topic voice user_id confidence w
            = (Returned r, w') ->
            success r = true ->
            duration r = d
            /\ exists i : audio_info,
                 info r = Some i /\ estimated_duration_seconds i = d).
Proof.
  intros text word_count Hwc.
  assert (H0 : 0 <= word_count) by apply Nat2Z.is_nonneg.
  assert (Hspec : exists (x y : F64.float) (P Q P' Q' : Z),
             rounds_to false word_count 150 x /\ magnitude x P Q
             /\ rounds_to false (60 * P) Q y /\ magnitude y P' Q'
             /\ 0 < Q'
             /\ duration_of_words word_count = Returned (P' / Q')
             /\ 5 * (P' / Q') <= 2 * word_count <= 5 * (P' / Q') + 5).
  { destruct (Z.eq_dec word_count 0) as [E0|N0].
    - rewrite E0. exists (S754_zero false), (S754_zero false), 0, 1, 0, 1.
      cbn. repeat split; lia.
    - apply duration_of_words_spec. lia. }
  destruct Hspec as (x & y & P & Q & P' & Q' & Hx & Mx & Hy & My & HQ' & Hd & Hb).
  change (AudiobookGenerator.estimate_audio_duration text)
    with (duration_of_words word_count).
  remember (P' / Q') as d eqn:Ed in *.
  exists d, x, y, P, Q, P', Q'.
  split; [exact Hd|]. split; [exact Hx|]. split; [exact Mx|].
  split; [exact Hy|]. split; [exact My|]. split; [exact HQ'|].
  split; [exact Ed|].
  assert (Hk : word_count <= 1000 ->
               d = if word_count =? 615 then 245 else 2 * word_count / 5).
  { intros Hle.
    assert (Hok : duration_ok word_count = true).
    { apply (all_upto_spec _ _ durations_checked).
      split; [exact H0|]. rewrite Z2Nat.id by discriminate. exact Hle. }
    unfold duration_ok in Hok. rewrite Hd in Hok. apply Z.eqb_eq, Hok. }
  assert (Hfar : word_count = 1225 -> d = 489).
  { intros E.
    assert (C : duration_of_words 1225 = Returned 489)
      by (vm_compute; reflexivity).
    rewrite E, C in Hd. now injection Hd as <-. }
  assert (Hrun : forall (W : Type) (services : AudiobookGenerator.Services W)
                 (chapter_number : Z)
                 (chapter_title topic voice user_id : string)
                 (confidence : option Z) (w w' : W) (r : audio_result),
            AudiobookGenerator.generate_chapter_audio chapter_number
              chapter_title text topic voice user_id confidence w
            = (Returned r, w') ->
            success r = true ->
            duration r = d
            /\ exists i : audio_info,
                 info r = Some i /\ estimated_duration_seconds i = d).
  { intros W services n ttl tp vc uid conf w w' r Hrun Hs.
    destruct (chapter_audio_duration n ttl text tp vc uid conf w w' r Hrun Hs)
      as (d' & i & H1 & H2 & H3 & H4).
    change (AudiobookGenerator.estimate_audio_duration text)
      with (duration_of_words word_count) in H1.
    rewrite Hd in H1. injection H1 as <-.
    split; [exact H2|]. exists i. split; assumption. }
  clear Hx Mx Hy My HQ' Hwc Hd Ed. clearbody word_count.
  assert (Hdiv : 2 * word_count / 5 - 1 <= d <= 2 * word_count / 5
                 /\ (word_count mod 5 <> 0 -> d = 2 * word_count / 5)).
  { clear - Hb.
    pose proof (Z.div_mod (2 * word_count) 5 ltac:(discriminate)) as E2.
    pose proof (Z.mod_pos_bound (2 * word_count) 5 ltac:(reflexivity)) as B2.
    pose proof (Z.div_mod word_count 5 ltac:(discriminate)) as E1.
    pose proof (Z.mod_pos_bound word_count 5 ltac:(reflexivity)) as B1.
    set (q2 := 2 * word_count / 5) in *. set (r2 := (2 * word_count) mod 5) in *.
    set (q1 := word_count / 5) in *. set (r1 := word_count mod 5) in *.
    clearbody q2 r2 q1 r1. split; [lia|]. intros N. lia. }
  split; [apply Hdiv|]. split; [apply Hdiv|].
  split; [exact Hk|].
  split; [intros ->; now apply Hk|]. split; [exact Hfar|]. exact Hrun.
Qed.

(** A text of 150 words: the estimate is 60 seconds, and so is the
    duration of its narration. *)
Lemma duration_estimate_witness :
  AudiobookGenerator.estimate_audio_duration (words_text 150) = Returned 60
  /\ exists r : audio_result,
       fst (AudiobookGenerator.generate_chapter_audio
              (services := Disk.speech_services) 1 "Overview"
              (words_text 150) "AI" "Calum-PlayAI" "anonymous" (Some 92)
              Disk.blank) = Returned r
       /\ success r = true /\ duration r = 60.
Proof.
  destruct (duration_estimate_truncates (words_text 150))
    as (d & x & y & P & Q & P' & Q' & Hd & _ & _ & _ & _ & _ & _ & _ & _ & _
        & H150 & _ & Haudio).
  { vm_compute. reflexivity. }
  rewrite (H150 eq_refl) in Hd. split; [exact Hd|].
  eexists. split; [vm_compute; reflexivity|]. split; reflexivity.
Defined.

(** C7 fails as worded: a text of two words is estimated at 0 seconds,
    where rounding 0.8 would give 1. *)
Lemma duration_is_not_rounded :
  AudiobookGenerator.estimate_audio_duration "a b" = Returned 0
  /\ rounded_duration "a b" = Returned 1
  /\ AudiobookGenerator.estimate_audio_duration "a b"
     <> rounded_duration "a b".
Proof. vm_compute. repeat split. discriminate. Qed.

(** Beyond 1000 words seconds are lost as well: 1225 words give 489
    seconds and not 490. *)
Example duration_of_1225_words :
  duration_of_words 1225 = Returned 489 /\ 2 * 1225 / 5 = 490.
Proof. vm_compute. split; reflexivity. Qed.

(* ================================================================== *)
(** * More on the confidence scores *)
(* ================================================================== *)

(** X1: the research score is never below 75, so the lower clamp at 70
    is never reached; it is at most 96 outside "Key Statistics", at most
    93 outside "Key Statistics" and "Overview", and at most 83 for a
    text without digits and without a percent sign. *)
Theorem research_score_floor_is_75 :
  forall content section : string,
    75 <= ResearchHandler.calculate_confidence_score content section <= 98
    /\ (section <> "Key Statistics" ->
        ResearchHandler.calculate_confidence_score content section <= 96)
    /\ (section <> "Key Statistics" -> section <> "Overview" ->
        ResearchHandler.calculate_confidence_score content section <= 93)
    /\ (Py.findall_digits content = [] -> Py.contains "%" content = false ->
        ResearchHandler.calculate_confidence_score content section <= 83).
Proof.
  intros content section.
  unfold ResearchHandler.calculate_confidence_score.
  destruct (String.eqb_spec section "Key Statistics") as [EK|NK];
  destruct (String.eqb_spec section "Overview") as [EO|NO];
  destruct (Py.findall_digits content) as [|d ds];
  destruct (Py.contains "%" content);
  destruct (200 <? Py.len content); destruct (150 <? Py.len content);
  destruct (100 <? Py.len content);
  cbn [andb List.length];
  repeat split; intros; try congruence; try lia.
Qed.

(** X7: the chapter score never decreases when the base confidence
    grows. *)
Theorem chapter_confidence_monotone :
  forall (content : string) (b1 b2 : Z),
    b1 <= b2 ->
    BookGenerator.calculate_chapter_confidence content b1
    <= BookGenerator.calculate_chapter_confidence content b2.
Proof.
  intros content b1 b2 H. unfold BookGenerator.calculate_chapter_confidence.
  cbv zeta.
  repeat match goal with
  | |- context [if ?b then _ else _] => destruct b
  end; lia.
Qed.

Lemma chapter_confidence_monotone_witness :
  BookGenerator.calculate_chapter_confidence "One short paragraph." 50
  <= BookGenerator.calculate_chapter_confidence "One short paragraph." 92.
Proof. apply chapter_confidence_monotone. vm_compute. discriminate. Defined.

(** X8: for a base between 70 and 86 the chapter score lies between
    the base and the base plus nine: the content can only add to it. *)
Theorem chapter_confidence_raises_base :
  forall (content : string) (base : Z),
    70 <= base <= 86 ->
    base <= BookGenerator.calculate_chapter_confidence content base <= base + 9.
Proof.
  intros content base H. unfold BookGenerator.calculate_chapter_confidence.
  cbv zeta.
  repeat match goal with
  | |- context [if ?b then _ else _] => destruct b
  end; lia.
Qed.

Lemma chapter_confidence_raises_witness :
  80 <= BookGenerator.calculate_chapter_confidence "One short paragraph." 80
     <= 80 + 9.
Proof.
  apply chapter_confidence_raises_base. split; vm_compute; discriminate.
Defined.


(* ================================================================== *)
(** * More on the research stage *)
(* ================================================================== *)

Section Research.
Context {W : Type} {backends : ResearchHandler.Backends W}.
Import ResearchHandler.






End Research.

Lemma prefix_append (a b : string) : prefix a (a ++ b) = true.
Proof.
  induction a as [|c a IH]; cbn; [now destruct b|].
  destruct (ascii_dec c c); [exact IH|contradiction].
Qed.

Lemma contains_str_inside (needle a b : string) :
  Py.contains_str needle (a ++ needle ++ b) = true.
Proof.
  induction a as [|c a IH].
  - cbn [append]. destruct (needle ++ b) eqn:E;
      cbn [Py.contains_str]; rewrite <- E, prefix_append; reflexivity.
  - cbn [append Py.contains_str]. rewrite IH. apply orb_true_r.
Qed.

Lemma nonempty_append (c : ascii) (a b : string) : String c a ++ b <> "".
Proof. discriminate. Qed.

(** X3: every research prompt is non-empty and contains the topic,
    for the six known section names and for any other name. *)
Theorem research_prompt_names_topic :
  forall tp section_name : string,
    Py.contains_str tp (ResearchHandler.create_research_prompt tp section_name)
    = true
    /\ ResearchHandler.create_research_prompt tp section_name <> EmptyString.
Proof.
  intros tp sn. unfold ResearchHandler.create_research_prompt.
  destruct (String.eqb sn "Overview");
    [split; [apply contains_str_inside|apply nonempty_append]|].
  destruct (String.eqb sn "Key Statistics");
    [split; [apply contains_str_inside|apply nonempty_append]|].
  destruct (String.eqb sn "Advantages");
    [split; [apply contains_str_inside|apply nonempty_append]|].
  destruct (String.eqb sn "Challenges");
    [split; [apply contains_str_inside|apply nonempty_append]|].
  destruct (String.eqb sn "Future Outlook");
    [split; [apply contains_str_inside|apply nonempty_append]|].
  destruct (String.eqb sn "Recommendations");
    [split; [apply contains_str_inside|apply nonempty_append]|].
  split; [|apply nonempty_append].
  rewrite <- (append_assoc sn " for "), <- append_assoc.
  apply contains_str_inside.
Qed.


(* ================================================================== *)
(** * More on the quality gate *)
(* ================================================================== *)

Lemma buckets_partition (l : list Z) :
  Z.of_nat (List.length (filter (fun c => 85 <=? c) l))
  + Z.of_nat (List.length (filter (fun c => (70 <=? c) && (c <? 85)) l))
  + Z.of_nat (List.length (filter (fun c => c <? 70) l))
  = Z.of_nat (List.length l).
Proof.
  induction l as [|c l IH]; [reflexivity|]. cbn [filter].
  destruct (Z.leb_spec 85 c), (Z.leb_spec 70 c), (Z.ltb_spec c 85),
    (Z.ltb_spec c 70); cbn [andb List.length]; lia.
Qed.

(** The gate on a non-empty result, after the division. *)
Lemma validate_nonempty (min_confidence : F64.float)
    (r : research_item) (rs : list research_item) :
  Orchestrator._validate_research_quality min_confidence
    {| Orchestrator.results := Some (r :: rs) |}
  = let confidences := Orchestrator.confidences_of (r :: rs) in
    match F64.truediv_int (Py.sum confidences)
            (Z.of_nat (List.length (r :: rs))) with
    | Raised e => Raised e
    | Returned average =>
        let high_confidence :=
          Orchestrator.count_if (fun c => 85 <=? c) confidences in
        Returned
          {| Orchestrator.acceptable :=
               F64.geb average min_confidence
               && F64.int_geb high_confidence
                    (F64.mul (F64.of_int (Z.of_nat (List.length (r :: rs))))
                       F64.half);
             Orchestrator.average_confidence := Float (F64.round1 average);
             Orchestrator.total_sections := Z.of_nat (List.length (r :: rs));
             Orchestrator.high_confidence_count := high_confidence;
             Orchestrator.confidence_distribution :=
               Some {| Orchestrator.high := high_confidence;
                       Orchestrator.medium :=
                         Orchestrator.count_if
                           (fun c => (70 <=? c) && (c <? 85)) confidences;
                       Orchestrator.low :=
                         Orchestrator.count_if (fun c => c <? 70)
                           confidences |} |}
    end.
Proof.
  unfold Orchestrator._validate_research_quality, Orchestrator.average_of.
  cbn [Orchestrator.results]. unfold Orchestrator.confidences_of at 2.
  rewrite length_map. reflexivity.
Qed.

(** A division by a non-zero integer raises on overflow only. *)
Lemma truediv_int_raises (a b : Z) (msg : string) :
  b <> 0 -> F64.truediv_int a b = Raised msg ->
  msg = "integer division result too large for a float".
Proof.
  intros Hb. unfold F64.truediv_int.
  destruct (Z.eqb_spec b 0); [contradiction|].
  destruct (F64.div_int a b); intros H; try discriminate H.
  now injection H as <-.
Qed.

(** X5: for a non-empty result the gate returns a verdict, unless the
    division of the average overflows; in the verdict the three buckets
    of the confidence distribution are non-negative and add up to the
    number of sections, and the high bucket is the high-confidence
    count. *)
Theorem distribution_partitions_sections :
  forall (min_confidence : F64.float) (rs : list research_item),
    rs <> [] ->
    match Orchestrator._validate_research_quality min_confidence
            {| Orchestrator.results := Some rs |} with
    | Returned v =>
        exists d : Orchestrator.distribution,
          Orchestrator.confidence_distribution v = Some d
          /\ Orchestrator.high d + Orchestrator.medium d + Orchestrator.low d
             = Orchestrator.total_sections v
          /\ Orchestrator.total_sections v = Z.of_nat (List.length rs)
          /\ Orchestrator.high d = Orchestrator.high_confidence_count v
          /\ 0 <= Orchestrator.high d /\ 0 <= Orchestrator.medium d
          /\ 0 <= Orchestrator.low d
    | Raised msg => msg = "integer division result too large for a float"
    end.
Proof.
  intros t rs Hne. destruct rs as [|r rs']; [contradiction|].
  rewrite validate_nonempty. cbv zeta.
  destruct (F64.truediv_int _ _) as [average|msg] eqn:E.
  2:{ eapply truediv_int_raises, E. cbn [List.length].
      rewrite Nat2Z.inj_succ. pose proof (Nat2Z.is_nonneg (List.length rs')). lia. }
  cbn [Orchestrator.confidence_distribution
       Orchestrator.total_sections Orchestrator.high_confidence_count].
  eexists. split; [reflexivity|].
  cbn [Orchestrator.high Orchestrator.medium Orchestrator.low].
  rewrite !count_if_length.
  pose proof (buckets_partition (Orchestrator.confidences_of (r :: rs'))) as P.
  unfold Orchestrator.confidences_of in P at 4. rewrite length_map in P.
  repeat split; try lia.
Qed.

Lemma distribution_partitions_witness :
  exists (v : Orchestrator.verdict) (d : Orchestrator.distribution),
    Orchestrator._validate_research_quality (F64.of_int 70)
      {| Orchestrator.results := Some (map item_with [95; 72; 50; 88]) |}
    = Returned v
    /\ Orchestrator.confidence_distribution v = Some d
    /\ Orchestrator.high d = 2 /\ Orchestrator.medium d = 1
    /\ Orchestrator.low d = 1
    /\ Orchestrator.high d + Orchestrator.medium d + Orchestrator.low d = 4.
Proof.
  pose proof (distribution_partitions_sections (F64.of_int 70)
                (map item_with [95; 72; 50; 88]) ltac:(discriminate)) as H.
  destruct (Orchestrator._validate_research_quality (F64.of_int 70)
              {| Orchestrator.results :=
                   Some (map item_with [95; 72; 50; 88]) |})
    as [v|msg] eqn:E; [|vm_compute in E; discriminate E].
  destruct H as (d & Hd & Hsum & Hn & _).
  exists v, d. split; [reflexivity|]. split; [exact Hd|].
  rewrite Hsum, Hn.
  vm_compute in E. injection E as <-. vm_compute in Hd. injection Hd as <-.
  repeat split.
Defined.

(** X6: a result without any section of confidence 85 or more is never
    accepted, whatever the threshold, even a threshold of zero: the gate
    returns a rejecting verdict (or the division of the average
    overflows); a result made of placeholders only is such a result. *)
Theorem no_high_confidence_no_acceptance :
  forall (min_confidence : F64.float) (rs : list research_item),
    Z.of_nat (List.length rs) < 2 ^ 53 ->
    Forall (fun c => c < 85) (Orchestrator.confidences_of rs) ->
    match Orchestrator._validate_research_quality min_confidence
            {| Orchestrator.results := Some rs |} with
    | Returned v => Orchestrator.acceptable v = false
    | Raised msg => msg = "integer division result too large for a float"
    end.
Proof.
  intros t rs Hlen Hall. destruct rs as [|r rs']; [reflexivity|].
  assert (Hpos : 0 < Z.of_nat (List.length (r :: rs')) < 2 ^ 53).
  { split; [|exact Hlen]. cbn [List.length]. rewrite Nat2Z.inj_succ.
    apply Z.lt_succ_r, Nat2Z.is_nonneg. }
  clear Hlen.
  assert (F : filter (fun c => 85 <=? c)
                (Orchestrator.confidences_of (r :: rs')) = []).
  { clear - Hall. induction Hall as [|c l Hc _ IH]; [reflexivity|].
    cbn [filter]. destruct (Z.leb_spec 85 c); [lia|exact IH]. }
  rewrite validate_nonempty. cbv zeta.
  destruct (F64.truediv_int _ _) as [average|msg] eqn:E.
  2:{ eapply truediv_int_raises, E. destruct Hpos as [Hp _].
      intros Z0. rewrite Z0 in Hp. discriminate Hp. }
  cbn [Orchestrator.acceptable].
  rewrite int_geb_half by exact Hpos. clear Hpos.
  rewrite count_if_length, F. cbn [List.length].
  apply andb_false_iff. right. apply Z.leb_gt.
  rewrite Nat2Z.inj_succ. change (2 * Z.of_nat 0) with 0.
  apply Z.lt_succ_r, Nat2Z.is_nonneg.
Qed.

Lemma no_high_confidence_witness :
  exists v : Orchestrator.verdict,
    Orchestrator._validate_research_quality (S754_zero false)
      {| Orchestrator.results :=
           Some (map ResearchHandler.fallback_item
                   ["Overview"; "Key Statistics"; "Advantages"]) |}
    = Returned v
    /\ Orchestrator.acceptable v = false.
Proof.
  pose proof (no_high_confidence_no_acceptance (S754_zero false)
                (map ResearchHandler.fallback_item
                   ["Overview"; "Key Statistics"; "Advantages"])
                ltac:(reflexivity) ltac:(repeat constructor)) as H.
  destruct (Orchestrator._validate_research_quality _ _) as [v|msg] eqn:E;
    [|vm_compute in E; discriminate E].
  exists v. split; [reflexivity|exact H].
Defined.

(** X4: for a non-empty result the average that the research handler
    reports ([calculate_average_confidence]) is the value the quality
    gate reports as [average_confidence]; and where one of them raises,
    the other raises the same exception. *)
Theorem averages_agree :
  forall (min_confidence : F64.float) (rs : list research_item),
    rs <> [] ->
    match Orchestrator._validate_research_quality min_confidence
            {| Orchestrator.results := Some rs |},
          ResearchHandler.calculate_average_confidence rs with
    | Returned v, Returned a =>
        Orchestrator.average_confidence v = Float a
    | Raised e, Raised e' => e = e'
    | _, _ => False
    end.
Proof.
  intros t rs Hne. destruct rs as [|r rs']; [contradiction|].
  rewrite validate_nonempty. cbv zeta.
  unfold ResearchHandler.calculate_average_confidence,
    Orchestrator.confidences_of.
  destruct (F64.truediv_int _ _) as [average|msg]; reflexivity.
Qed.

Lemma averages_agree_witness :
  exists (v : Orchestrator.verdict) (a : F64.float),
    Orchestrator._validate_research_quality (F64.of_int 70)
      {| Orchestrator.results := Some (map item_with [90; 90; 91]) |}
    = Returned v
    /\ ResearchHandler.calculate_average_confidence
         (map item_with [90; 90; 91]) = Returned a
    /\ Orchestrator.average_confidence v = Float a.
Proof.
  pose proof (averages_agree (F64.of_int 70) (map item_with [90; 90; 91])
                ltac:(discriminate)) as H.
  destruct (Orchestrator._validate_research_quality _ _) as [v|msg] eqn:E;
    [|vm_compute in E; discriminate E].
  destruct (ResearchHandler.calculate_average_confidence _) as [a|msg] eqn:A;
    [|contradiction].
  exists v, a. repeat split. exact H.
Defined.

(* ================================================================== *)
(** * More on the book stage *)
(* ================================================================== *)

Section Book.
Context {W : Type} {services : BookGenerator.Services W}.
Import BookGenerator.

(** A completion that is empty once stripped is a failure: what
    [generate_with_bedrock] returns is never empty. *)
Lemma generate_with_bedrock_nonempty (prompt : string) (w w' : W) (c : string) :
  generate_with_bedrock prompt w = (Returned c, w') -> c <> EmptyString.
Proof.
  unfold generate_with_bedrock, bind.
  destruct (bedrock_completion _ w) as [[completion|m] w1]; [|discriminate].
  destruct (Py.strip completion) eqn:E; cbn [Py.truthy].
  - unfold raise. discriminate.
  - unfold ret. intros H. injection H as <- _. discriminate.
Qed.

Lemma generate_chapter_spec (n : Z) (item : research_item) (tp : string) (w : W) :
  exists c w',
    generate_chapter n (get_section item) (get_details item) tp
      (get_confidence item) w = (Returned c, w')
    /\ chapter_number c = n
    /\ chapter_of_item item c.
Proof.
  unfold generate_chapter, try_except, bind.
  destruct (generate_with_bedrock
              (chapter_prompt tp (get_section item) (get_details item)) w)
    as [[c|m] w1] eqn:E.
  - eexists _, _. split; [reflexivity|]. split; [reflexivity|].
    unfold chapter_of_item. cbn. split; [reflexivity|]. split; [reflexivity|].
    left. split; [reflexivity|]. split; [|reflexivity].
    eapply generate_with_bedrock_nonempty, E.
  - eexists _, _. split; [reflexivity|]. split; [reflexivity|].
    unfold chapter_of_item. cbn. split; [reflexivity|]. split; [reflexivity|].
    right. repeat split.
Qed.

Lemma chapter_loop_spec (tp : string) (research_data : list research_item) :
  forall (st : assembly) (w : W),
  exists (cs : list chapter) (w' : W),
    chapter_loop tp research_data st w
    = (Returned
         {| asm_chapters := (asm_chapters st ++ cs)%list;
            asm_table_of_contents :=
              (asm_table_of_contents st
                 ++ map (fun c => {| toc_chapter_number := chapter_number c;
                                     toc_title := title c;
                                     page := chapter_number c |}) cs)%list;
            asm_chapter_number :=
              asm_chapter_number st + Z.of_nat (List.length research_data) |},
       w')
    /\ Forall2 chapter_of_item research_data cs.
Proof.
  induction research_data as [|item rest IH]; intros st w.
  - exists [], w. cbn [chapter_loop map List.length]. rewrite !app_nil_r.
    split; [|constructor]. unfold ret. destruct st; cbn. do 3 f_equal. lia.
  - cbn [chapter_loop]. unfold bind at 1.
    destruct (generate_chapter_spec (asm_chapter_number st) item tp w)
      as (c & w1 & Hc & Hn & Hitem).
    rewrite Hc.
    match goal with |- context [chapter_loop tp rest ?s w1] =>
      destruct (IH s w1) as (cs & w' & Hl & Hall) end.
    exists (c :: cs), w'. split; [|constructor; assumption].
    rewrite Hl. cbn [asm_chapters asm_table_of_contents asm_chapter_number map
                     List.length].
    destruct Hitem as (Ht & _). rewrite Hn, Ht, <- !app_assoc.
    cbn [app]. do 3 f_equal. rewrite Nat2Z.inj_succ. lia.
Qed.


Lemma generate_introduction_spec (tp : string)
    (research_data : list research_item) (w : W) :
  exists c w',
    generate_introduction tp research_data w = (Returned c, w')
    /\ chapter_number c = 1 /\ title c = "Introduction"
    /\ content c <> EmptyString /\ sections c = []
    /\ 70 <= confidence c <= 95.
Proof.
  unfold generate_introduction, try_except, bind.
  destruct (generate_with_bedrock (introduction_prompt tp) w)
    as [[c|m] w1] eqn:E; eexists _, _; (split; [reflexivity|]); cbn.
  - repeat split; try (eapply generate_with_bedrock_nonempty, E);
      unfold calculate_chapter_confidence; lia.
  - repeat split; try discriminate; lia.
Qed.

Lemma generate_conclusion_spec (tp : string)
    (research_data : list research_item) (w : W) :
  exists c w',
    generate_conclusion tp research_data w = (Returned c, w')
    /\ chapter_number c = 99 /\ title c = "Conclusion"
    /\ content c <> EmptyString /\ sections c = []
    /\ 70 <= confidence c <= 95.
Proof.
  unfold generate_conclusion, try_except, bind.
  destruct (generate_with_bedrock
              (conclusion_prompt tp (map get_section research_data)) w)
    as [[c|m] w1] eqn:E; eexists _, _; (split; [reflexivity|]); cbn.
  - repeat split; try (eapply generate_with_bedrock_nonempty, E);
      unfold calculate_chapter_confidence; lia.
  - repeat split; try discriminate; lia.
Qed.

(** The sum of a list of numbers between two bounds. *)
Lemma sum_cons (x : Z) (l : list Z) : Py.sum (x :: l) = x + Py.sum l.
Proof. unfold Py.sum. cbn [fold_left]. now rewrite sum_from. Qed.

Lemma sum_app (l l' : list Z) : Py.sum (l ++ l') = Py.sum l + Py.sum l'.
Proof.
  induction l as [|x l IH]; [reflexivity|].
  cbn [app]. rewrite !sum_cons, IH. lia.
Qed.

Lemma sum_bounds (lo hi : Z) (l : list Z) :
  Forall (fun c => lo <= c <= hi) l ->
  lo * Z.of_nat (List.length l) <= Py.sum l <= hi * Z.of_nat (List.length l).
Proof.
  induction 1 as [|c l Hc _ IH]; [cbn; lia|].
  rewrite sum_cons. cbn [List.length]. rewrite Nat2Z.inj_succ. lia.
Qed.

(** The run of [generate_book]: the chapters and the table of contents
    are assembled whatever the backend does; the call then returns,
    unless the division of the average raises. *)
Lemma generate_book_run (tp : string) (research_data : list research_item)
    (ttl : string) (w : W) :
  exists (ts : string) (c1 : chapter) (cs : list chapter) (c9 : chapter)
         (w' : W),
    (chapter_number c1 = 1 /\ title c1 = "Introduction"
     /\ content c1 <> EmptyString /\ sections c1 = []
     /\ 70 <= confidence c1 <= 95)
    /\ Forall2 chapter_of_item research_data cs
    /\ map chapter_number cs = numbers_from 2 (List.length research_data)
    /\ (chapter_number c9 = 99 /\ title c9 = "Conclusion"
        /\ content c9 <> EmptyString /\ sections c9 = []
        /\ 70 <= confidence c9 <= 95)
    /\ generate_book tp research_data ttl w
       = (match F64.truediv_int
                  (Py.sum (map confidence (c1 :: cs ++ [c9])))
                  (Z.of_nat (List.length (map confidence (c1 :: cs ++ [c9]))))
          with
          | Returned average =>
              Returned
                {| book_title := ttl;
                   topic := tp;
                   author := "AI Research Assistant";
                   timestamp := ts;
                   chapters := c1 :: cs ++ [c9];
                   table_of_contents :=
                     {| toc_chapter_number := 1;
                        toc_title := "Introduction";
                        page := 1 |}
                     :: map (fun c => {| toc_chapter_number := chapter_number c;
                                         toc_title := title c;
                                         page := chapter_number c |}) cs
                     ++ [ {| toc_chapter_number :=
                               2 + Z.of_nat (List.length research_data);
                             toc_title := "Conclusion";
                             page := 2 + Z.of_nat (List.length research_data) |} ];
                   book_word_count :=
                     Py.sum (map word_count (c1 :: cs ++ [c9]));
                   book_average_confidence := Float (F64.round1 average) |}
          | Raised e => Raised e
          end, w').
Proof.
  unfold generate_book, bind, lift.
  destruct (utcnow_isoformat w) as [ts w0].
  destruct (generate_introduction_spec tp research_data w0)
    as (c1 & w1 & H1 & F1). rewrite H1.
  match goal with |- context [chapter_loop tp research_data ?s w1] =>
    destruct (chapter_loop_spec tp research_data s w1)
      as (cs & w2 & Hl & Hall);
    destruct (chapter_loop_numbers tp research_data s w1)
      as (st & w2' & Hl' & Hc & _ & _) end.
  rewrite Hl in Hl'. injection Hl' as <- _. rewrite Hl.
  cbn [asm_chapters asm_table_of_contents asm_chapter_number app map] in *.
  injection Hc as Hc.
  destruct (generate_conclusion_spec tp research_data w2)
    as (c9 & w3 & H9 & F9). rewrite H9.
  exists ts, c1, cs, c9, w3.
  split; [exact F1|]. split; [exact Hall|]. split; [exact Hc|].
  split; [exact F9|].
  destruct (F64.truediv_int _ _); reflexivity.
Qed.

(** The chapters made from research items have a confidence of at least
    60, and below [2^1023] when the items' confidences are. *)
Lemma chapters_confidence_bounds (research_data : list research_item)
    (cs : list chapter) (B : Z) :
  96 <= B ->
  Forall2 chapter_of_item research_data cs ->
  Forall (fun item => get_confidence item < B) research_data ->
  Forall (fun c => 60 <= c <= B - 1) (map confidence cs).
Proof.
  intros HB Hall. induction Hall as [|i c ri rc Hic _ IH]; intros Hf;
    [constructor|].
  inversion Hf as [|? ? Hi Hr]; subst. cbn [map].
  constructor; [|apply IH, Hr].
  destruct Hic as (_ & _ & [(Hc & _)|(_ & Hc & _)]); rewrite Hc.
  - unfold calculate_chapter_confidence. lia.
  - lia.
Qed.

(** With moderate research data the average does not overflow. *)
Lemma book_average_returns (research_data : list research_item)
    (c1 : chapter) (cs : list chapter) (c9 : chapter) :
  70 <= confidence c1 <= 95 -> 70 <= confidence c9 <= 95 ->
  Forall2 chapter_of_item research_data cs ->
  moderate research_data ->
  exists average : F64.float,
    F64.truediv_int (Py.sum (map confidence (c1 :: cs ++ [c9])))
      (Z.of_nat (List.length (map confidence (c1 :: cs ++ [c9]))))
    = Returned average.
Proof.
  intros H1 H9 Hall [Hconf Hlen].
  assert (HB : 96 <= 2 ^ 1023).
  { pose proof (pow2_lt_1023 96 ltac:(discriminate)). lia. }
  assert (H1021 : 2 ^ 1021 = 2 * 2 ^ 1020)
    by (change 1021 with (Z.succ 1020); apply Z.pow_succ_r; discriminate).
  assert (H1020 : 2 <= 2 ^ 1020)
    by (change 2 with (2 ^ 1) at 1; apply pow2_mono; split; discriminate).
  set (B := 2 ^ 1023) in *. set (L := 2 ^ 1020) in *.
  assert (Hcs : Forall (fun c => 60 <= c <= B - 1)
                  (map confidence (c1 :: cs ++ [c9]))).
  { cbn [map]. constructor; [lia|]. rewrite map_app. apply Forall_app.
    split; [now apply (chapters_confidence_bounds research_data)|].
    repeat constructor; lia. }
  pose proof (sum_bounds _ _ _ Hcs) as Hsum.
  assert (Hn : Z.of_nat (List.length (map confidence (c1 :: cs ++ [c9])))
               = Z.of_nat (List.length research_data) + 2).
  { rewrite length_map. cbn [List.length]. rewrite length_app.
    rewrite <- (Forall2_length Hall). cbn [List.length]. lia. }
  rewrite Hn in *.
  set (n := Z.of_nat (List.length research_data)) in *.
  assert (0 <= n) by (subst n; apply Nat2Z.is_nonneg).
  set (total := Py.sum (map confidence (c1 :: cs ++ [c9]))) in *.
  pose proof (truediv_int_spec total (n + 2)) as Hdiv.
  destruct (F64.truediv_int total (n + 2)) as [average|msg];
    [now exists average|exfalso].
  destruct Hdiv as [_ Hov]; [fold L; lia|].
  fold B in Hov. clearbody total n B L.
  assert (B * (n + 2) <= (B - 1) * (n + 2) ) by lia.
  assert (B * (n + 2) - (n + 2) = (B - 1) * (n + 2)) by ring.
  lia.
Qed.

(** X9: the numbering of a generated book.  [generate_book] returns a
    book, or the division of the average confidence raises, which
    moderate research data rule out; in the book the table of contents
    counts 1, 2, ..., N+2 and the chapters carry 1, 2, ..., N+1 and
    then 99. *)
Theorem generate_book_numbering :
  forall (topic : string) (research_data : list research_item)
         (title : string) (w : W),
  exists (r : outcome book) (w' : W),
    generate_book topic research_data title w = (r, w')
    /\ match r with
       | Returned b =>
           map toc_chapter_number (table_of_contents b)
           = (1 :: numbers_from 2 (List.length research_data)
                ++ [2 + Z.of_nat (List.length research_data)])%list
           /\ map chapter_number (chapters b)
              = (1 :: numbers_from 2 (List.length research_data)
                   ++ [99])%list
       | Raised msg =>
           msg = "integer division result too large for a float"
       end
    /\ (moderate research_data -> exists b : book, r = Returned b).
Proof.
  intros tp research_data ttl w.
  destruct (generate_book_run tp research_data ttl w)
    as (ts & c1 & cs & c9 & w' & F1 & Hall & Hnum & F9 & Hrun).
  rewrite Hrun. eexists _, w'. split; [reflexivity|].
  split.
  - destruct (F64.truediv_int _ _) as [average|msg] eqn:E.
    + cbn [table_of_contents chapters map]. rewrite !map_app, map_map.
      cbn [map toc_chapter_number].
      change (fun x : chapter => chapter_number x) with chapter_number.
      rewrite Hnum.
      destruct F1 as (N1 & _), F9 as (N9 & _). rewrite N1, N9.
      split; reflexivity.
    + eapply truediv_int_raises, E. rewrite length_map. discriminate.
  - intros Hmod.
    destruct (book_average_returns research_data c1 cs c9) as [a ->];
      try assumption; [apply F1|apply F9|]. eexists. reflexivity.
Qed.

(** X10: a book is returned whatever the backend does (or the division
    of the average confidence raises, which moderate research data rule
    out): an introduction, one chapter per research item in the order of
    the items (each as [chapter_of_item] describes, so with the word
    count of its own content), and a conclusion; the introduction and
    the conclusion are never empty, and the book's word count is the sum
    over its chapters. *)
Theorem book_has_one_chapter_per_section :
  forall (tp : string) (research_data : list research_item)
         (ttl : string) (w : W),
  exists (r : outcome book) (w' : W),
    generate_book tp research_data ttl w = (r, w')
    /\ match r with
       | Returned b =>
           exists (intro : chapter) (body : list chapter) (concl : chapter),
             chapters b = (intro :: body ++ [concl])%list
             /\ Forall2 chapter_of_item research_data body
             /\ title intro = "Introduction" /\ title concl = "Conclusion"
             /\ content intro <> EmptyString
             /\ content concl <> EmptyString
             /\ book_title b = ttl /\ topic b = tp
             /\ book_word_count b = Py.sum (map word_count (chapters b))
       | Raised msg =>
           msg = "integer division result too large for a float"
       end
    /\ (moderate research_data -> exists b : book, r = Returned b).
Proof.
  intros tp research_data ttl w.
  destruct (generate_book_run tp research_data ttl w)
    as (ts & c1 & cs & c9 & w' & F1 & Hall & Hnum & F9 & Hrun).
  rewrite Hrun. eexists _, w'. split; [reflexivity|].
  split.
  - destruct (F64.truediv_int _ _) as [average|msg] eqn:E.
    + exists c1, cs, c9. cbn [chapters book_title topic book_word_count].
      destruct F1 as (_ & T1 & C1 & _), F9 as (_ & T9 & C9 & _).
      repeat split; assumption.
    + eapply truediv_int_raises, E. rewrite length_map. discriminate.
  - intros Hmod.
    destruct (book_average_returns research_data c1 cs c9) as [a ->];
      try assumption; [apply F1|apply F9|]. eexists. reflexivity.
Qed.

(** X11: in the book that [generate_book] returns (it returns unless
    the division of the average confidence raises, which moderate
    research data rule out) the table of contents has one entry per
    chapter, N + 2 in all, with the chapters' titles in the same order
    (Introduction, the section names, Conclusion), and every entry's
    page is its chapter number. *)
Theorem table_of_contents_mirrors_chapters :
  forall (tp : string) (research_data : list research_item)
         (ttl : string) (w : W),
  exists (r : outcome book) (w' : W),
    generate_book tp research_data ttl w = (r, w')
    /\ match r with
       | Returned b =>
           List.length (chapters b) = S (S (List.length research_data))
           /\ List.length (table_of_contents b) = List.length (chapters b)
           /\ map toc_title (table_of_contents b) = map title (chapters b)
           /\ Forall (fun e => page e = toc_chapter_number e)
                (table_of_contents b)
           /\ map title (chapters b)
              = ("Introduction" :: map get_section research_data
                   ++ ["Conclusion"])%list
       | Raised msg =>
           msg = "integer division result too large for a float"
       end
    /\ (moderate research_data -> exists b : book, r = Returned b).
Proof.
  intros tp research_data ttl w.
  destruct (generate_book_run tp research_data ttl w)
    as (ts & c1 & cs & c9 & w' & F1 & Hall & Hnum & F9 & Hrun).
  rewrite Hrun. eexists _, w'. split; [reflexivity|].
  split.
  - destruct (F64.truediv_int _ _) as [average|msg] eqn:E.
    2:{ eapply truediv_int_raises, E. rewrite length_map. discriminate. }
    cbn [chapters table_of_contents].
    destruct F1 as (_ & T1 & _), F9 as (_ & T9 & _).
    assert (Hlen : List.length cs = List.length research_data)
      by (symmetry; eapply Forall2_length, Hall).
    assert (Htitles : map title cs = map get_section research_data).
    { clear - Hall. induction Hall as [|i c ri rc [Ht _] _ IH]; [reflexivity|].
      cbn. now rewrite Ht, IH. }
    repeat split.
    + cbn [List.length]. rewrite length_app, Hlen. cbn. lia.
    + cbn [List.length]. rewrite !length_app, length_map. reflexivity.
    + cbn [map]. rewrite !map_app, map_map. cbn [map toc_title].
      now rewrite T1, T9.
    + constructor; [reflexivity|]. apply Forall_app. split.
      * apply Forall_map, Forall_forall. reflexivity.
      * repeat constructor.
    + cbn [map]. rewrite map_app, Htitles, T1. cbn [map]. now rewrite T9.
  - intros Hmod.
    destruct (book_average_returns research_data c1 cs c9) as [a ->];
      try assumption; [apply F1|apply F9|]. eexists. reflexivity.
Qed.

(** X12: when no research item has a confidence above 105, the book is
    returned and every chapter has a confidence between 60 and 95.  The
    introduction and the conclusion are at 70 or above, and so is every
    chapter that was expanded: a chapter below 70 is a fallback of
    [generate_chapter], that is the research details of its item with no
    sub-section and the confidence [max(base_confidence - 10, 60)], for
    an item of confidence below 80. *)
Theorem book_confidences_in_range :
  forall (tp : string) (research_data : list research_item)
         (ttl : string) (w : W),
    Forall (fun item => get_confidence item <= 105) research_data ->
    Z.of_nat (List.length research_data) < 2 ^ 1020 ->
    exists (b : book) (w' : W) (intro : chapter) (body : list chapter)
           (concl : chapter),
      generate_book tp research_data ttl w = (Returned b, w')
      /\ Forall (fun c => 60 <= confidence c <= 95) (chapters b)
      /\ chapters b = (intro :: body ++ [concl])%list
      /\ 70 <= confidence intro /\ 70 <= confidence concl
      /\ Forall2 (fun item c =>
                    confidence c < 70 ->
                    content c = get_details item
                    /\ sections c = []
                    /\ confidence c = Z.max (get_confidence item - 10) 60
                    /\ get_confidence item < 80)
           research_data body.
Proof.
  intros tp research_data ttl w Hconf Hlen.
  destruct (generate_book_run tp research_data ttl w)
    as (ts & c1 & cs & c9 & w' & F1 & Hall & Hnum & F9 & Hrun).
  rewrite Hrun.
  destruct (book_average_returns research_data c1 cs c9) as [a ->];
    try assumption; [apply F1|apply F9| |].
  { split; [|exact Hlen]. eapply Forall_impl; [|exact Hconf].
    cbn beta. intros item Hi.
    pose proof (pow2_lt_1023 106 ltac:(discriminate)). lia. }
  eexists _, w', c1, cs, c9. split; [reflexivity|].
  cbn [chapters].
  destruct F1 as (_ & _ & _ & _ & R1), F9 as (_ & _ & _ & _ & R9).
  split; [|split; [reflexivity|split; [lia|split; [lia|]]]].
  - constructor; [lia|].
    apply Forall_app. split; [|repeat constructor; lia].
    clear - Hall Hconf. induction Hall as [|i c ri rc Hic _ IH];
      [constructor|].
    inversion Hconf as [|? ? Hi Hr]; subst.
    constructor; [|apply IH, Hr].
    destruct Hic as (_ & _ & [(Hc & _)|(_ & Hc & _)]); rewrite Hc.
    + unfold calculate_chapter_confidence. lia.
    + lia.
  - clear - Hall. induction Hall as [|i c ri rc Hic _ IH]; constructor;
      [|exact IH].
    intros Hlow.
    destruct Hic as (_ & _ & [(Hc & _)|(Hd & Hc & Hs)]).
    + exfalso. rewrite Hc in Hlow. unfold calculate_chapter_confidence in Hlow.
      lia.
    + repeat split; try assumption. lia.
Qed.

End Book.

Lemma book_confidences_witness :
  exists (b : book) (w' : Script.world),
    BookGenerator.generate_book "AI" [item_with 50; item_with 92] "T"
      Script.all_down = (Returned b, w')
    /\ map confidence (chapters b) = [70; 60; 82; 70].
Proof.
  destruct (book_confidences_in_range "AI" [item_with 50; item_with 92] "T"
              Script.all_down)
    as (b & w' & intro & body & concl & Hb & _).
  { repeat constructor; vm_compute; discriminate. }
  { apply Z.lt_le_trans with (2 ^ 2); [reflexivity|].
    apply pow2_mono. split; discriminate. }
  exists b, w'. split; [exact Hb|].
  vm_compute in Hb. injection Hb as <- _. reflexivity.
Defined.

Lemma split_ws_starts_word (c : ascii) (s : string) :
  Py.isspace c = false -> Py.split_ws (String c s) <> [].
Proof.
  intros Hc. cbn [Py.split_ws]. rewrite Hc.
  destruct s as [|c' s']; [discriminate|].
  destruct (Py.isspace c'); [discriminate|].
  destruct (Py.split_ws (String c' s')); discriminate.
Qed.

(** Words do not reach across a whitespace character. *)
Lemma split_ws_at_space (s t : string) (c : ascii) :
  Py.isspace c = true ->
  Py.split_ws (s ++ String c t) = (Py.split_ws s ++ Py.split_ws t)%list.
Proof.
  intros Hc. induction s as [|d s IH].
  - cbn [append Py.split_ws app]. now rewrite Hc.
  - cbn [append]. cbn [Py.split_ws]. destruct (Py.isspace d) eqn:Hd.
    + exact IH.
    + destruct s as [|d' s'].
      * cbn [append]. rewrite Hc. cbn [append] in IH. rewrite IH. reflexivity.
      * cbn [append] in *. destruct (Py.isspace d') eqn:Hd'.
        -- rewrite IH. reflexivity.
        -- rewrite IH.
           pose proof (split_ws_starts_word d' s' Hd') as Hne.
           destruct (Py.split_ws (String d' s')); [contradiction|reflexivity].
Qed.

Section Book.
Context {W : Type} {services : BookGenerator.Services W}.
Import BookGenerator.

(** X13: when the introduction cannot be generated, the fallback
    chapter records 15 words and confidence 70, while its text has 12
    words plus the words of the topic. *)
Theorem introduction_fallback_word_count :
  forall (tp : string) (research_data : list research_item)
         (w w' : W) (msg : string),
    generate_with_bedrock (introduction_prompt tp) w = (Raised msg, w') ->
    exists c : chapter,
      generate_introduction tp research_data w = (Returned c, w')
      /\ word_count c = 15
      /\ confidence c = 70
      /\ Z.of_nat (List.length (Py.split_ws (content c)))
         = 12 + Z.of_nat (List.length (Py.split_ws tp)).
Proof.
  intros tp rd w w' msg H. unfold generate_introduction, try_except, bind.
  rewrite H. eexists. split; [reflexivity|]. cbn [word_count confidence content].
  split; [reflexivity|]. split; [reflexivity|].
  change ("This comprehensive guide explores " ++ tp ++ " in detail, "
            ++ "providing insights, analysis, and practical information.")
    with ("This comprehensive guide explores"
            ++ String " " (tp ++ String " "
                 "in detail, providing insights, analysis, and practical information.")).
  rewrite (split_ws_at_space "This comprehensive guide explores" _ " ")
    by reflexivity.
  rewrite (split_ws_at_space tp _ " ") by reflexivity.
  rewrite !length_app, !Nat2Z.inj_add.
  change (Z.of_nat (List.length
            (Py.split_ws "This comprehensive guide explores"))) with 4.
  change (Z.of_nat (List.length
            (Py.split_ws "in detail, providing insights, analysis, and practical information.")))
    with 8.
  lia.
Qed.

(** X14: when the conclusion cannot be generated, the fallback chapter
    records 15 words and confidence 70, while its text has 13 words plus
    the words of the topic. *)
Theorem conclusion_fallback_word_count :
  forall (tp : string) (research_data : list research_item)
         (w w' : W) (msg : string),
    generate_with_bedrock
      (conclusion_prompt tp (map get_section research_data)) w
    = (Raised msg, w') ->
    exists c : chapter,
      generate_conclusion tp research_data w = (Returned c, w')
      /\ word_count c = 15
      /\ confidence c = 70
      /\ Z.of_nat (List.length (Py.split_ws (content c)))
         = 13 + Z.of_nat (List.length (Py.split_ws tp)).
Proof.
  intros tp rd w w' msg H. unfold generate_conclusion, try_except, bind.
  rewrite H. eexists. split; [reflexivity|]. cbn [word_count confidence content].
  split; [reflexivity|]. split; [reflexivity|].
  change ("This guide has explored " ++ tp ++ " from multiple angles, "
            ++ "providing comprehensive insights and practical information.")
    with ("This guide has explored"
            ++ String " " (tp ++ String " "
                 "from multiple angles, providing comprehensive insights and practical information.")).
  rewrite (split_ws_at_space "This guide has explored" _ " ") by reflexivity.
  rewrite (split_ws_at_space tp _ " ") by reflexivity.
  rewrite !length_app, !Nat2Z.inj_add.
  change (Z.of_nat (List.length (Py.split_ws "This guide has explored")))
    with 4.
  change (Z.of_nat (List.length
            (Py.split_ws "from multiple angles, providing comprehensive insights and practical information.")))
    with 9.
  lia.
Qed.
End Book.

Lemma introduction_fallback_witness :
  exists c : chapter,
    BookGenerator.generate_introduction "Electric Cars" [] Script.all_down
    = (Returned c, Script.all_down)
    /\ word_count c = 15
    /\ Z.of_nat (List.length (Py.split_ws (content c))) = 14.
Proof.
  destruct (introduction_fallback_word_count (services := Script.book_services)
              "Electric Cars" [] Script.all_down Script.all_down
              "bedrock: no response" eq_refl)
    as (c & Hc & Hw & _ & Hn).
  exists c. repeat split; assumption.
Defined.

Lemma conclusion_fallback_witness :
  exists c : chapter,
    BookGenerator.generate_conclusion "Solar" [] Script.all_down
    = (Returned c, Script.all_down)
    /\ word_count c = 15
    /\ Z.of_nat (List.length (Py.split_ws (content c))) = 14.
Proof.
  destruct (conclusion_fallback_word_count (services := Script.book_services)
              "Solar" [] Script.all_down Script.all_down
              "bedrock: no response" eq_refl)
    as (c & Hc & Hw & _ & Hn).
  exists c. repeat split; assumption.
Defined.


(* ================================================================== *)

(** * More on chunking *)
(* ================================================================== *)

Lemma concat_cons (x : string) (l : list string) :
  String.concat "" (x :: l) = x ++ String.concat "" l.
Proof. destruct l; cbn; [now rewrite append_empty_r|reflexivity]. Qed.

Lemma concat_snoc (l : list string) (x : string) :
  String.concat "" (l ++ [x]) = String.concat "" l ++ x.
Proof.
  induction l as [|y l IH]; [reflexivity|].
  cbn [app]. now rewrite !concat_cons, IH, append_assoc.
Qed.

Lemma falsy_empty (s : string) : Py.truthy s = false -> s = "".
Proof. destruct s; [reflexivity|discriminate]. Qed.

Section Chunks.

Import AudiobookGenerator.

Lemma pack_step_packed (max_size : Z) (st : pack_state) (sentence : string) :
  packed (pack_step max_size st sentence) = packed st ++ sentence.
Proof.
  unfold pack_step, packed.
  destruct (Py.len (current_chunk st) + Py.len sentence <=? max_size);
    cbn [chunks current_chunk].
  - now rewrite append_assoc.
  - destruct (Py.truthy (current_chunk st)) eqn:T.
    + now rewrite concat_snoc.
    + now rewrite (falsy_empty _ T), append_empty_r.
Qed.

Lemma fold_pack_packed (max_size : Z) (sentences : list string) :
  forall st,
    packed (fold_left (pack_step max_size) sentences st)
    = packed st ++ String.concat "" sentences.
Proof.
  induction sentences as [|s rest IH]; intros st.
  - cbn. now rewrite append_empty_r.
  - cbn [fold_left]. now rewrite IH, pack_step_packed, concat_cons, append_assoc.
Qed.

(** X15: the chunks, joined, are the text itself when the text fits,
    and otherwise the sentences joined: packing drops and reorders
    nothing beyond what the sentence split removed. *)
Theorem chunks_join_to_sentences :
  forall (text : string) (max_size : Z),
    String.concat "" (split_text_into_chunks text max_size)
    = if Py.len text <=? max_size then text
      else String.concat "" (sentences_of text).
Proof.
  intros text max_size. unfold split_text_into_chunks.
  destruct (Py.len text <=? max_size); [reflexivity|].
  pose proof (fold_pack_packed max_size (sentences_of text)
                {| chunks := []; current_chunk := "" |}) as H.
  unfold packed in H at 2. cbn [chunks current_chunk String.concat append] in H.
  rewrite <- H. unfold packed.
  destruct (Py.truthy (current_chunk _)) eqn:T.
  - apply concat_snoc.
  - now rewrite (falsy_empty _ T), append_empty_r.
Qed.

Lemma pack_step_bounded (max_size : Z) (st : pack_state) (sentence : string) :
  bounded_by max_size st -> Py.len sentence <= max_size ->
  bounded_by max_size (pack_step max_size st sentence).
Proof.
  intros [Hc Ho] Hs. unfold pack_step, bounded_by.
  destruct (Z.leb_spec (Py.len (current_chunk st) + Py.len sentence) max_size);
    cbn [chunks current_chunk].
  - split; [exact Hc|]. now rewrite len_append.
  - split; [|exact Hs]. destruct (Py.truthy (current_chunk st)); [|exact Hc].
    apply Forall_app. split; [exact Hc|]. now constructor.
Qed.

Lemma fold_pack_bounded (max_size : Z) (sentences : list string) :
  forall st,
    bounded_by max_size st ->
    Forall (fun s => Py.len s <= max_size) sentences ->
    bounded_by max_size (fold_left (pack_step max_size) sentences st).
Proof.
  induction sentences as [|s rest IH]; intros st Hst Hall; [exact Hst|].
  inversion Hall; subst. cbn [fold_left].
  apply IH; [apply pack_step_bounded|]; assumption.
Qed.

(** X16: when no single sentence is longer than the limit, no chunk
    is. *)
Theorem chunks_within_limit :
  forall (text : string) (max_size : Z),
    Forall (fun s => Py.len s <= max_size) (sentences_of text) ->
    Forall (fun c => Py.len c <= max_size)
      (split_text_into_chunks text max_size).
Proof.
  intros text max_size Hall. unfold split_text_into_chunks.
  destruct (Z.leb_spec (Py.len text) max_size) as [Hle|Hgt].
  - now constructor.
  - assert (H0 : 0 <= max_size).
    { pose proof (split_from_nonempty "|"
        (Py.replace ". " ".|" (Py.replace "? " "?|" (Py.replace "! " "!|" text)))
        0) as Hne.
      unfold sentences_of, Py.split in Hall.
      destruct (Py.split_from _ _ 0) as [|s0 l]; [contradiction|].
      inversion Hall; subst. pose proof (len_nonneg s0). lia. }
    destruct (fold_pack_bounded max_size (sentences_of text)
                {| chunks := []; current_chunk := "" |}) as [Hc Ho].
    + split; [constructor|]. cbn. exact H0.
    + exact Hall.
    + destruct (Py.truthy _); [|exact Hc].
      apply Forall_app. split; [exact Hc|]. now constructor.
Qed.

Lemma chunks_within_limit_witness :
  split_text_into_chunks "One. Two! Three? Four." 12
  = ["One.Two!"; "Three?Four."]
  /\ Forall (fun c => Py.len c <= 12)
       (split_text_into_chunks "One. Two! Three? Four." 12).
Proof.
  split; [reflexivity|].
  apply chunks_within_limit.
  change (sentences_of "One. Two! Three? Four.")
    with ["One."; "Two!"; "Three?"; "Four."].
  repeat (apply Forall_cons; [vm_compute; discriminate|]). apply Forall_nil.
Defined.

Lemma pack_step_nonempty (max_size : Z) (st : pack_state) (sentence : string) :
  Forall (fun c => c <> "") (chunks st) ->
  Forall (fun c => c <> "") (chunks (pack_step max_size st sentence)).
Proof.
  intros H. unfold pack_step.
  destruct (_ <=? _); cbn [chunks]; [exact H|].
  destruct (Py.truthy (current_chunk st)) eqn:T; [|exact H].
  apply Forall_app. split; [exact H|]. constructor; [|constructor].
  intros E. rewrite E in T. discriminate.
Qed.

(** X17: a text longer than the limit never yields an empty chunk. *)
Theorem long_text_chunks_nonempty :
  forall (text : string) (max_size : Z),
    max_size < Py.len text ->
    Forall (fun c => c <> "") (split_text_into_chunks text max_size).
Proof.
  intros text max_size Hgt. unfold split_text_into_chunks.
  destruct (Z.leb_spec (Py.len text) max_size) as [Hle|_]; [lia|].
  assert (H : forall l st, Forall (fun c => c <> "") (chunks st) ->
            Forall (fun c => c <> "")
              (chunks (fold_left (pack_step max_size) l st))).
  { induction l as [|s l IH]; intros st Hst; [exact Hst|].
    cbn [fold_left]. apply IH, pack_step_nonempty, Hst. }
  specialize (H (sentences_of text) {| chunks := []; current_chunk := "" |}
                ltac:(constructor)).
  destruct (Py.truthy (current_chunk _)) eqn:T; [|exact H].
  apply Forall_app. split; [exact H|]. constructor; [|constructor].
  intros E. rewrite E in T. discriminate.
Qed.

Lemma long_text_chunks_witness :
  Forall (fun c => c <> "") (split_text_into_chunks "Hi. Yo." 5).
Proof. apply long_text_chunks_nonempty. vm_compute. reflexivity. Defined.

End Chunks.

(* ================================================================== *)
(** * The audiobook stage *)
(* ================================================================== *)

Lemma sum_snoc (l : list Z) (x : Z) : Py.sum (l ++ [x]) = Py.sum l + x.
Proof.
  unfold Py.sum. rewrite fold_left_app. cbn [fold_left]. reflexivity.
Qed.

Section Narration.
Context {W : Type} {services : AudiobookGenerator.Services W}.
Import AudiobookGenerator.

Lemma chapter_audio_shape :
  forall (chapter_number : Z) (chapter_title text tp voice user_id : string)
         (confidence : option Z) (w : W),
  exists (r : audio_result) (w' : W),
    generate_chapter_audio chapter_number chapter_title text tp voice
      user_id confidence w = (Returned r, w')
    /\ narration_shape chapter_number chapter_title voice confidence r.
Proof.
  intros n ttl text tp vc uid conf w.
  unfold generate_chapter_audio, try_except.
  match goal with
  | |- context [match ?body w with _ => _ end] =>
      destruct (body w) as [[r0|m] w0] eqn:B
  end.
  2:{ eexists _, _. split; [reflexivity|]. right. cbn. repeat split. eauto. }
  exists r0, w0. split; [reflexivity|]. left.
  unfold bind, lift, ret, raise in B.
  repeat match type of B with
  | context [match ?x with _ => _ end] => destruct x eqn:?; try discriminate B
  | context [let (_, _) := ?x in _] => destruct x eqn:?
  end.
  all: injection B as <- _; cbn; repeat split; eexists; repeat split.
Qed.

(** X18: a narration never raises.  Whatever the speech backend, the
    storage and the file system do, [generate_chapter_audio] returns
    either a success with the audio information of the chapter (its
    number, title, voice and confidence, and the duration reported) and
    no error, or a failure with an error message, no audio information
    and duration 0; when the Groq client cannot be created, the failure
    carries that exception's message and nothing else is called. *)
Theorem chapter_audio_always_answers :
  forall (number : Z) (ttl text tp vc user_id : string)
         (conf : option Z) (w : W),
  exists (r : audio_result) (w' : W),
    generate_chapter_audio number ttl text tp vc user_id conf w
    = (Returned r, w')
    /\ narration_shape number ttl vc conf r
    /\ (forall (msg : string) (w0 : W),
          groq_client w = (Raised msg, w0) ->
          r = {| success := false; info := None; error := Some msg;
                 duration := 0 |}
          /\ w' = w0).
Proof.
  intros n ttl text tp vc uid conf w.
  destruct (chapter_audio_shape n ttl text tp vc uid conf w)
    as (r & w' & Hr & Hshape).
  exists r, w'. split; [exact Hr|]. split; [exact Hshape|].
  intros msg w0 Hc. revert Hr.
  unfold generate_chapter_audio, try_except. unfold bind at 1.
  rewrite Hc. unfold ret. intros H. injection H as <- <-. split; reflexivity.
Qed.

Lemma record_result_ok (n : Z) (ttl vc : string) (t : option string)
    (conf : option Z) (r : audio_result) (k : nat) (st : progress) (w : W) :
  narration_shape n ttl vc conf r -> progress_ok k st ->
  exists st',
    record_result n t r st w = (Returned st', w) /\ progress_ok (S k) st'.
Proof.
  intros [(Hs & He & i & Hi & Hd & _)|(Hs & Hi & Hd & e & He)] [Hk Ht];
    unfold record_result; rewrite Hs.
  - rewrite Hi. eexists. split; [reflexivity|]. split;
      cbn [pr_audio_files pr_failed_chapters pr_total_duration].
    + rewrite length_app. cbn [List.length]. lia.
    + rewrite map_app. cbn [map]. rewrite sum_snoc. lia.
  - rewrite He. eexists. split; [reflexivity|]. split;
      cbn [pr_audio_files pr_failed_chapters pr_total_duration].
    + rewrite length_app. cbn [List.length]. lia.
    + exact Ht.
Qed.

Lemma narrate_chapters_ok (tp vc : string) (inc : bool) (uid : string)
    (chapters : list chapter_item) :
  forall (k : nat) (st : progress) (w : W),
    progress_ok k st ->
    exists st' w',
      narrate_chapters tp vc inc uid chapters st w = (Returned st', w')
      /\ progress_ok (k + List.length chapters) st'.
Proof.
  induction chapters as [|c rest IH]; intros k st w Hst.
  - exists st, w. split; [reflexivity|]. cbn. now rewrite Nat.add_0_r.
  - cbn [narrate_chapters]. unfold bind at 1.
    match goal with
    | |- context [generate_chapter_audio ?n ?t ?x tp vc uid ?cf w] =>
        destruct (chapter_audio_shape n t x tp vc uid cf w)
          as (r & w1 & Hr & Hshape)
    end.
    cbv zeta. rewrite Hr. unfold bind at 1.
    match goal with
    | |- context [record_result ?n ?t r st w1] =>
        destruct (record_result_ok n _ vc t _ r k st w1 Hshape Hst)
          as (st1 & Hrec & Hst1)
    end.
    rewrite Hrec.
    destruct (IH (S k) st1 w1 Hst1) as (st' & w' & Hn & Hok).
    exists st', w'. split; [exact Hn|].
    cbn [List.length]. now rewrite Nat.add_succ_r.
Qed.


(** X19: [generate_audiobook] never raises and accounts for every
    narration: the audio files and the failed chapters together number
    one more than the chapters (the introduction), the total duration is
    the sum of the durations of the audio files, and the status is
    "completed" exactly when nothing failed, "failed" exactly when
    nothing succeeded, and "partial" otherwise. *)
Theorem audiobook_accounts_for_every_chapter :
  forall (tp : string) (book : book_content) (vc : string) (inc : bool)
         (uid : string) (w : W),
  exists (a : audiobook) (w' : W),
    generate_audiobook tp book vc inc uid w = (Returned a, w')
    /\ (List.length (audio_files a) + List.length (failed_chapters a))%nat
       = S (List.length (match bc_chapters book with
                         | Some l => l
                         | None => []
                         end))
    /\ total_chapters a
       = Z.of_nat (List.length (match bc_chapters book with
                                | Some l => l
                                | None => []
                                end))
    /\ total_duration a
       = Py.sum (map estimated_duration_seconds (audio_files a))
    /\ (status a = "completed" <-> failed_chapters a = [])
    /\ (status a = "failed" <-> audio_files a = [])
    /\ (status a = "completed" \/ status a = "partial"
        \/ status a = "failed").
Proof.
  intros tp book vc inc uid w. unfold generate_audiobook.
  set (chs := match bc_chapters book with Some l => l | None => [] end).
  unfold bind at 1.
  destruct (chapter_audio_shape 0 "Introduction"
              (generate_intro_text book) tp vc uid None w)
    as (r0 & w0 & Hr0 & Hshape0).
  rewrite Hr0. unfold bind at 1.
  destruct (record_result_ok 0 "Introduction" vc None None r0 0
              {| pr_audio_files := []; pr_total_duration := 0;
                 pr_failed_chapters := [] |} w0 Hshape0)
    as (st0 & Hrec & Hst0); [split; reflexivity|].
  rewrite Hrec. unfold bind at 1.
  destruct (narrate_chapters_ok tp vc inc uid chs 1 st0 w0 Hst0)
    as (st & w' & Hn & [Hcount Hsum]).
  rewrite Hn. eexists _, _. split; [reflexivity|].
  cbn [audio_files failed_chapters total_chapters total_duration status].
  cbn [Nat.add] in Hcount.
  split; [exact Hcount|]. split; [reflexivity|]. split; [exact Hsum|].
  destruct (pr_failed_chapters st) as [|f fs] eqn:Hf.
  - cbn [List.length] in *.
    destruct (Z.eqb_spec (Z.of_nat 0) (Z.of_nat (List.length chs) + 1));
      [lia|].
    repeat split; auto; try discriminate.
    intros E. rewrite E in Hcount. cbn in Hcount. lia.
  - destruct (Z.eqb_spec (Z.of_nat (List.length (f :: fs)))
                (Z.of_nat (List.length chs) + 1)) as [E|N].
    + repeat split; auto; try discriminate.
      destruct (pr_audio_files st); [reflexivity|cbn in *; lia].
    + repeat split; auto; try discriminate.
      intros E. rewrite E in Hcount. cbn [List.length Nat.add] in *. lia.
Qed.

End Narration.

(** Two chapters and the introduction, every narration succeeding; the
    first chapter is narrated with its confidence. *)
Example audiobook_of_two_chapters :
  exists a : AudiobookGenerator.audiobook,
    fst (AudiobookGenerator.generate_audiobook
           (services := Disk.speech_services) "AI"
           {| AudiobookGenerator.bc_title := Some "AI Revolution";
              AudiobookGenerator.bc_author := None;
              AudiobookGenerator.bc_table_of_contents := None;
              AudiobookGenerator.bc_chapters :=
                Some [ {| AudiobookGenerator.ci_chapter_number := Some 1;
                          AudiobookGenerator.ci_title := Some "Introduction";
                          AudiobookGenerator.ci_content := Some (words_text 150);
                          AudiobookGenerator.ci_confidence := Some 92 |};
                       {| AudiobookGenerator.ci_chapter_number := Some 2;
                          AudiobookGenerator.ci_title := None;
                          AudiobookGenerator.ci_content := Some (words_text 10);
                          AudiobookGenerator.ci_confidence := None |} ] |}
           "Calum-PlayAI" true "anonymous" Disk.blank) = Returned a
    /\ AudiobookGenerator.status a = "completed"
    /\ map estimated_duration_seconds (AudiobookGenerator.audio_files a)
       = [4; 65; 4]
    /\ AudiobookGenerator.total_duration a = 73.
Proof. eexists. vm_compute. repeat split. Qed.

(* ================================================================== *)
(** * Texts of several chunks *)
(* ================================================================== *)

Section SeveralChunks.
Context {W : Type} {services : AudiobookGenerator.Services W}.
Import AudiobookGenerator.

(** The file system, as far as the narration depends on it: a file that
    was removed is absent, removing a file does not bring another one
    back, and a file that is absent cannot be uploaded. *)
Variable absent : string -> W -> Prop.

Hypothesis remove_removes :
  forall (file : string) (w : W), absent file (snd (os_remove file w)).

Hypothesis remove_keeps_absent :
  forall (file other : string) (w : W),
    absent file w -> absent file (snd (os_remove other w)).

Hypothesis upload_reads_the_file :
  forall (file topic : string) (chapter_number : Z)
         (chapter_title user_id : string) (w : W),
    absent file w ->
    exists (msg : string) (w' : W),
      upload_audio_to_s3 file topic chapter_number chapter_title user_id w
      = (Raised msg, w').

Lemma synthesize_loop_length (vc : string) (text_chunks : list string) :
  forall (acc files : list string) (w w' : W),
    synthesize_loop vc text_chunks acc w = (Returned files, w') ->
    List.length files = (List.length acc + List.length text_chunks)%nat.
Proof.
  induction text_chunks as [|c rest IH]; intros acc files w w' H.
  - cbn in H. unfold ret in H. injection H as <- _. cbn. lia.
  - cbn [synthesize_loop] in H. unfold bind in H.
    destruct (speech_to_temp_file vc c w) as [[f|m] w1]; [|discriminate H].
    apply IH in H. rewrite H, length_app. cbn. lia.
Qed.

Lemma remove_all_keeps_absent (files : list string) (file : string) :
  forall w : W,
    absent file w ->
    exists w', remove_all files w = (Returned tt, w') /\ absent file w'.
Proof.
  induction files as [|g rest IH]; intros w Ha.
  - exists w. split; [reflexivity|exact Ha].
  - cbn [remove_all]. unfold bind, lift.
    pose proof (remove_keeps_absent file g w Ha) as Ha'.
    destruct (os_remove g w) as [[] w1]. cbn [snd] in Ha'. now apply IH.
Qed.

Lemma remove_all_removes_first (first : string) (rest : list string) (w : W) :
  exists w',
    remove_all (first :: rest) w = (Returned tt, w') /\ absent first w'.
Proof.
  cbn [remove_all]. unfold bind, lift.
  pose proof (remove_removes first w) as Ha.
  destruct (os_remove first w) as [[] w1]. cbn [snd] in Ha.
  now apply remove_all_keeps_absent.
Qed.

(** X20: a text that is cut into two chunks or more is never narrated.
    When every chunk is synthesized, [combine_audio_chunks] returns the
    first chunk's file, the clean-up loop removes all chunk files, that
    one included, and the upload then fails on the missing file; so
    whatever the services do, [generate_chapter_audio] returns a failure
    for such a text. *)
Theorem several_chunks_never_succeed :
  forall (chapter_number : Z) (ttl text tp vc user_id : string)
         (confidence : option Z) (w : W),
    (1 < List.length (split_text_into_chunks text max_chunk_size))%nat ->
    exists (msg : string) (w' : W),
      generate_chapter_audio chapter_number ttl text tp vc user_id
        confidence w
      = (Returned {| success := false; info := None; error := Some msg;
                     duration := 0 |}, w').
Proof.
  intros n ttl text tp vc uid conf w Hlen.
  unfold generate_chapter_audio, try_except.
  match goal with
  | |- context [match ?body w with _ => _ end] =>
      assert (Hbody : exists msg w', body w = (Raised msg, w'))
  end.
  { unfold bind at 1. destruct (groq_client w) as [[[]|m] w0];
      [|eexists _, _; reflexivity].
    unfold bind at 1.
    destruct (synthesize_loop vc (split_text_into_chunks text max_chunk_size)
                [] w0) as [[files|m] w1] eqn:Hs;
      [|eexists _, _; reflexivity].
    apply synthesize_loop_length in Hs. cbn [List.length Nat.add] in Hs.
    destruct files as [|first [|second others]];
      [cbn in Hs; lia|cbn in Hs; lia|].
    unfold bind at 1.
    replace (1 <? Z.of_nat (List.length (first :: second :: others)))
      with true
      by (symmetry; apply Z.ltb_lt; cbn [List.length];
          rewrite !Nat2Z.inj_succ; lia).
    unfold bind at 1.
    destruct (remove_all_removes_first first (second :: others) w1)
      as (w2 & Hrm & Ha).
    rewrite Hrm. unfold ret at 1. cbv beta iota.
    cbn [combine_audio_chunks]. unfold bind at 1.
    destruct (upload_reads_the_file first tp n ttl uid w2 Ha)
      as (msg & w3 & Hup).
    rewrite Hup. eexists _, _; reflexivity. }
  destruct Hbody as (msg & w' & ->). unfold ret. eexists _, _. reflexivity.
Qed.

End SeveralChunks.

(** The laws of the file system hold of the disk. *)
Lemma disk_remove_removes (file : string) (w : Disk.world) :
  Disk.present file
    (snd (AudiobookGenerator.os_remove (Services := Disk.speech_services)
            file w)) = false.
Proof.
  unfold Disk.present. cbn. induction (Disk.files w) as [|g l IH];
    [reflexivity|].
  cbn [filter]. destruct (String.eqb file g) eqn:E; cbn [negb].
  - exact IH.
  - cbn [existsb]. now rewrite E.
Qed.

Lemma disk_remove_keeps_absent (file other : string) (w : Disk.world) :
  Disk.present file w = false ->
  Disk.present file
    (snd (AudiobookGenerator.os_remove (Services := Disk.speech_services)
            other w)) = false.
Proof.
  unfold Disk.present. cbn. induction (Disk.files w) as [|g l IH];
    [reflexivity|].
  cbn [existsb filter]. intros H. apply orb_false_iff in H as [H1 H2].
  destruct (String.eqb other g); cbn [negb]; [now apply IH|].
  cbn [existsb]. rewrite H1. now apply IH.
Qed.

Lemma disk_upload_reads_the_file (file topic : string) (chapter_number : Z)
    (chapter_title user_id : string) (w : Disk.world) :
  Disk.present file w = false ->
  exists (msg : string) (w' : Disk.world),
    AudiobookGenerator.upload_audio_to_s3 (Services := Disk.speech_services)
      file topic chapter_number chapter_title user_id w
    = (Raised msg, w').
Proof. intros H. cbn. rewrite H. eexists _, _. reflexivity. Qed.

(** On the disk a text of two sentences, 9502 characters long, is cut
    into two chunks; both are synthesized, and the narration fails. *)
Lemma several_chunks_witness :
  (1 < List.length
         (AudiobookGenerator.split_text_into_chunks
            (Py.repeat_char "a" (Z.to_nat 9499) ++ ". b")
            AudiobookGenerator.max_chunk_size))%nat
  /\ exists (msg : string) (w' : Disk.world),
       AudiobookGenerator.generate_chapter_audio
         (services := Disk.speech_services) 3 "Overview"
         (Py.repeat_char "a" (Z.to_nat 9499) ++ ". b") "AI" "Calum-PlayAI"
         "u" None Disk.blank
       = (Returned {| success := false; info := None; error := Some msg;
                      duration := 0 |}, w').
Proof.
  assert (H : (1 < List.length
                     (AudiobookGenerator.split_text_into_chunks
                        (Py.repeat_char "a" (Z.to_nat 9499) ++ ". b")
                        AudiobookGenerator.max_chunk_size))%nat).
  { unfold AudiobookGenerator.max_chunk_size.
    rewrite split_two_sentences by (vm_compute; reflexivity).
    cbn [List.length]. apply Nat.lt_succ_diag_r. }
  split; [exact H|].
  exact (several_chunks_never_succeed (services := Disk.speech_services)
           (fun file w => Disk.present file w = false)
           disk_remove_removes disk_remove_keeps_absent
           disk_upload_reads_the_file
           3 "Overview" (Py.repeat_char "a" (Z.to_nat 9499) ++ ". b")
           "AI" "Calum-PlayAI" "u" None Disk.blank H).
Defined.

(** On the same disk a short text is narrated: its only chunk is
    uploaded and measured before its file is removed. *)
Example short_text_is_narrated :
  AudiobookGenerator.generate_chapter_audio
    (services := Disk.speech_services) 3 "Overview" "One. Two." "AI"
    "Calum-PlayAI" "u" None Disk.blank
  = (Returned
       {| success := true;
          info := Some {| ai_chapter_number := 3;
                          chapter_title := "Overview";
                          s3_key := "audiobooks/u//tmp/tmp0.mp3";
                          file_size_bytes := 1024;
                          estimated_duration_seconds := 0;
                          voice := "Calum-PlayAI";
                          ai_confidence := None |};
          error := None;
          duration := 0 |},
     {| Disk.files := []; Disk.created := 1 |}).
Proof. vm_compute. reflexivity. Qed.

(** A book whose second chapter is cut into two chunks: the chapter
    fails, the rest is narrated, and the audiobook is partial. *)
Example audiobook_with_a_long_chapter :
  exists a : AudiobookGenerator.audiobook,
    fst (AudiobookGenerator.generate_audiobook
           (services := Disk.speech_services) "AI"
           {| AudiobookGenerator.bc_title := Some "AI Revolution";
              AudiobookGenerator.bc_author := None;
              AudiobookGenerator.bc_table_of_contents := None;
              AudiobookGenerator.bc_chapters :=
                Some [ {| AudiobookGenerator.ci_chapter_number := Some 1;
                          AudiobookGenerator.ci_title := Some "Introduction";
                          AudiobookGenerator.ci_content := Some (words_text 150);
                          AudiobookGenerator.ci_confidence := Some 92 |};
                       {| AudiobookGenerator.ci_chapter_number := Some 2;
                          AudiobookGenerator.ci_title := Some "Overview";
                          AudiobookGenerator.ci_content :=
                            Some (Py.repeat_char "a" (Z.to_nat 9499) ++ ". b");
                          AudiobookGenerator.ci_confidence := None |} ] |}
           "Calum-PlayAI" false "anonymous" Disk.blank) = Returned a
    /\ AudiobookGenerator.status a = "partial"
    /\ map ai_chapter_number (AudiobookGenerator.audio_files a) = [0; 1]
    /\ List.length (AudiobookGenerator.failed_chapters a) = 1%nat.
Proof. eexists. vm_compute. repeat split. Qed.

(* ================================================================== *)
(** * The workflow *)
(* ================================================================== *)

Section WorkflowFacts.
Context {W : Type} {cloud : Orchestrator.Cloud W}.
Import Orchestrator.

Lemma invoke_research_answers (self : orchestrator) (tp uid : string) (w : W) :
  exists ri w1,
    _invoke_research_lambda self tp uid w = (Returned ri, w1)
    /\ (ri_success ri = true -> exists body, ri_data ri = Some body).
Proof.
  unfold _invoke_research_lambda, try_except, bind.
  destruct (invoke_research (research_lambda self) tp uid w)
    as [[[code body]|m] w1].
  - destruct (code =? 200); eexists _, _; (split; [reflexivity|]); cbn.
    + eauto.
    + discriminate.
  - eexists _, _. split; [reflexivity|]. cbn. discriminate.
Qed.

Lemma invoke_book_answers (self : orchestrator) (tp : string)
    (items : list research_item) (uid : string) (w : W) :
  exists bp w2,
    _invoke_book_lambda self tp items uid w = (Returned bp, w2)
    /\ (bp_status bp = "success" \/ bp_status bp = "failed"
        \/ bp_status bp = "error").
Proof.
  unfold _invoke_book_lambda, try_except, bind.
  destruct (invoke_book (book_lambda self) tp items _ uid w)
    as [[[code body]|m] w1].
  - destruct (code =? 200); eexists _, _; (split; [reflexivity|]); cbn; auto.
  - eexists _, _. split; [reflexivity|]. cbn. auto.
Qed.

(** X21: when the research Lambda does not succeed, the workflow ends
    there: status "failed" at stage "research" with the Lambda's
    error, and nothing is called after the research invocation (no
    validation result, no book, no history). *)
Theorem research_failure_ends_workflow :
  forall (self : orchestrator) (tp uid : string) (gen : bool) (w w1 : W)
         (ri : research_invocation),
    _invoke_research_lambda self tp uid (snd (utcnow_timestamp w))
    = (Returned ri, w1) ->
    ri_success ri = false ->
    process_research_request self tp uid gen w
    = (Returned
         {| workflow_id := uid ++ "_" ++ Py.str_int (fst (utcnow_timestamp w));
            wf_status := "failed";
            wf_stage := Some "research";
            wf_error := ri_error ri;
            wf_topic := None; wf_timestamp := None;
            wf_research := None; wf_book := None |}, w1).
Proof.
  intros self tp uid gen w w1 ri Hr Hs.
  unfold process_research_request, bind at 1, lift.
  destruct (utcnow_timestamp w) as [now w0]. cbn [fst snd] in *.
  unfold try_except, bind at 1. rewrite Hr, Hs. reflexivity.
Qed.

(** X22: when the research succeeds but the book is not requested or
    the quality gate rejects the research, the workflow completes with
    the book marked "skipped" (reason "Not requested" when the gate
    accepted, "Quality threshold not met" otherwise), and the book
    Lambda is not invoked: after the research only the clock and the
    history log are called. *)
Theorem book_skipped_without_acceptance :
  forall (self : orchestrator) (tp uid : string) (gen : bool) (w w1 : W)
         (ri : research_invocation) (body : lambda_body)
         (validation : verdict),
    _invoke_research_lambda self tp uid (snd (utcnow_timestamp w))
    = (Returned ri, w1) ->
    ri_success ri = true ->
    ri_data ri = Some body ->
    _validate_research_quality (min_confidence self)
      {| results := lb_results body |} = Returned validation ->
    gen && acceptable validation = false ->
    process_research_request self tp uid gen w
    = (Returned
         {| workflow_id := uid ++ "_" ++ Py.str_int (fst (utcnow_timestamp w));
            wf_status := "completed";
            wf_stage := None; wf_error := None;
            wf_topic := Some tp;
            wf_timestamp := Some (fst (utcnow_isoformat w1));
            wf_research :=
              Some {| rp_status := "success"; rp_data := body;
                      quality_metrics := validation |};
            wf_book :=
              Some {| bp_status := "skipped"; bp_data := None;
                      bp_error := None;
                      bp_reason :=
                        Some (if acceptable validation
                              then "Not requested"
                              else "Quality threshold not met") |} |},
       snd (log_workflow_history
              (uid ++ "_" ++ Py.str_int (fst (utcnow_timestamp w)))
              (snd (utcnow_isoformat w1)))).
Proof.
  intros self tp uid gen w w1 ri body validation Hr Hs Hd Hv Hno.
  unfold process_research_request, bind at 1, lift.
  destruct (utcnow_timestamp w) as [now w0]. cbn [fst snd] in *.
  unfold try_except, bind at 1. rewrite Hr, Hs. cbn [negb].
  unfold bind at 1. rewrite Hd. unfold ret at 1.
  unfold bind at 1. rewrite Hv.
  unfold bind at 1. rewrite Hno. unfold ret at 1.
  unfold bind at 1. destruct (utcnow_isoformat w1) as [ts w2].
  unfold bind at 1, _store_workflow_history, lift. cbn [workflow_id fst snd].
  destruct (log_workflow_history (uid ++ "_" ++ Py.str_int now) w2)
    as [[] w3]. cbn [fst snd].
  unfold ret. destruct (acceptable _); reflexivity.
Qed.

(** X23: when the book is requested and the gate accepts, the research
    results are present and non-empty, the book Lambda is invoked with
    them (it always answers), and its answer is the [book] entry of the
    completed workflow. *)
Theorem book_invoked_on_acceptance :
  forall (self : orchestrator) (tp uid : string) (w w1 : W)
         (ri : research_invocation) (body : lambda_body)
         (validation : verdict),
    _invoke_research_lambda self tp uid (snd (utcnow_timestamp w))
    = (Returned ri, w1) ->
    ri_success ri = true ->
    ri_data ri = Some body ->
    _validate_research_quality (min_confidence self)
      {| results := lb_results body |} = Returned validation ->
    acceptable validation = true ->
    exists (items : list research_item) (book : book_part) (w2 : W),
      lb_results body = Some items
      /\ items <> []
      /\ _invoke_book_lambda self tp items uid w1 = (Returned book, w2)
      /\ process_research_request self tp uid true w
         = (Returned
              {| workflow_id :=
                   uid ++ "_" ++ Py.str_int (fst (utcnow_timestamp w));
                 wf_status := "completed";
                 wf_stage := None; wf_error := None;
                 wf_topic := Some tp;
                 wf_timestamp := Some (fst (utcnow_isoformat w2));
                 wf_research :=
                   Some {| rp_status := "success"; rp_data := body;
                           quality_metrics := validation |};
                 wf_book := Some book |},
            snd (log_workflow_history
                   (uid ++ "_" ++ Py.str_int (fst (utcnow_timestamp w)))
                   (snd (utcnow_isoformat w2)))).
Proof.
  intros self tp uid w w1 ri body validation Hr Hs Hd Hv Hacc.
  destruct (lb_results body) as [items|] eqn:Hres;
    [|cbn in Hv; injection Hv as <-; discriminate Hacc].
  destruct items as [|i0 items'];
    [cbn in Hv; injection Hv as <-; discriminate Hacc|].
  destruct (invoke_book_answers self tp (i0 :: items') uid w1)
    as (book & w2 & Hb & _).
  exists (i0 :: items'), book, w2.
  split; [reflexivity|]. split; [discriminate|]. split; [exact Hb|].
  unfold process_research_request, bind at 1, lift.
  destruct (utcnow_timestamp w) as [now w0]. cbn [fst snd] in *.
  unfold try_except, bind at 1. rewrite Hr, Hs. cbn [negb].
  unfold bind at 1. rewrite Hd. unfold ret at 1.
  unfold bind at 1. rewrite Hres, Hv.
  unfold bind at 1. rewrite Hacc. cbn [andb].
  unfold bind at 1, ret at 1. unfold bind at 1. rewrite Hb. unfold ret at 1.
  unfold bind at 1. destruct (utcnow_isoformat w2) as [ts w3].
  unfold bind at 1, _store_workflow_history, lift. cbn [workflow_id fst snd].
  destruct (log_workflow_history (uid ++ "_" ++ Py.str_int now) w3)
    as [[] w4]. reflexivity.
Qed.

End WorkflowFacts.

(** The research Lambda answers 500: the workflow fails at the research
    stage after one clock reading and one invocation. *)
Lemma research_failure_witness :
  exists r w',
    Orchestrator.process_research_request CloudScript.demo "Solar" "u1" true
      CloudScript.failing_research = (Returned r, w')
    /\ Orchestrator.wf_status r = "failed"
    /\ Orchestrator.wf_error r = Some "Internal server error"
    /\ CloudScript.calls w' = ["clock"; "research"].
Proof.
  eexists _, _. split.
  - apply (research_failure_ends_workflow (cloud := CloudScript.cloud)
             CloudScript.demo "Solar" "u1" true CloudScript.failing_research
             _ _ eq_refl eq_refl).
  - repeat split.
Defined.

(** One high section out of three: the book is skipped and the book
    Lambda is never called. *)
Lemma book_skipped_witness :
  exists r w' b,
    Orchestrator.process_research_request CloudScript.demo "Solar" "u1" true
      CloudScript.weak_research = (Returned r, w')
    /\ Orchestrator.wf_status r = "completed"
    /\ Orchestrator.wf_book r = Some b
    /\ Orchestrator.bp_status b = "skipped"
    /\ Orchestrator.bp_reason b = Some "Quality threshold not met"
    /\ CloudScript.calls w' = ["clock"; "research"; "clock"; "history"].
Proof.
  destruct (Orchestrator._validate_research_quality (F64.of_int 70)
              {| Orchestrator.results :=
                   Orchestrator.lb_results (CloudScript.body_of [90; 60; 60]) |})
    as [v|m] eqn:Hv; [|vm_compute in Hv; discriminate Hv].
  pose proof Hv as Hv'. vm_compute in Hv'. injection Hv' as Ev. subst v.
  eexists _, _, _. split.
  - apply (book_skipped_without_acceptance (cloud := CloudScript.cloud)
             CloudScript.demo "Solar" "u1" true CloudScript.weak_research
             _ _ _ _ eq_refl eq_refl eq_refl Hv).
    reflexivity.
  - vm_compute. repeat split.
Defined.

(** Two high sections: the book Lambda is called, between the research
    and the second clock reading. *)
Lemma book_invoked_witness :
  exists r w' b,
    Orchestrator.process_research_request CloudScript.demo "Solar" "u1" true
      CloudScript.good_research = (Returned r, w')
    /\ Orchestrator.wf_book r = Some b
    /\ Orchestrator.bp_status b = "success"
    /\ CloudScript.calls w'
       = ["clock"; "research"; "book"; "clock"; "history"].
Proof.
  destruct (Orchestrator._validate_research_quality (F64.of_int 70)
              {| Orchestrator.results :=
                   Orchestrator.lb_results (CloudScript.body_of [92; 88]) |})
    as [v|m] eqn:Hv; [|vm_compute in Hv; discriminate Hv].
  pose proof Hv as Hv'. vm_compute in Hv'. injection Hv' as Ev. subst v.
  destruct (book_invoked_on_acceptance (cloud := CloudScript.cloud)
              CloudScript.demo "Solar" "u1" CloudScript.good_research
              _ _ _ _ eq_refl eq_refl eq_refl Hv)
    as (items & book & w2 & Hitems & _ & Hbook & Hrun).
  { reflexivity. }
  eexists _, _, book. split; [exact Hrun|].
  vm_compute in Hbook. injection Hbook as <- <-.
  vm_compute. repeat split.
Defined.

(* ================================================================== *)

(* ================================================================== *)
(** * The composite scorer *)
(* ================================================================== *)

Section Scorer.

Import ProbabilityScorer.

(** The literals 0.3, 0.2 and 0.5 as binary64 values. *)
Example literals :
  F64.decimal 3 1 = S754_finite false 5404319552844595 (-54)
  /\ F64.decimal 2 1 = S754_finite false 7205759403792794 (-55)
  /\ F64.decimal 5 1 = F64.half.
Proof. vm_compute. repeat split. Qed.

Example composite_example :
  let c := calculate_composite_score
             "Adoption grew 40% in 2023. Costs fell. Sales of electric cars rose."
             "groq" {| ctx_topic := Some "Electric Cars" |} in
  score_breakdown c
  = {| content_quality := F64.of_int 85; source_reliability := F64.of_int 88;
       context_fit := F64.of_int 90 |}
  /\ composite_score c = S754_finite false 6115043869039002 (-46)
  /\ confidence_level c = "High".
Proof. vm_compute. repeat split. Qed.

(** X24: the content quality score lies between 70 and 95: the cap at
    100 is never reached. *)
Theorem content_quality_in_range :
  forall content : string,
    F64.geb (_score_content_quality content) (F64.of_int 70) = true
    /\ F64.geb (F64.of_int 95) (_score_content_quality content) = true.
Proof.
  intros content. unfold _score_content_quality. cbv zeta.
  repeat match goal with
  | |- context [if ?b then _ else _] =>
      lazymatch b with
      | F64.ltb _ _ => fail
      | _ => destruct b
      end
  end; vm_compute; split; reflexivity.
Qed.

(** X25: the composite score lies between 72 and 94, so the confidence
    level is never "Low"; for the source "fallback" it is never
    "Very High". *)
Theorem composite_level_never_low :
  forall (content source : string) (ctx : context),
    let c := calculate_composite_score content source ctx in
    (confidence_level c = "Very High" \/ confidence_level c = "High"
     \/ confidence_level c = "Medium")
    /\ (source = "fallback" -> confidence_level c <> "Very High")
    /\ F64.geb (composite_score c) (F64.of_int 72) = true
    /\ F64.geb (F64.of_int 94) (composite_score c) = true.
Proof.
  intros content source ctx.
  unfold calculate_composite_score, _score_content_quality, _score_source,
    _score_context_fit. cbv zeta.
  destruct (String.eqb_spec source "bedrock") as [->|Nb];
  [|destruct (String.eqb_spec source "groq") as [->|Ng];
    [|destruct (String.eqb_spec source "fallback") as [->|Nf]]];
  repeat match goal with
  | |- context [if ?b then _ else _] =>
      lazymatch b with
      | F64.ltb _ _ => fail
      | F64.geb_int _ _ => fail
      | _ => destruct b
      end
  end; vm_compute;
  (split; [auto|split; [intros; try discriminate; try congruence|split; reflexivity]]).
Qed.

End Scorer.

(* ================================================================== *)
(** * An outage, end to end *)
(* ================================================================== *)

Lemma rejects_when_no_high (min_confidence : F64.float)
    (rs : list research_item) :
  Z.of_nat (List.length rs) < 2 ^ 53 ->
  filter (fun c => 85 <=? c) (Orchestrator.confidences_of rs) = [] ->
  match Orchestrator._validate_research_quality min_confidence
          {| Orchestrator.results := Some rs |} with
  | Returned v => Orchestrator.acceptable v = false
  | Raised msg => msg = "integer division result too large for a float"
  end.
Proof.
  intros Hlen F. destruct rs as [|r rs']; [reflexivity|].
  assert (Hpos : 0 < Z.of_nat (List.length (r :: rs')) < 2 ^ 53).
  { split; [|exact Hlen]. cbn [List.length]. rewrite Nat2Z.inj_succ.
    apply Z.lt_succ_r, Nat2Z.is_nonneg. }
  clear Hlen.
  rewrite validate_nonempty. cbv zeta.
  destruct (F64.truediv_int _ _) as [average|msg] eqn:E.
  2:{ eapply truediv_int_raises, E. destruct Hpos as [Hp _].
      intros Z0. rewrite Z0 in Hp. discriminate Hp. }
  cbn [Orchestrator.acceptable].
  rewrite int_geb_half by exact Hpos. clear Hpos.
  rewrite count_if_length, F. cbn [List.length].
  apply andb_false_iff. right. apply Z.leb_gt.
  rewrite Nat2Z.inj_succ. change (2 * Z.of_nat 0) with 0.
  apply Z.lt_succ_r, Nat2Z.is_nonneg.
Qed.

Lemma placeholders_sum (sections : list string) :
  Py.sum (Orchestrator.confidences_of
            (map ResearchHandler.fallback_item sections))
  = 50 * Z.of_nat (List.length sections).
Proof.
  induction sections as [|s l IH]; [reflexivity|].
  cbn [map Orchestrator.confidences_of List.length].
  rewrite sum_cons.
  fold (Orchestrator.confidences_of (map ResearchHandler.fallback_item l)).
  rewrite IH, Nat2Z.inj_succ.
  cbn [ri_confidence ResearchHandler.fallback_item]. lia.
Qed.

(** The gate on placeholders: the average is 50, nothing overflows, and
    the verdict rejects. *)
Lemma placeholders_verdict (min_confidence : F64.float)
    (sections : list string) :
  Z.of_nat (List.length sections) < 2 ^ 53 ->
  exists v : Orchestrator.verdict,
    Orchestrator._validate_research_quality min_confidence
      {| Orchestrator.results :=
           Some (map ResearchHandler.fallback_item sections) |}
    = Returned v
    /\ Orchestrator.acceptable v = false.
Proof.
  intros Hlen.
  pose proof (rejects_when_no_high min_confidence
                (map ResearchHandler.fallback_item sections)) as Hrej.
  rewrite length_map in Hrej. specialize (Hrej Hlen).
  assert (F : filter (fun c => 85 <=? c)
                (Orchestrator.confidences_of
                   (map ResearchHandler.fallback_item sections)) = []).
  { clear. induction sections as [|s l IH]; [reflexivity|exact IH]. }
  specialize (Hrej F).
  destruct (Orchestrator._validate_research_quality _ _) as [v|msg] eqn:E;
    [exists v; split; [reflexivity|exact Hrej]|exfalso].
  destruct sections as [|s l]; [discriminate E|].
  cbn [map] in E. rewrite validate_nonempty in E. cbv zeta in E.
  change (ResearchHandler.fallback_item s
          :: map ResearchHandler.fallback_item l)
    with (map ResearchHandler.fallback_item (s :: l)) in E.
  rewrite placeholders_sum, length_map in E.
  set (n := Z.of_nat (List.length (s :: l))) in *.
  assert (Hn : 0 < n < 2 ^ 1021).
  { split.
    - subst n. cbn [List.length]. rewrite Nat2Z.inj_succ.
      apply Z.lt_succ_r, Nat2Z.is_nonneg.
    - apply Z.lt_le_trans with (2 ^ 53); [exact Hlen|].
      apply pow2_mono. split; discriminate. }
  pose proof (truediv_int_spec (50 * n) n Hn) as Hdiv.
  destruct (F64.truediv_int (50 * n) n) as [a|m]; [discriminate E|].
  destruct Hdiv as [_ Hov].
  pose proof (pow2_lt_1023 51 ltac:(discriminate)) as H51.
  rewrite Z.abs_eq in Hov by lia.
  set (B := 2 ^ 1023) in *. clearbody n B.
  assert (51 * n <= B * n) by (apply Z.mul_le_mono_nonneg_r; lia). lia.
Qed.

Section Outage.
Context {W : Type} {backends : ResearchHandler.Backends W}.
Import ResearchHandler.

(** X26: when both backends fail on every call, the research stage
    returns the placeholder of every section, and the quality gate
    returns a rejecting verdict for that result whatever its threshold:
    an outage never leads to a book. *)
Theorem outage_yields_placeholders_and_no_book :
  forall (tp : string) (sections : list string) (w : W)
         (min_confidence : F64.float),
    (forall (prompt : string) (w0 : W),
        exists msg w1, bedrock_completion prompt w0 = (Raised msg, w1)) ->
    (forall (prompt : string) (w0 : W),
        exists msg w1, groq_completion prompt w0 = (Raised msg, w1)) ->
    Z.of_nat (List.length sections) < 2 ^ 53 ->
    exists (w' : W) (v : Orchestrator.verdict),
      generate_research tp sections w
      = (Returned (map fallback_item sections), w')
      /\ Orchestrator._validate_research_quality min_confidence
           {| Orchestrator.results := Some (map fallback_item sections) |}
         = Returned v
      /\ Orchestrator.acceptable v = false.
Proof.
  intros tp sections w t Hb Hg Hlen.
  assert (Hrun : forall l w0, exists w',
             generate_research tp l w0 = (Returned (map fallback_item l), w')).
  { induction l as [|s l IH]; intros w0.
    - exists w0. reflexivity.
    - rewrite generate_research_cons.
      destruct (research_section_returns tp s w0) as (item & w1 & Hs & _ & Hf).
      rewrite Hs. destruct (IH w1) as (w' & Hl). rewrite Hl.
      exists w'. cbn [map]. rewrite Hf; [reflexivity|].
      unfold both_fail, generate_with_bedrock, generate_with_groq, bind.
      destruct (Hb (nl ++ nl ++ "Human: " ++ create_research_prompt tp s
                       ++ nl ++ nl ++ "Assistant:") w0) as (m1 & wa & H1).
      destruct (Hg (create_research_prompt tp s) wa) as (m2 & wb & H2).
      exists m1, wa, m2, wb. rewrite H1, H2. split; reflexivity. }
  destruct (Hrun sections w) as (w' & Hr).
  destruct (placeholders_verdict t sections Hlen) as (v & Hv & Ha).
  exists w', v. split; [exact Hr|]. split; [exact Hv|exact Ha].
Qed.

End Outage.

Lemma outage_witness :
  exists (w' : unit) (v : Orchestrator.verdict),
    @ResearchHandler.generate_research unit dead_backends "Solar"
      ["Overview"; "Challenges"] tt
    = (Returned (map ResearchHandler.fallback_item ["Overview"; "Challenges"]),
       w')
    /\ Orchestrator._validate_research_quality (S754_zero false)
         {| Orchestrator.results :=
              Some (map ResearchHandler.fallback_item
                      ["Overview"; "Challenges"]) |}
       = Returned v
    /\ Orchestrator.acceptable v = false.
Proof.
  apply (outage_yields_placeholders_and_no_book (backends := dead_backends)).
  - intros p []. eexists _, _. reflexivity.
  - intros p []. eexists _, _. reflexivity.
  - reflexivity.
Defined.
